(** * Warehouse inbound reconciliation: [run_reconciliation] of [app.py]

    The development has these parts.

    - [Py]: the fragment of Python that [run_reconciliation] relies on:
      text ([str.strip], [str.upper], [str.startswith], [str], [repr]),
      JSON documents as produced by [json.loads], truthiness, [in],
      [dict.get], iteration and integer addition, with the exceptions they
      raise.
    - [Engine]: [run_reconciliation] as a function from the two session
      values (the challan document and the list of sticker documents) to
      the rows handed to [pd.DataFrame].
    - [Store]: the same function over an explicit object store, in which
      the session documents, the local dictionaries and lists and the
      resulting frame are objects at locations, so that mutation and
      aliasing are visible.
    - [Spec]: the vocabulary of the statements.
    - [App]: the rest of [app.py]: the prompt and the request sent to the
      model, [process_image_with_ai] with the cleaning of the reply,
      [clear_session], the buttons that process the challan and the
      stickers, the button of the dashboard and its summary.
    - [Terms]: the vocabulary of the statements about whole runs and
      sessions.
    - The properties of [Engine], then the properties of [Store]: what a run
      leaves untouched, and that it computes what [Engine] computes
      ([run_sim]).
    - Further properties of [Engine] (totals, order, empty and ill-formed
      input), of the text handed to [json.loads], of the extraction and of
      the session.

    Scope of the model.  Text is ASCII: a [string] is a Python [str] whose
    code points are below 128.  Numbers are Python [int]s of any size; JSON
    numbers with a fraction or exponent (Python [float]s) are not modelled,
    and a statement that depends on the arithmetic of the quantities says in
    a hypothesis that they are integers.
    The three status labels of the report, which are string constants in the
    source, are the constructors of [status].  [pd.DataFrame] is taken to
    store the rows it is given, cell by cell, without copying the cell
    values.  The Streamlit calls (the warning of line 119) have no part in
    the result and are left out.

    In [App] the model client and [json.loads] are parameters: a function
    from the request to a reply (a text, no text, or an exception) and a
    function from the cleaned text to a document or an exception.  Of the
    Streamlit calls the messages of [st.error], [st.success] and
    [st.warning] are kept, the warnings without their texts; widgets,
    layout and [st.rerun] are left out. *)

From Stdlib Require Import ZArith String Ascii List Lia Bool DecimalString.
From stdpp Require Import base option list strings.

Local Open Scope string_scope.
Local Open Scope Z_scope.
Local Open Scope list_scope.

Set Warnings "-clear-no-such-hyp".

(* ===================================================================== *)
(** * Python fragment *)
(* ===================================================================== *)

Module Py.

(** ** Exceptions and fallible results *)

Inductive exn : Type :=
| TypeError
| AttributeError
| KeyError.

Inductive outcome (A : Type) : Type :=
| Ok (a : A)
| Raise (e : exn).

Arguments Ok {A} a.
Arguments Raise {A} e.

Definition bind {A B : Type} (m : outcome A) (f : A -> outcome B) : outcome B :=
  match m with
  | Ok a => f a
  | Raise e => Raise e
  end.

Declare Scope outcome_scope.
Delimit Scope outcome_scope with outcome.
Bind Scope outcome_scope with outcome.

Notation "x <- m ;; k" := (bind m (fun x => k))
  (at level 100, m at next level, right associativity) : outcome_scope.

Local Open Scope outcome_scope.

(** A [for] loop threading an accumulator, stopping at the first exception. *)
Fixpoint for_each {A S : Type} (body : S -> A -> outcome S) (s : S) (xs : list A)
  : outcome S :=
  match xs with
  | [] => Ok s
  | x :: xs' => s' <- body s x;; for_each body s' xs'
  end.

(** ** Text *)

(** [str.isspace] on ASCII: TAB, LF, VT, FF, CR, FS, GS, RS, US and space. *)
Definition is_space (c : ascii) : bool :=
  let n := nat_of_ascii c in
  (Nat.leb 9 n && Nat.leb n 13) || (Nat.leb 28 n && Nat.leb n 32).

Fixpoint lstrip (s : string) : string :=
  match s with
  | EmptyString => EmptyString
  | String c s' => if is_space c then lstrip s' else s
  end.

Fixpoint rstrip (s : string) : string :=
  match s with
  | EmptyString => EmptyString
  | String c s' =>
      match rstrip s' with
      | EmptyString => if is_space c then EmptyString else String c EmptyString
      | r => String c r
      end
  end.

(** [s.strip()] *)
Definition strip (s : string) : string := rstrip (lstrip s).

Definition upper_char (c : ascii) : ascii :=
  let n := nat_of_ascii c in
  if Nat.leb 97 n && Nat.leb n 122 then ascii_of_nat (n - 32) else c.

(** [s.upper()] *)
Fixpoint upper (s : string) : string :=
  match s with
  | EmptyString => EmptyString
  | String c s' => String (upper_char c) (upper s')
  end.

(** [s.startswith(p)] *)
Definition startswith (s p : string) : bool := String.prefix p s.

(** [sub in s] for two strings *)
Fixpoint contains (sub s : string) : bool :=
  String.prefix sub s ||
  match s with
  | EmptyString => false
  | String _ s' => contains sub s'
  end.

Fixpoint join (sep : string) (parts : list string) : string :=
  match parts with
  | [] => EmptyString
  | [p] => p
  | p :: rest => p +:+ sep +:+ join sep rest
  end.

(** [str(n)] for an [int] *)
Definition str_int (n : Z) : string := NilZero.string_of_int (Z.to_int n).

Definition quote : ascii := "'"%char.
Definition dquote : ascii := "034"%char.
Definition backslash : ascii := "\"%char.

Definition hex_digit (n : nat) : ascii :=
  if Nat.ltb n 10 then ascii_of_nat (48 + n) else ascii_of_nat (87 + n).

Fixpoint mem_char (c : ascii) (s : string) : bool :=
  match s with
  | EmptyString => false
  | String d s' => Ascii.eqb c d || mem_char c s'
  end.

(** One character of [repr(s)], [q] being the enclosing quote. *)
Definition repr_char (q c : ascii) : string :=
  let n := nat_of_ascii c in
  if Ascii.eqb c backslash then String backslash (String backslash EmptyString)
  else if Ascii.eqb c q then String backslash (String q EmptyString)
  else if Nat.eqb n 9 then "\t"
  else if Nat.eqb n 10 then "\n"
  else if Nat.eqb n 13 then "\r"
  else if Nat.ltb n 32 || Nat.eqb n 127 then
    String backslash (String "x"
      (String (hex_digit (n / 16)) (String (hex_digit (n mod 16)) EmptyString)))
  else String c EmptyString.

Fixpoint repr_chars (q : ascii) (s : string) : string :=
  match s with
  | EmptyString => EmptyString
  | String c s' => repr_char q c +:+ repr_chars q s'
  end.

(** [repr(s)] for a [str]: single quotes, unless the text has a single quote
    and no double quote. *)
Definition repr_str (s : string) : string :=
  let q := if mem_char quote s && negb (mem_char dquote s) then dquote else quote in
  String q (repr_chars q s +:+ String q EmptyString).

(** ** JSON documents, as [json.loads] returns them *)

#[warnings="-register-all"]
Inductive json : Type :=
| JNull                                  (* None *)
| JBool (b : bool)                       (* True, False *)
| JInt (n : Z)                           (* int *)
| JStr (s : string)                      (* str *)
| JList (xs : list json)                 (* list *)
| JObj (kvs : list (string * json)).     (* dict, in insertion order *)

(** [repr(x)] *)
Fixpoint repr (x : json) : string :=
  match x with
  | JNull => "None"
  | JBool b => if b then "True" else "False"
  | JInt n => str_int n
  | JStr s => repr_str s
  | JList xs => "[" +:+ join ", " (map repr xs) +:+ "]"
  | JObj kvs =>
      "{" +:+ join ", " (map (fun kv => repr_str (fst kv) +:+ ": " +:+ repr (snd kv)) kvs)
          +:+ "}"
  end.

(** [str(x)]; also what an f-string field [{x}] renders. *)
Definition str (x : json) : string :=
  match x with
  | JStr s => s
  | _ => repr x
  end.

(** Dictionaries in insertion order, over any key type with decidable
    equality: JSON objects (text keys) and the local [expected_items]
    (pair keys). *)
Section Dict.
Context {K V : Type} `{EqDecision K}.

(** [d.get(k)], [None] when absent *)
Fixpoint dict_lookup (k : K) (d : list (K * V)) : option V :=
  match d with
  | [] => None
  | (k', v) :: d' => if decide (k = k') then Some v else dict_lookup k d'
  end.

(** [k in d] *)
Definition dict_mem (k : K) (d : list (K * V)) : bool :=
  match dict_lookup k d with Some _ => true | None => false end.

(** [d[k]] *)
Definition dict_getitem (k : K) (d : list (K * V)) : outcome V :=
  match dict_lookup k d with
  | Some v => Ok v
  | None => Raise KeyError
  end.

(** [d[k] = v]: in place when [k] is present, at the end otherwise *)
Fixpoint dict_set (k : K) (v : V) (d : list (K * V)) : list (K * V) :=
  match d with
  | [] => [(k, v)]
  | (k', v') :: d' =>
      if decide (k = k') then (k', v) :: d' else (k', v') :: dict_set k v d'
  end.
End Dict.

(** [bool(x)] *)
Definition truthy (x : json) : bool :=
  match x with
  | JNull => false
  | JBool b => b
  | JInt n => negb (Z.eqb n 0)
  | JStr s => negb (String.eqb s EmptyString)
  | JList xs => match xs with [] => false | _ => true end
  | JObj kvs => match kvs with [] => false | _ => true end
  end.

(** [x == s] for a [str] [s] *)
Definition eq_str (s : string) (x : json) : bool :=
  match x with
  | JStr t => String.eqb s t
  | _ => false
  end.

(** [s in x] for a [str] [s] *)
Definition py_in (s : string) (x : json) : outcome bool :=
  match x with
  | JObj kvs => Ok (dict_mem s kvs)
  | JList xs => Ok (existsb (eq_str s) xs)
  | JStr t => Ok (contains s t)
  | JNull | JBool _ | JInt _ => Raise TypeError
  end.

(** [x.get(k, dflt)] *)
Definition get (x : json) (k : string) (dflt : json) : outcome json :=
  match x with
  | JObj kvs => Ok (default dflt (dict_lookup k kvs))
  | _ => Raise AttributeError
  end.

Definition chars (s : string) : list json :=
  map (fun c => JStr (String c EmptyString)) (list_ascii_of_string s).

(** The items a [for] loop over [x] visits. *)
Definition iter (x : json) : outcome (list json) :=
  match x with
  | JList xs => Ok xs
  | JStr s => Ok (chars s)
  | JObj kvs => Ok (map (fun kv => JStr (fst kv)) kvs)
  | JNull | JBool _ | JInt _ => Raise TypeError
  end.

(** [n + x] for an [int] [n]; [bool] is a subclass of [int].  What raises
    is [None], a [str], a [list] or a [dict].  A [float], to which Python
    adds, is not a value of [json]: the statements that depend on the sum of
    quantities carry the hypothesis that the quantities are integers. *)
Definition add_int (n : Z) (x : json) : outcome Z :=
  match x with
  | JInt m => Ok (n + m)
  | JBool b => Ok (n + (if b then 1 else 0))
  | JNull | JStr _ | JList _ | JObj _ => Raise TypeError
  end.

End Py.

(* ===================================================================== *)
(** * The reconciliation engine on JSON documents *)
(* ===================================================================== *)

Module Engine.
Import Py.
Local Open Scope outcome_scope.

(** A key of [expected_items]: (description, size). *)
Abbreviation key := (string * string)%type.

(** A value of [expected_items]: [{'expected': e, 'received': r}]. *)
Record counter : Type := { expected : Z; received : Z }.

(** [expected_items], a dictionary in insertion order. *)
Abbreviation items := (list (key * counter)).

(** The three status labels. *)
Inductive status : Type := MATCH | SHORT | OVER.

(** A row of [report_data]; [V] is the type of the cell values that are
    taken from the input as they are. *)
Record row (V : Type) : Type := {
  Challan_Description : string;
  Size : V;
  Expected : Z;
  Received : Z;
  Variance : Z;
  Status : status
}.

Arguments Challan_Description {V} r.
Arguments Size {V} r.
Arguments Expected {V} r.
Arguments Received {V} r.
Arguments Variance {V} r.
Arguments Status {V} r.

Definition UNMATCHED_SCAN : string := "(UNMATCHED SCAN) ".

(** Lines 124-127: the key of a challan line. *)
Definition line_key (line : json) : outcome key :=
  d <- get line "material_description" (JStr EmptyString);;
  s <- get line "size" (JStr EmptyString);;
  Ok (strip (str d), upper (strip (str s))).

(** Lines 124-130: the body of the loop over the challan lines. *)
Definition add_line (expected_items : items) (line : json) : outcome items :=
  k <- line_key line;;
  let expected_items :=
    if dict_mem k expected_items then expected_items
    else dict_set k {| expected := 0; received := 0 |} expected_items in
  c <- dict_getitem k expected_items;;
  q <- get line "qty_units_expected" (JInt 0);;
  e <- add_int (expected c) q;;
  Ok (dict_set k {| expected := e; received := received c |} expected_items).

(** Lines 122-130. *)
Definition build_expected (lines : json) : outcome items :=
  ls <- iter lines;;
  for_each add_line [] ls.

(** Lines 135-136: the normalised style and size of a sticker. *)
Definition sticker_key (sticker : json) : outcome (string * string) :=
  st <- get sticker "style" (JStr EmptyString);;
  sz <- get sticker "code_size" (JStr EmptyString);;
  Ok (strip (str st), upper (strip (str sz))).

(** Line 143: the test of the inner loop. *)
Definition key_matches (sticker_style sticker_size : string) (challan_key : key) : bool :=
  startswith (fst challan_key) sticker_style && String.eqb (snd challan_key) sticker_size.

(** Lines 138-146: the loop over [expected_items.keys()], which stops at the
    first key that passes the test; the second component is [match_found]. *)
Fixpoint scan_keys (sticker_style sticker_size : string) (keys : list key)
    (expected_items : items) : outcome (items * bool) :=
  match keys with
  | [] => Ok (expected_items, false)
  | challan_key :: keys' =>
      if key_matches sticker_style sticker_size challan_key then
        c <- dict_getitem challan_key expected_items;;
        Ok (dict_set challan_key
              {| expected := expected c; received := received c + 1 |}
              expected_items, true)
      else scan_keys sticker_style sticker_size keys' expected_items
  end.

(** Lines 135-149: the body of the loop over the stickers; the state is
    [expected_items] and [unmatched_stickers]. *)
Definition match_sticker (st : items * list json) (sticker : json)
  : outcome (items * list json) :=
  let '(expected_items, unmatched_stickers) := st in
  k <- sticker_key sticker;;
  let '(sticker_style, sticker_size) := k in
  r <- scan_keys sticker_style sticker_size expected_items.*1 expected_items;;
  let '(expected_items, match_found) := r in
  if match_found then Ok (expected_items, unmatched_stickers)
  else Ok (expected_items, unmatched_stickers ++ [sticker]).

(** Lines 132-149. *)
Definition match_stickers (expected_items : items) (scanned_stickers : json)
  : outcome (items * list json) :=
  ss <- iter scanned_stickers;;
  for_each match_sticker (expected_items, []) ss.

(** Line 154. *)
Definition status_of (variance : Z) : status :=
  if Z.eqb variance 0 then MATCH else if Z.ltb variance 0 then SHORT else OVER.

(** Lines 153-162: the row of a key. *)
Definition key_row (entry : key * counter) : row json :=
  let '(k, data) := entry in
  let variance := received data - expected data in
  {| Challan_Description := fst k;
     Size := JStr (snd k);
     Expected := expected data;
     Received := received data;
     Variance := variance;
     Status := status_of variance |}.

(** Lines 165-172: the row of an unmatched sticker. *)
Definition unmatched_row (sticker : json) : outcome (row json) :=
  st <- get sticker "style" (JStr EmptyString);;
  sz <- get sticker "code_size" (JStr EmptyString);;
  Ok {| Challan_Description := UNMATCHED_SCAN +:+ str st;
        Size := sz;
        Expected := 0;
        Received := 1;
        Variance := 1;
        Status := OVER |}.

(** Lines 151-172. *)
Definition build_report (expected_items : items) (unmatched_stickers : list json)
  : outcome (list (row json)) :=
  let report_data := key_row <$> expected_items in
  for_each (fun report_data sticker =>
              r <- unmatched_row sticker;; Ok (report_data ++ [r]))
           report_data unmatched_stickers.

(** Line 118: the guard; [true] when the function returns [None]. *)
Definition no_challan (challan_data : json) : outcome bool :=
  if negb (truthy challan_data) then Ok true
  else has_lines <- py_in "lines" challan_data;; Ok (negb has_lines).

(** Lines 116-174.  [None] is the [return None] of line 120, which follows
    the warning that there is no challan to reconcile. *)
Definition run_reconciliation (challan_data scanned_stickers : json)
  : outcome (option (list (row json))) :=
  stop <- no_challan challan_data;;
  if stop then Ok None
  else
    lines <- get challan_data "lines" (JList []);;
    expected_items <- build_expected lines;;
    r <- match_stickers expected_items scanned_stickers;;
    let '(expected_items, unmatched_stickers) := r in
    report_data <- build_report expected_items unmatched_stickers;;
    Ok (Some report_data).

End Engine.

(* ===================================================================== *)
(** * The reconciliation engine over an object store *)
(* ===================================================================== *)

Module Store.
Import Py Engine.

(** A location of the store. *)
Abbreviation loc := nat.

(** Values: the immutable ones are held directly, lists and dictionaries
    through a reference. *)
Inductive val : Type :=
| VNone
| VBool (b : bool)
| VInt (n : Z)
| VStr (s : string)
| VRef (l : loc).

(** Objects.  The counter dictionaries of [expected_items] and the row
    dictionaries of [report_data] are created by the function and reachable
    only through these two containers; they are kept inside them. *)
Inductive obj : Type :=
| OList (xs : list val)                 (* a list *)
| ODict (kvs : list (string * val))     (* a dictionary with text keys *)
| OItems (kvs : items)                  (* [expected_items] *)
| ORows (rows : list (row val))         (* [report_data] *)
| OFrame (rows : list (row val)).       (* a [DataFrame] *)

(** The store; allocation appends, nothing is ever freed. *)
Abbreviation heap := (list obj).

(** A result: a value, a Python exception, or [Stuck] when the store is not
    one a Python program can be in (a dangling or cyclic reference, an object
    of the wrong kind at a location). *)
Inductive result (A : Type) : Type :=
| Ret (a : A)
| Exc (e : exn)
| Stuck.

Arguments Ret {A} a.
Arguments Exc {A} e.
Arguments Stuck {A}.

Definition M (A : Type) : Type := heap -> result A * heap.

Definition ret {A : Type} (a : A) : M A := fun h => (Ret a, h).

Definition raise {A : Type} (e : exn) : M A := fun h => (Exc e, h).

Definition stuck {A : Type} : M A := fun h => (Stuck, h).

Definition bind {A B : Type} (m : M A) (f : A -> M B) : M B := fun h =>
  match m h with
  | (Ret a, h') => f a h'
  | (Exc e, h') => (Exc e, h')
  | (Stuck, h') => (Stuck, h')
  end.

Declare Scope store_scope.
Delimit Scope store_scope with store.

Notation "x <- m ;; k" := (bind m (fun x => k))
  (at level 100, m at next level, right associativity) : store_scope.
Notation "m ;;; k" := (bind m (fun _ => k))
  (at level 100, right associativity) : store_scope.

Local Open Scope store_scope.

Definition lift {A : Type} (o : outcome A) : M A :=
  match o with
  | Ok a => ret a
  | Raise e => raise e
  end.

Definition alloc (o : obj) : M loc := fun h => (Ret (length h), h ++ [o]).

Definition load (l : loc) : M obj := fun h =>
  match h !! l with
  | Some o => (Ret o, h)
  | None => (Stuck, h)
  end.

Definition store (l : loc) (o : obj) : M unit := fun h => (Ret tt, <[l := o]> h).

Definition load_list (l : loc) : M (list val) :=
  o <- load l;; match o with OList xs => ret xs | _ => stuck end.

Definition load_items (l : loc) : M items :=
  o <- load l;; match o with OItems kvs => ret kvs | _ => stuck end.

Definition load_rows (l : loc) : M (list (row val)) :=
  o <- load l;; match o with ORows rows => ret rows | _ => stuck end.

(** A [for] loop. *)
Fixpoint for_each {A : Type} (body : A -> M unit) (xs : list A) : M unit :=
  match xs with
  | [] => ret tt
  | x :: xs' => body x;;; for_each body xs'
  end.

(** The JSON document a value stands for, read through the store; [n]
    bounds the depth. *)
Fixpoint denote_fuel (n : nat) (h : heap) (v : val) : option json :=
  match v with
  | VNone => Some JNull
  | VBool b => Some (JBool b)
  | VInt z => Some (JInt z)
  | VStr s => Some (JStr s)
  | VRef l =>
      match n with
      | O => None
      | S n' =>
          match h !! l with
          | Some (OList xs) => JList <$> mapM (denote_fuel n' h) xs
          | Some (ODict kvs) =>
              JObj <$> mapM (fun kv => pair (fst kv) <$> denote_fuel n' h (snd kv)) kvs
          | _ => None
          end
      end
  end.

(** A document nested deeper than the store has objects would visit an
    object twice. *)
Definition denote (h : heap) (v : val) : option json := denote_fuel (length h) h v.

(** [bool(x)] *)
Definition truthy (x : val) : M bool :=
  match x with
  | VNone => ret false
  | VBool b => ret b
  | VInt n => ret (negb (Z.eqb n 0))
  | VStr s => ret (negb (String.eqb s EmptyString))
  | VRef l =>
      o <- load l;;
      match o with
      | OList xs => ret (match xs with [] => false | _ => true end)
      | ODict kvs => ret (match kvs with [] => false | _ => true end)
      | _ => stuck
      end
  end.

(** [x == s] for a [str] [s] *)
Definition eq_str (s : string) (x : val) : bool :=
  match x with
  | VStr t => String.eqb s t
  | _ => false
  end.

(** [s in x] for a [str] [s] *)
Definition py_in (s : string) (x : val) : M bool :=
  match x with
  | VStr t => ret (contains s t)
  | VRef l =>
      o <- load l;;
      match o with
      | ODict kvs => ret (dict_mem s kvs)
      | OList xs => ret (existsb (eq_str s) xs)
      | _ => stuck
      end
  | VNone | VBool _ | VInt _ => raise TypeError
  end.

(** The attribute [x.get]: the dictionary whose method it is. *)
Definition get_method (x : val) : M (list (string * val)) :=
  match x with
  | VRef l =>
      o <- load l;;
      match o with
      | ODict kvs => ret kvs
      | OList _ => raise AttributeError
      | _ => stuck
      end
  | _ => raise AttributeError
  end.

(** [x.get(k, dflt)] *)
Definition get (x : val) (k : string) (dflt : val) : M val :=
  kvs <- get_method x;;
  ret (default dflt (dict_lookup k kvs)).

(** The items a [for] loop over [x] visits. *)
Definition iter (x : val) : M (list val) :=
  match x with
  | VStr s => ret (map (fun c => VStr (String c EmptyString)) (list_ascii_of_string s))
  | VRef l =>
      o <- load l;;
      match o with
      | OList xs => ret xs
      | ODict kvs => ret (map (fun kv => VStr (fst kv)) kvs)
      | _ => stuck
      end
  | VNone | VBool _ | VInt _ => raise TypeError
  end.

(** [n + x] for an [int] [n] *)
Definition add_int (n : Z) (x : val) : M Z :=
  match x with
  | VInt m => ret (n + m)
  | VBool b => ret (n + (if b then 1 else 0))
  | VNone | VStr _ => raise TypeError
  | VRef l =>
      o <- load l;;
      match o with
      | OList _ | ODict _ => raise TypeError
      | _ => stuck
      end
  end.

(** [str(x)], and an f-string field [{x}] *)
Definition str (x : val) : M string := fun h =>
  match denote h x with
  | Some j => (Ret (Py.str j), h)
  | None => (Stuck, h)
  end.

(** Lines 124-127. *)
Definition line_key (line : val) : M key :=
  d <- get line "material_description" (VStr EmptyString);;
  d <- str d;;
  s <- get line "size" (VStr EmptyString);;
  s <- str s;;
  ret (strip d, upper (strip s)).

(** Lines 124-130. *)
Definition add_line (expected_items : loc) (line : val) : M unit :=
  k <- line_key line;;
  its <- load_items expected_items;;
  (if dict_mem k its then ret tt
   else store expected_items
          (OItems (dict_set k {| expected := 0; received := 0 |} its)));;;
  its <- load_items expected_items;;
  c <- lift (dict_getitem k its);;
  q <- get line "qty_units_expected" (VInt 0);;
  e <- add_int (expected c) q;;
  store expected_items
    (OItems (dict_set k {| expected := e; received := received c |} its)).

(** Lines 138-146. *)
Fixpoint scan_keys (expected_items : loc) (sticker_style sticker_size : string)
    (keys : list key) : M bool :=
  match keys with
  | [] => ret false
  | challan_key :: keys' =>
      if key_matches sticker_style sticker_size challan_key then
        its <- load_items expected_items;;
        c <- lift (dict_getitem challan_key its);;
        store expected_items
          (OItems (dict_set challan_key
                     {| expected := expected c; received := received c + 1 |} its));;;
        ret true
      else scan_keys expected_items sticker_style sticker_size keys'
  end.

(** Lines 135-149. *)
Definition match_sticker (expected_items unmatched_stickers : loc) (sticker : val)
  : M unit :=
  st <- get sticker "style" (VStr EmptyString);;
  st <- str st;;
  sz <- get sticker "code_size" (VStr EmptyString);;
  sz <- str sz;;
  its <- load_items expected_items;;
  match_found <- scan_keys expected_items (strip st) (upper (strip sz)) its.*1;;
  if match_found then ret tt
  else
    xs <- load_list unmatched_stickers;;
    store unmatched_stickers (OList (xs ++ [sticker])).

(** [report_data.append(r)] *)
Definition append_row (report_data : loc) (r : row val) : M unit :=
  rows <- load_rows report_data;;
  store report_data (ORows (rows ++ [r])).

(** Lines 153-162. *)
Definition key_row (entry : key * counter) : row val :=
  let '(k, data) := entry in
  let variance := received data - expected data in
  {| Challan_Description := fst k;
     Size := VStr (snd k);
     Expected := expected data;
     Received := received data;
     Variance := variance;
     Status := status_of variance |}.

(** Lines 165-172. *)
Definition unmatched_row (sticker : val) : M (row val) :=
  st <- get sticker "style" (VStr EmptyString);;
  st <- str st;;
  sz <- get sticker "code_size" (VStr EmptyString);;
  ret {| Challan_Description := UNMATCHED_SCAN +:+ st;
         Size := sz;
         Expected := 0;
         Received := 1;
         Variance := 1;
         Status := OVER |}.

(** Line 118. *)
Definition no_challan (challan_data : val) : M bool :=
  t <- truthy challan_data;;
  if negb t then ret true
  else has_lines <- py_in "lines" challan_data;; ret (negb has_lines).

(** Lines 122-130; the result is [expected_items].  The empty list is the
    default passed to [get]. *)
Definition build_expected (challan_data : val) : M loc :=
  expected_items <- alloc (OItems []);;
  kvs <- get_method challan_data;;
  dflt <- alloc (OList []);;
  ls <- iter (default (VRef dflt) (dict_lookup "lines" kvs));;
  for_each (add_line expected_items) ls;;;
  ret expected_items.

(** Lines 132-149; the result is [unmatched_stickers]. *)
Definition match_stickers (expected_items : loc) (scanned_stickers : val) : M loc :=
  unmatched_stickers <- alloc (OList []);;
  ss <- iter scanned_stickers;;
  for_each (match_sticker expected_items unmatched_stickers) ss;;;
  ret unmatched_stickers.

(** Lines 151-172; the result is [report_data]. *)
Definition build_report (expected_items unmatched_stickers : loc) : M loc :=
  report_data <- alloc (ORows []);;
  its <- load_items expected_items;;
  for_each (fun entry => append_row report_data (key_row entry)) its;;;
  us <- load_list unmatched_stickers;;
  for_each (fun sticker => r <- unmatched_row sticker;; append_row report_data r) us;;;
  ret report_data.

(** Line 174: [pd.DataFrame(report_data)]. *)
Definition DataFrame (report_data : loc) : M val :=
  rows <- load_rows report_data;;
  frame <- alloc (OFrame rows);;
  ret (VRef frame).

(** Lines 116-174; the result is [None] or a reference to the frame. *)
Definition run_reconciliation (challan_data scanned_stickers : val) : M (option val) :=
  stop <- no_challan challan_data;;
  if stop then ret None
  else
    expected_items <- build_expected challan_data;;
    unmatched_stickers <- match_stickers expected_items scanned_stickers;;
    report_data <- build_report expected_items unmatched_stickers;;
    frame <- DataFrame report_data;;
    ret (Some frame).

End Store.

(* ===================================================================== *)
(** * Vocabulary of the statements *)
(* ===================================================================== *)

Module Spec.
Import Py Engine.

(** The fields of a JSON object. *)
Abbreviation fields := (list (string * json)).

(** ** Challan lines and the index *)

(** A field, or the empty text when the object does not have it. *)
Definition text_field (k : string) (o : fields) : json :=
  default (JStr EmptyString) (dict_lookup k o).

(** The quantity of a challan line, or 0 when the line does not have one. *)
Definition quantity (line : fields) : json :=
  default (JInt 0) (dict_lookup "qty_units_expected" line).

(** Integers, with the two booleans among them as in Python. *)
Definition is_int (x : json) : bool :=
  match x with
  | JInt _ | JBool _ => true
  | _ => false
  end.

Definition int_of (x : json) : Z :=
  match x with
  | JInt n => n
  | JBool true => 1
  | _ => 0
  end.

(** Values that are no number of any kind: null, text, lists and objects. *)
Definition is_no_number (x : json) : bool :=
  match x with
  | JNull | JStr _ | JList _ | JObj _ => true
  | JBool _ | JInt _ => false
  end.

(** Values that are not containers. *)
Definition is_scalar (x : json) : bool :=
  match x with
  | JList _ | JObj _ => false
  | _ => true
  end.

(** The key a challan line maps to: the trimmed description and the trimmed,
    upper-cased size. *)
Definition key_of (line : fields) : key :=
  (strip (str (text_field "material_description" line)),
   upper (strip (str (text_field "size" line)))).

(** The distinct elements of a list, in the order of their first
    occurrence. *)
Fixpoint first_seen (ks : list key) : list key :=
  match ks with
  | [] => []
  | k :: ks' => k :: filter (fun k' => k' <> k) (first_seen ks')
  end.

(** The sum of the quantities of the lines that map to [k]. *)
Definition total (k : key) (lines : list fields) : Z :=
  foldr Z.add 0 (int_of ∘ quantity <$> filter (fun l => key_of l = k) lines).

Definition zero : counter := {| expected := 0; received := 0 |}.

(** The effect of one line on the index. *)
Definition bump (acc : items) (line : fields) : items :=
  let c := default zero (dict_lookup (key_of line) acc) in
  dict_set (key_of line)
    {| expected := expected c + int_of (quantity line); received := received c |} acc.

(** ** Stickers *)

(** [s] starts with [p]. *)
Definition starts_with (s p : string) : Prop := exists rest, s = p +:+ rest.

(** The trimmed style and the trimmed, upper-cased size code of a sticker. *)
Definition style_of (sticker : fields) : string :=
  strip (str (text_field "style" sticker)).

Definition size_of (sticker : fields) : string :=
  upper (strip (str (text_field "code_size" sticker))).

(** The sticker can be counted against the key. *)
Definition wanted (sticker : fields) (k : key) : Prop :=
  starts_with (fst k) (style_of sticker) /\ snd k = size_of sticker.

(** The position of the first key in [ks] the sticker can be counted
    against, if there is one. *)
Definition target (ks : list key) (sticker : fields) : option nat :=
  fst <$> list_find (fun k => key_matches (style_of sticker) (size_of sticker) k) ks.

(** How many of the stickers are counted at position [i]. *)
Definition counted_at (ks : list key) (i : nat) (stickers : list fields) : Z :=
  Z.of_nat (length (filter (fun s => target ks s = Some i) stickers)).

(** The stickers that are counted nowhere, in their order. *)
Definition left_over (ks : list key) (stickers : list fields) : list fields :=
  filter (fun s => target ks s = None) stickers.

(** One more unit received. *)
Definition count_one (entry : key * counter) : key * counter :=
  (fst entry, {| expected := expected (snd entry);
                 received := received (snd entry) + 1 |}).

(** ** Reports *)

(** The sum of a column of the report. *)
Definition column_sum {V : Type} (col : row V -> Z) (rows : list (row V)) : Z :=
  foldr Z.add 0 (col <$> rows).

(** The sum of the received counters of the index. *)
Definition received_sum (expected_items : items) : Z :=
  foldr Z.add 0 (received ∘ snd <$> expected_items).

(** The row of an unmatched sticker, from its fields. *)
Definition over_row (sticker : fields) : row json :=
  {| Challan_Description := UNMATCHED_SCAN +:+ str (text_field "style" sticker);
     Size := text_field "code_size" sticker;
     Expected := 0;
     Received := 1;
     Variance := 1;
     Status := OVER |}.

(** ** The store *)

Import Store.

(** [m] keeps the first [n] objects of any store with at least [n] objects
    as they are, never shrinks the store, and its values satisfy [Q]. *)
Definition keeps {A : Type} (n : nat) (m : M A) (Q : A -> Prop) : Prop :=
  forall h, (n <= length h)%nat ->
    take n (m h).2 = take n h /\
    (length h <= length (m h).2)%nat /\
    forall a, (m h).1 = Ret a -> Q a.

Definition any {A : Type} (a : A) : Prop := True.

Definition fresh (n : nat) (l : loc) : Prop := (n <= l)%nat.

(** The value [v] stands for the document [j] in the store [h]. *)
Definition holds (h : heap) (v : val) (j : json) : Prop := denote h v = Some j.

Definition holds_field (h : heap) (kv : string * val) (jkv : string * json) : Prop :=
  kv.1 = jkv.1 /\ holds h kv.2 jkv.2.

(** A row of the store stands for a row of documents. *)
Definition row_holds (h : heap) (r : row val) (jr : row json) : Prop :=
  Challan_Description r = Challan_Description jr /\
  holds h (Size r) (Size jr) /\
  Expected r = Expected jr /\
  Received r = Received jr /\
  Variance r = Variance jr /\
  Status r = Status jr.

(** Running an operation that only reads. *)
Definition reads {A : Type} (m : M A) (h : heap) (o : outcome A) : Prop :=
  m h = (match o with Ok a => Ret a | Raise e => Exc e end, h).

(** The value a statement leaves, when only its exception matters. *)
Definition unit_of {A : Type} (o : outcome A) : result unit :=
  match o with
  | Ok _ => Ret tt
  | Raise e => Exc e
  end.

(** The value of a stage that returns the location [l]. *)
Definition loc_of {A : Type} (l : loc) (o : outcome A) : result loc :=
  match o with
  | Ok _ => Ret l
  | Raise e => Exc e
  end.

(** What the caller observes of a run: nothing to reconcile, the content of
    the frame, or the exception. *)
Definition row_doc (h : heap) (r : row val) : option (row json) :=
  size ← denote h (Size r);
  Some {| Challan_Description := Challan_Description r;
          Size := size;
          Expected := Expected r;
          Received := Received r;
          Variance := Variance r;
          Status := Status r |}.

Definition observe (res : result (option val) * heap)
  : option (outcome (option (list (row json)))) :=
  match res with
  | (Ret None, _) => Some (Ok None)
  | (Ret (Some (VRef l)), h) =>
      match h !! l with
      | Some (OFrame rows) => rows ← mapM (row_doc h) rows; Some (Ok (Some rows))
      | _ => None
      end
  | (Exc e, _) => Some (Raise e)
  | _ => None
  end.

(** ** A session, as documents and in the store *)

Definition session_challan : json :=
  JObj [("challan_number", JStr "DC-17");
        ("lines",
         JList [JObj [("material_description", JStr "Men's Shirt");
                      ("size", JStr "M"); ("qty_units_expected", JInt 2)];
                JObj [("material_description", JStr "Women's Top");
                      ("size", JStr "s"); ("qty_units_expected", JInt 1)]])].

Definition session_stickers : list fields :=
  [ [("style", JStr "Men's"); ("code_size", JStr " m ")];
    [("style", JStr "Kids"); ("code_size", JStr "S")] ].

Definition session_report : list (row json) :=
  [ {| Challan_Description := "Men's Shirt"; Size := JStr "M";
       Expected := 2; Received := 1; Variance := -1; Status := SHORT |};
    {| Challan_Description := "Women's Top"; Size := JStr "S";
       Expected := 1; Received := 0; Variance := -1; Status := SHORT |};
    {| Challan_Description := "(UNMATCHED SCAN) Kids"; Size := JStr "S";
       Expected := 0; Received := 1; Variance := 1; Status := OVER |} ].

Definition session_store : heap :=
  [ ODict [("challan_number", VStr "DC-17"); ("lines", VRef 1)];
    OList [VRef 2; VRef 3];
    ODict [("material_description", VStr "Men's Shirt"); ("size", VStr "M");
           ("qty_units_expected", VInt 2)];
    ODict [("material_description", VStr "Women's Top"); ("size", VStr "s");
           ("qty_units_expected", VInt 1)];
    OList [VRef 5; VRef 6];
    ODict [("style", VStr "Men's"); ("code_size", VStr " m ")];
    ODict [("style", VStr "Kids"); ("code_size", VStr "S")] ].

(** A session in which the size code of a sticker is a list. *)
Definition example_store : heap :=
  [ ODict [("lines", VRef 1)];
    OList [];
    OList [VRef 3];
    ODict [("style", VStr "Kids"); ("code_size", VRef 4)];
    OList [VStr "S"] ].

End Spec.

(* ===================================================================== *)
(** * The rest of the application: extraction, session and dashboard *)
(* ===================================================================== *)

Module App.
Import Py Engine.
Local Open Scope outcome_scope.

(** ** Text *)

Definition nl : string := String "010"%char EmptyString.

Definition backtick : ascii := "`"%char.

(** [s.replace(old, new)] for a non-empty [old], from left to right and
    without overlap; [skip] is the number of characters of the occurrence
    just found that are still to be passed over. *)
Fixpoint replace_from (old new : string) (skip : nat) (s : string) : string :=
  match s with
  | EmptyString => EmptyString
  | String c s' =>
      match skip with
      | S n => replace_from old new n s'
      | O =>
          if String.prefix old s
          then new +:+ replace_from old new (String.length old - 1) s'
          else String c (replace_from old new 0 s')
      end
  end.

(** [s.replace(old, new)] for the empty [old]: [new] before every character
    and at the end. *)
Fixpoint replace_empty (new s : string) : string :=
  match s with
  | EmptyString => new
  | String c s' => new +:+ String c (replace_empty new s')
  end.

(** [s.replace(old, new)] *)
Definition replace (s old new : string) : string :=
  match old with
  | EmptyString => replace_empty new s
  | _ => replace_from old new 0 s
  end.

(** The text of a triple-quoted literal whose lines are [ls], each ended by
    a line feed. *)
Definition text_lines (ls : list string) : string :=
  foldr (fun l rest => l +:+ nl +:+ rest) EmptyString ls.

(** A text between double quotes. *)
Definition quoted (s : string) : string :=
  String dquote (s +:+ String dquote EmptyString).

(** A line ["name": "type"] of a schema, after [indent] and before [sep]. *)
Definition schema_line (indent name type sep : string) : string :=
  indent +:+ quoted name +:+ ": " +:+ quoted type +:+ sep.

(** Lines 23-37. *)
Definition CHALLAN_JSON_SCHEMA : string :=
  nl +:+
  text_lines
    [ "{";
      schema_line EmptyString "challan_number" "string | null" ",";
      schema_line EmptyString "date" "YYYY-MM-DD | null" ",";
      quoted "lines" +:+ ": [";
      "    {";
      schema_line "    " "sto_sku" "string | null" ",";
      schema_line "    " "material_description" "string" ",";
      schema_line "    " "hsn" "string | null" ",";
      schema_line "    " "size" "string" ",";
      schema_line "    " "qty_units_expected" "integer" EmptyString;
      "    }";
      "]";
      "}" ].

(** Lines 39-46. *)
Definition STICKER_JSON_SCHEMA : string :=
  nl +:+
  text_lines
    [ "{";
      schema_line EmptyString "style" "string" ",";
      schema_line EmptyString "code_size" "string" ",";
      schema_line EmptyString "mrp" "number | null" ",";
      schema_line EmptyString "net_qty" "integer | null" EmptyString;
      "}" ].

(** Lines 67-80: the f-string. *)
Definition text_prompt (document_type schema : string) : string :=
  nl +:+
  text_lines
    [ "        Analyze the provided image of a '" +:+ document_type +:+ "'.";
      "        Your task is to extract the key information and return ONLY a single, strictly valid JSON object that conforms precisely to the schema below.";
      "        Do not add any explanatory text, comments, or markdown formatting like ```json. Your entire response must be the JSON object itself.";
      EmptyString;
      "        Key Instructions:";
      "        - For CHALLANS, the 'sto_sku' is the numeric code in the 'STO' column. The 'material_description' is the text in the 'Material Description' column. You MUST extract them as separate fields. Do not merge them.";
      "        - For CHALLANS with a grid of sizes, create a separate line item in the JSON for each size and its quantity. So basically the Size of the product should be taken from here";
      "        - For STICKERS, 'code_size' should be the most prominent size indicator and would be mentioned in the with "
        +:+ quoted "Code:" +:+ " (e.g., 'S', '36B').";
      "        - The quantity from the challan is always the quantity of the boxes (not the individual units inside them)";
      EmptyString;
      "        Schema to follow:";
      "        " +:+ schema ]
  +:+ "        ".

(** ** The collaborators of [process_image_with_ai] *)

(** An uploaded file of [st.file_uploader]. *)
Record uploaded_file : Type := {
  name : string;
  type : option string;
  getvalue : list Byte.byte
}.

(** What a call can raise, as far as the two [except] clauses of lines
    105-108 tell it apart. *)
Inductive raised : Type :=
| JSONDecodeError                 (* [json.JSONDecodeError], or a subclass *)
| Exception (message : string).   (* any other [Exception] [e], with [str(e)] *)

(** What [client.models.generate_content] does: a response with its [text]
    ([None] when the response has no text part), or an exception. *)
Inductive reply : Type :=
| Response (text : option string)
| Fails (e : raised).

(** What [json.loads] does. *)
Inductive decoded : Type :=
| Decoded (json_data : json)
| Undecoded (e : raised).

(** The request of lines 92-98. *)
Record request : Type := {
  model : string;
  prompt : string;
  data : list Byte.byte;
  mime_type : string;
  thinking_budget : Z
}.

(** How a function ends: it returns, or the exception of a handler that
    reads a local variable before its assignment gets out. *)
Inductive completion (A : Type) : Type :=
| Return (a : A)
| UnboundLocalError.

Arguments Return {A} a.
Arguments UnboundLocalError {A}.

(** Line 100: the text handed to [json.loads]. *)
Definition raw_text_of (text : string) : string :=
  strip (replace (replace (strip text) "```json" EmptyString) "```" EmptyString).

(** Lines 65-98: what is sent to the model. *)
Definition request_of (image_file : uploaded_file) (document_type : string) : request :=
  let schema :=
    if String.eqb document_type "CHALLAN" then CHALLAN_JSON_SCHEMA
    else STICKER_JSON_SCHEMA in
  let text_prompt := text_prompt document_type schema in
  let image_bytes := getvalue image_file in
  {| model := "gemini-2.5-flash";
     prompt := text_prompt;
     data := image_bytes;
     mime_type :=
       match type image_file with
       | Some t => if String.eqb t EmptyString then "image/jpeg" else t
       | None => "image/jpeg"
       end;
     thinking_budget := 0 |}.

(** The message of the [AttributeError] of [None.strip]. *)
Definition no_strip : string := "'NoneType' object has no attribute 'strip'".

(** ** The session *)

(** [st.session_state]; the report is absent until a run stores one. *)
Record session : Type := {
  challan_data : json;
  scanned_stickers : list json;
  reconciliation_report : option (list (row json))
}.

(** Lines 56-59. *)
Definition initial_session : session :=
  {| challan_data := JObj [];
     scanned_stickers := [];
     reconciliation_report := None |}.

(** The warnings, whose texts are not transcribed. *)
Inductive warning : Type :=
| no_challan_to_reconcile     (* line 119 *)
| process_a_challan_first     (* line 244 *)
| no_challan_available        (* line 289 *)
| no_stickers_scanned.        (* line 291 *)

(** What a handler shows with [st.error], [st.success] and [st.warning]. *)
Inductive message : Type :=
| st_error (body : string)
| st_success (body : string)
| st_warning (w : warning).

(** Lines 110-114. *)
Definition clear_session (state : session) : session * list message :=
  ({| challan_data := JObj [];
      scanned_stickers := [];
      reconciliation_report := reconciliation_report state |},
   [st_success "Session cleared! Please upload a new challan."]).

(** How a handler ends, with the session it leaves and what it has shown:
    it runs to its end, or the exception of [process_image_with_ai] aborts
    it. *)
Inductive handled : Type :=
| Done (state : session) (shown : list message)
| Aborted (state : session) (shown : list message).

Definition session_of (h : handled) : session :=
  match h with
  | Done state _ | Aborted state _ => state
  end.

Definition shown_of (h : handled) : list message :=
  match h with
  | Done _ shown | Aborted _ shown => shown
  end.

(** [if error:] for the second component of the result. *)
Definition is_error (error : option string) : bool :=
  match error with
  | Some e => negb (String.eqb e EmptyString)
  | None => false
  end.

(** [f"{error}"] *)
Definition format_error (error : option string) : string :=
  match error with
  | Some e => e
  | None => "None"
  end.

Section Handlers.

Variable generate_content : request -> reply.
Variable loads : string -> decoded.

(** Lines 62-108.  The first component is [None] (here [JNull]) in the two
    handlers. *)
Definition process_image_with_ai (image_file : uploaded_file) (document_type : string)
  : completion (json * option string) :=
  match generate_content (request_of image_file document_type) with
  | Fails JSONDecodeError => UnboundLocalError
  | Fails (Exception e) => Return (JNull, Some ("An error occurred: " +:+ e))
  | Response None => Return (JNull, Some ("An error occurred: " +:+ no_strip))
  | Response (Some text) =>
      let raw_text := raw_text_of text in
      match loads raw_text with
      | Decoded json_data => Return (json_data, None)
      | Undecoded JSONDecodeError =>
          Return (JNull,
                  Some ("Failed to decode JSON from AI model. Raw response: "
                        +:+ raw_text))
      | Undecoded (Exception e) => Return (JNull, Some ("An error occurred: " +:+ e))
      end
  end.

(** Lines 214-220: the button that processes the challan. *)
Definition process_challan (state : session) (challan_file : uploaded_file) : handled :=
  match process_image_with_ai challan_file "CHALLAN" with
  | UnboundLocalError => Aborted state []
  | Return (result, error) =>
      if is_error error
      then Done state [st_error ("Error processing challan: " +:+ format_error error)]
      else Done {| challan_data := result;
                   scanned_stickers := scanned_stickers state;
                   reconciliation_report := reconciliation_report state |}
                [st_success "Challan processed successfully!"]
  end.

(** Lines 264-273: the loop over the sticker files. *)
Fixpoint sticker_loop (state : session) (shown : list message)
    (sticker_files : list uploaded_file) : handled :=
  match sticker_files with
  | [] => Done state shown
  | sticker_file :: rest =>
      match process_image_with_ai sticker_file "STICKER" with
      | UnboundLocalError => Aborted state shown
      | Return (result, error) =>
          if is_error error
          then sticker_loop state
                 (shown ++ [st_error ("Error processing " +:+ name sticker_file +:+ ": "
                                      +:+ format_error error)])
                 rest
          else sticker_loop
                 {| challan_data := challan_data state;
                    scanned_stickers := scanned_stickers state ++ [result];
                    reconciliation_report := reconciliation_report state |}
                 shown rest
      end
  end.

(** Lines 243-276: the button that processes the uploaded stickers, which
    exists only when a challan is loaded and files are chosen. *)
Definition process_stickers (state : session) (sticker_files : list uploaded_file)
  : handled :=
  if negb (truthy (challan_data state))
  then Done state [st_warning process_a_challan_first]
  else
    match sticker_files with
    | [] => Done state []
    | _ =>
        match sticker_loop state [] sticker_files with
        | Done state' shown =>
            Done state'
                 (shown ++ [st_success ("Successfully processed "
                                        +:+ str_int (Z.of_nat (length sticker_files))
                                        +:+ " stickers!")])
        | Aborted state' shown => Aborted state' shown
        end
    end.

End Handlers.

(** [len(x)] *)
Definition len (x : json) : outcome Z :=
  match x with
  | JList xs => Ok (Z.of_nat (length xs))
  | JStr s => Ok (Z.of_nat (String.length s))
  | JObj kvs => Ok (Z.of_nat (length kvs))
  | JNull | JBool _ | JInt _ => Raise TypeError
  end.

(** Lines 288-304: the dashboard when its button is pressed.  The metric of
    line 296 is computed before the button is reached. *)
Definition run_pressed (state : session) : outcome (session * list message) :=
  if negb (truthy (challan_data state))
  then Ok (state, [st_warning no_challan_available])
  else
    match scanned_stickers state with
    | [] => Ok (state, [st_warning no_stickers_scanned])
    | _ =>
        lines <- get (challan_data state) "lines" (JList []);;
        _ <- len lines;;
        report_df <- run_reconciliation (challan_data state)
                       (JList (scanned_stickers state));;
        match report_df with
        | Some report =>
            Ok ({| challan_data := challan_data state;
                   scanned_stickers := scanned_stickers state;
                   reconciliation_report := Some report |}, [])
        | None => Ok (state, [st_warning no_challan_to_reconcile])
        end
    end.




End App.

(* ===================================================================== *)
(** * Vocabulary of the statements about whole runs and sessions *)
(* ===================================================================== *)

Module Terms.
Import Py Engine Spec App.

(** A JSON object, that is a Python [dict]. *)
Definition is_record (x : json) : bool :=
  match x with
  | JObj _ => true
  | _ => false
  end.

(** The sum of the expected counters of the index. *)
Definition expected_sum (expected_items : items) : Z :=
  foldr Z.add 0 (expected ∘ snd <$> expected_items).

(** The sum of the quantities of the challan lines. *)
Definition quantity_sum (lines : list fields) : Z :=
  foldr Z.add 0 (int_of ∘ quantity <$> lines).

(** The lines of the challan of the example session. *)
Definition session_lines : list fields :=
  [ [("material_description", JStr "Men's Shirt"); ("size", JStr "M");
     ("qty_units_expected", JInt 2)];
    [("material_description", JStr "Women's Top"); ("size", JStr "s");
     ("qty_units_expected", JInt 1)] ].

(** The documents of the files that are extracted without an error, up to
    the first file at which the extraction raises. *)
Fixpoint extracted (generate_content : request -> reply) (loads : string -> decoded)
    (sticker_files : list uploaded_file) : list json :=
  match sticker_files with
  | [] => []
  | sticker_file :: rest =>
      match process_image_with_ai generate_content loads sticker_file "STICKER" with
      | UnboundLocalError => []
      | Return (result, error) =>
          if is_error error then extracted generate_content loads rest
          else result :: extracted generate_content loads rest
      end
  end.

(** A client that answers every request with the same text. *)
Definition client_saying (text : string) : request -> reply :=
  fun _ => Response (Some text).

(** A decoder that knows the empty object and [null]. *)
Definition loads_two (raw_text : string) : decoded :=
  if String.eqb raw_text "{}" then Decoded (JObj [])
  else if String.eqb raw_text "null" then Decoded JNull
  else Undecoded JSONDecodeError.

Definition example_file : uploaded_file :=
  {| name := "scan.png"; type := Some "image/png"; getvalue := [] |}.

(** The example session, with a report of an earlier run. *)
Definition example_session : session :=
  {| challan_data := session_challan;
     scanned_stickers := JObj <$> session_stickers;
     reconciliation_report := Some session_report |}.

Definition is_st_error (m : message) : bool :=
  match m with
  | st_error _ => true
  | _ => false
  end.

(** The outcome is not the exception [e]. *)
Definition never {A : Type} (e : exn) (o : outcome A) : Prop := o <> Raise e.

End Terms.

(* ===================================================================== *)
(** * Dictionaries in insertion order *)
(* ===================================================================== *)

Section DictFacts.
Import Py.
Context {K V : Type} `{EqDecision K}.
Implicit Types (k : K) (v : V) (d : list (K * V)).

Lemma dict_lookup_None k d : dict_lookup k d = None <-> k ∉ d.*1.
Proof.
  induction d as [|[k' v'] d IH]; simpl.
  - split; [intros _; apply not_elem_of_nil | done].
  - rewrite not_elem_of_cons. destruct (decide (k = k')); [|tauto].
    split; [done | tauto].
Qed.

Lemma dict_lookup_Some_elem k v d : dict_lookup k d = Some v -> (k, v) ∈ d.
Proof.
  induction d as [|[k' v'] d IH]; simpl; [done|].
  destruct (decide (k = k')) as [->|].
  - intros [= ->]. left.
  - intros. right. auto.
Qed.

Lemma dict_lookup_is_Some k d : k ∈ d.*1 -> is_Some (dict_lookup k d).
Proof.
  intros Hin. destruct (dict_lookup k d) eqn:E; [eauto|].
  apply dict_lookup_None in E. done.
Qed.

Lemma dict_mem_true k d : dict_mem k d = true <-> k ∈ d.*1.
Proof.
  unfold dict_mem. destruct (dict_lookup k d) eqn:E.
  - split; [|done]. intros _. apply dict_lookup_Some_elem in E.
    apply list_elem_of_fmap. by exists (k, v).
  - apply dict_lookup_None in E. split; [done | tauto].
Qed.

Lemma dict_lookup_set_eq k v d : dict_lookup k (dict_set k v d) = Some v.
Proof.
  induction d as [|[k' v'] d IH]; simpl.
  - by rewrite decide_True.
  - destruct (decide (k = k')) as [->|Hne]; simpl.
    + by rewrite decide_True.
    + by rewrite decide_False.
Qed.

Lemma dict_lookup_set_ne k k' v d :
  k <> k' -> dict_lookup k' (dict_set k v d) = dict_lookup k' d.
Proof.
  intros Hne. induction d as [|[k0 v0] d IH]; simpl.
  - by rewrite decide_False.
  - destruct (decide (k = k0)) as [->|]; simpl.
    + by rewrite !decide_False.
    + by rewrite IH.
Qed.

Lemma dict_set_keys_present k v d : k ∈ d.*1 -> (dict_set k v d).*1 = d.*1.
Proof.
  induction d as [|[k' v'] d IH]; simpl.
  - intros Hin. by apply elem_of_nil in Hin.
  - intros Hin. destruct (decide (k = k')) as [->|Hne]; simpl; [done|].
    f_equal. apply IH. apply elem_of_cons in Hin as [|]; done.
Qed.

Lemma dict_set_absent k v d : k ∉ d.*1 -> dict_set k v d = d ++ [(k, v)].
Proof.
  induction d as [|[k' v'] d IH]; simpl; [done|].
  intros Hin. apply not_elem_of_cons in Hin as [Hne Hin].
  rewrite decide_False by done. by rewrite IH.
Qed.

(** Assigning to a key whose first binding is at a known place. *)
Lemma dict_set_split k v v' pre post :
  k ∉ pre.*1 -> dict_set k v' (pre ++ (k, v) :: post) = pre ++ (k, v') :: post.
Proof.
  induction pre as [|[k0 v0] pre IH]; simpl.
  - intros _. by rewrite decide_True.
  - intros Hin. apply not_elem_of_cons in Hin as [Hne Hin].
    rewrite decide_False by done. by rewrite IH.
Qed.

Lemma dict_lookup_split k v pre post :
  k ∉ pre.*1 -> dict_lookup k (pre ++ (k, v) :: post) = Some v.
Proof.
  induction pre as [|[k0 v0] pre IH]; simpl.
  - intros _. by rewrite decide_True.
  - intros Hin. apply not_elem_of_cons in Hin as [Hne Hin].
    rewrite decide_False by done. by apply IH.
Qed.
End DictFacts.

(* ===================================================================== *)
(** * Building the expected index *)
(* ===================================================================== *)

Section BuildExpected.
Import Py Engine Spec.
Local Open Scope outcome_scope.
Implicit Types (acc : items) (line : fields) (k : key).

Lemma get_obj (o : fields) f dflt :
  get (JObj o) f dflt = Ok (default dflt (dict_lookup f o)).
Proof. reflexivity. Qed.

Lemma line_key_obj line : line_key (JObj line) = Ok (key_of line).
Proof. reflexivity. Qed.

Lemma add_int_ok n x : is_int x = true -> add_int n x = Ok (n + int_of x).
Proof. destruct x as [|[]| | | |]; simpl; try done. Qed.

Lemma dict_set_twice {A B : Type} `{EqDecision A} (a : A) (b b' : B) d :
  dict_set a b' (dict_set a b d) = dict_set a b' d.
Proof.
  induction d as [|[a0 b0] d IH]; simpl.
  - by rewrite decide_True.
  - destruct (decide (a = a0)) as [->|]; simpl.
    + by rewrite decide_True.
    + rewrite decide_False by done. by rewrite IH.
Qed.

Lemma add_line_ok acc line :
  is_int (quantity line) = true -> add_line acc (JObj line) = Ok (bump acc line).
Proof.
  intros Hq. unfold add_line, bump. rewrite line_key_obj. simpl bind.
  unfold dict_mem, dict_getitem.
  destruct (dict_lookup (key_of line) acc) as [c|] eqn:E; simpl.
  - rewrite E. simpl. fold (quantity line). by rewrite (add_int_ok _ _ Hq).
  - rewrite dict_lookup_set_eq. simpl. fold (quantity line).
    rewrite (add_int_ok _ _ Hq). simpl. by rewrite dict_set_twice.
Qed.

Lemma bump_lookup acc line k :
  dict_lookup k (bump acc line) =
    if decide (key_of line = k) then
      Some {| expected := expected (default zero (dict_lookup k acc))
                          + int_of (quantity line);
              received := received (default zero (dict_lookup k acc)) |}
    else dict_lookup k acc.
Proof.
  unfold bump. destruct (decide (key_of line = k)) as [<-|Hne].
  - apply dict_lookup_set_eq.
  - by apply dict_lookup_set_ne.
Qed.

Lemma bump_keys acc line :
  (bump acc line).*1 =
    if decide (key_of line ∈ acc.*1) then acc.*1 else acc.*1 ++ [key_of line].
Proof.
  unfold bump. destruct (decide (key_of line ∈ acc.*1)) as [Hin|Hin].
  - by apply dict_set_keys_present.
  - rewrite dict_set_absent by done. by rewrite fmap_app.
Qed.

Lemma total_cons k line lines :
  total k (line :: lines) =
    if decide (key_of line = k) then int_of (quantity line) + total k lines
    else total k lines.
Proof.
  unfold total. rewrite filter_cons. by destruct (decide (key_of line = k)).
Qed.

Lemma first_seen_elem k ks : k ∈ first_seen ks <-> k ∈ ks.
Proof.
  induction ks as [|k0 ks IH]; simpl; [done|].
  rewrite !elem_of_cons, list_elem_of_filter, IH.
  destruct (decide (k = k0)); naive_solver.
Qed.

Lemma first_seen_NoDup ks : NoDup (first_seen ks).
Proof.
  induction ks as [|k0 ks IH]; simpl; [constructor|].
  constructor.
  - rewrite list_elem_of_filter. naive_solver.
  - by apply NoDup_filter.
Qed.

(** The loop of lines 123-130, started from any index. *)
Lemma add_lines_spec lines : forall acc,
  Forall (fun line => is_int (quantity line) = true) lines ->
  exists res,
    for_each add_line acc (JObj <$> lines) = Ok res /\
    res.*1 = acc.*1 ++ filter (fun k => k ∉ acc.*1) (first_seen (key_of <$> lines)) /\
    forall k,
      dict_lookup k res =
        match dict_lookup k acc with
        | Some c => Some {| expected := expected c + total k lines;
                            received := received c |}
        | None => if decide (k ∈ key_of <$> lines)
                  then Some {| expected := total k lines; received := 0 |}
                  else None
        end.
Proof.
  induction lines as [|line lines IH]; intros acc Hall.
  - exists acc. split_and!; [done | by rewrite app_nil_r |].
    intros k. destruct (dict_lookup k acc) as [[e r]|]; simpl.
    + unfold total. simpl. by rewrite Z.add_0_r.
    + done.
  - apply Forall_cons in Hall as [Hq Hall].
    destruct (IH (bump acc line) Hall) as (res & Hrun & Hkeys & Hlook).
    exists res. split_and!.
    + rewrite fmap_cons. simpl. by rewrite (add_line_ok _ _ Hq).
    + rewrite Hkeys, bump_keys. rewrite fmap_cons. simpl.
      destruct (decide (key_of line ∈ acc.*1)) as [Hin|Hin].
      * rewrite filter_cons_False by tauto. f_equal.
        rewrite list_filter_filter. apply list_filter_iff.
        intros k. split; [|tauto]. intros Hk. split; [done|]. congruence.
      * rewrite filter_cons_True by done. rewrite <- app_assoc. simpl.
        do 2 f_equal. rewrite list_filter_filter. apply list_filter_iff.
        intros k. rewrite not_elem_of_app, list_elem_of_singleton. tauto.
    + intros k. rewrite Hlook, bump_lookup, total_cons, fmap_cons.
      destruct (decide (key_of line = k)) as [<-|Hne].
      * destruct (dict_lookup (key_of line) acc) as [[e r]|]; simpl.
        -- do 2 f_equal. lia.
        -- rewrite decide_True by left. done.
      * destruct (dict_lookup k acc) as [[e r]|]; [done|].
        destruct (decide (k ∈ key_of <$> lines)) as [Hin|Hin].
        -- rewrite decide_True; [done | by right].
        -- rewrite decide_False; [done|].
           rewrite not_elem_of_cons. split; [congruence | done].
Qed.
End BuildExpected.

(* ===================================================================== *)
(** * Matching the stickers *)
(* ===================================================================== *)

Section MatchStickers.
Import Py Engine Spec.
Local Open Scope outcome_scope.
Implicit Types (expected_items : items) (sticker : fields) (k : key).

Lemma for_each_cons {A S : Type} (body : S -> A -> outcome S) s x xs :
  for_each body s (x :: xs) = (s' <- body s x;; for_each body s' xs).
Proof. reflexivity. Qed.

Lemma prefix_starts_with p s : String.prefix p s = true <-> starts_with s p.
Proof.
  unfold starts_with. revert s. induction p as [|a p IH]; intros s.
  - split; [intros _; by exists s | by destruct s].
  - destruct s as [|b s]; simpl.
    + split; [done | by intros [rest ?]].
    + destruct (ascii_dec a b) as [->|Hne].
      * rewrite IH. split; intros [rest Hr]; exists rest.
        -- subst. reflexivity.
        -- change (String b p +:+ rest) with (String b (p +:+ rest)) in Hr.
           congruence.
      * split; [done|]. intros [rest Hr].
        change (String a p +:+ rest) with (String a (p +:+ rest)) in Hr.
        congruence.
Qed.

Lemma key_matches_wanted sticker k :
  key_matches (style_of sticker) (size_of sticker) k = true <-> wanted sticker k.
Proof.
  unfold key_matches, wanted, startswith.
  rewrite andb_true_iff, prefix_starts_with, String.eqb_eq. done.
Qed.

(** The inner loop, resumed after the keys of [pre] have been passed. *)
Lemma scan_keys_from style size (post pre : items) :
  Forall (fun k => key_matches style size k = false) pre.*1 ->
  scan_keys style size post.*1 (pre ++ post) =
    match list_find (fun k => key_matches style size k) post.*1 with
    | Some (i, _) => Ok (alter count_one (length pre + i)%nat (pre ++ post), true)
    | None => Ok (pre ++ post, false)
    end.
Proof.
  revert pre. induction post as [|[k c] post IH]; intros pre Hpre; [done|].
  rewrite fmap_cons. simpl.
  destruct (key_matches style size k) eqn:Hk; simpl.
  - assert (k ∉ pre.*1) as Hnot.
    { intros Hin. rewrite Forall_forall in Hpre. apply Hpre in Hin. congruence. }
    unfold dict_getitem. rewrite (dict_lookup_split _ _ _ _ Hnot). simpl.
    rewrite (dict_set_split _ _ _ _ _ Hnot).
    by rewrite alter_app_r.
  - specialize (IH (pre ++ [(k, c)])).
    rewrite <- app_assoc in IH. simpl in IH. rewrite IH.
    + destruct (list_find _ post.*1) as [[i k']|]; simpl; [|done].
      rewrite length_app. simpl. do 3 f_equal. lia.
    + rewrite fmap_app. apply Forall_app. split; [done|]. by repeat constructor.
Qed.

Lemma scan_keys_spec style size expected_items :
  scan_keys style size expected_items.*1 expected_items =
    match list_find (fun k => key_matches style size k) expected_items.*1 with
    | Some (i, _) => Ok (alter count_one i expected_items, true)
    | None => Ok (expected_items, false)
    end.
Proof. apply (scan_keys_from style size expected_items []). constructor. Qed.

Lemma sticker_key_obj sticker :
  sticker_key (JObj sticker) = Ok (style_of sticker, size_of sticker).
Proof. reflexivity. Qed.

(** The body of the loop over the stickers. *)
Lemma match_sticker_spec expected_items unmatched sticker :
  match_sticker (expected_items, unmatched) (JObj sticker) =
    match target expected_items.*1 sticker with
    | Some i => Ok (alter count_one i expected_items, unmatched)
    | None => Ok (expected_items, unmatched ++ [JObj sticker])
    end.
Proof.
  unfold match_sticker, target. rewrite sticker_key_obj. simpl bind.
  rewrite scan_keys_spec.
  by destruct (list_find _ expected_items.*1) as [[i k']|].
Qed.

Lemma count_one_keys i expected_items :
  (alter count_one i expected_items).*1 = expected_items.*1.
Proof.
  revert i. induction expected_items as [|[k c] l IH]; intros [|i]; simpl; try done.
  f_equal. apply IH.
Qed.

(** The position the sticker is counted at. *)
Lemma target_Some ks sticker i :
  target ks sticker = Some i <->
  exists k, ks !! i = Some k /\ wanted sticker k /\
            forall j k', ks !! j = Some k' -> (j < i)%nat -> ~ wanted sticker k'.
Proof.
  unfold target. split.
  - destruct (list_find _ ks) as [[i' k]|] eqn:E; [|done].
    intros [= ->]. apply list_find_Some in E as (Hi & Hk & Hbefore).
    exists k. split_and!; [done| |].
    + apply key_matches_wanted. by apply Is_true_true.
    + intros j k' Hj Hlt Hw. apply (Hbefore j k' Hj Hlt).
      apply Is_true_true. by apply key_matches_wanted.
  - intros (k & Hi & Hk & Hbefore).
    assert (list_find (fun k => key_matches (style_of sticker) (size_of sticker) k) ks
            = Some (i, k)) as ->; [|done].
    apply list_find_Some. split_and!; [done| |].
    + apply Is_true_true. by apply key_matches_wanted.
    + intros j k' Hj Hlt Hw. apply (Hbefore j k' Hj Hlt).
      apply key_matches_wanted. by apply Is_true_true.
Qed.

Lemma target_None ks sticker :
  target ks sticker = None <-> forall k, k ∈ ks -> ~ wanted sticker k.
Proof.
  unfold target. split.
  - destruct (list_find _ ks) as [[i' k]|] eqn:E; [done|].
    intros _ k Hin Hw. rewrite list_find_None, Forall_forall in E.
    apply (E k Hin). apply Is_true_true. by apply key_matches_wanted.
  - intros Hnone.
    assert (list_find (fun k => key_matches (style_of sticker) (size_of sticker) k) ks
            = None) as ->; [|done].
    apply list_find_None, Forall_forall. intros k Hin Hw.
    apply (Hnone k Hin). apply key_matches_wanted. by apply Is_true_true.
Qed.

Lemma counted_at_cons ks i s stickers :
  counted_at ks i (s :: stickers) =
    (if decide (target ks s = Some i) then 1 else 0) + counted_at ks i stickers.
Proof.
  unfold counted_at. rewrite filter_cons.
  destruct (decide (target ks s = Some i)); simpl length; lia.
Qed.

Lemma left_over_cons ks s stickers :
  left_over ks (s :: stickers) =
    if decide (target ks s = None) then s :: left_over ks stickers
    else left_over ks stickers.
Proof. unfold left_over. by rewrite filter_cons. Qed.

(** The loop of lines 134-149, started from any state. *)
Lemma match_loop_spec stickers : forall expected_items unmatched,
  exists items',
    for_each match_sticker (expected_items, unmatched) (JObj <$> stickers)
      = Ok (items', unmatched ++ (JObj <$> left_over expected_items.*1 stickers)) /\
    items'.*1 = expected_items.*1 /\
    forall i k c, expected_items !! i = Some (k, c) ->
      items' !! i = Some (k, {| expected := expected c;
                                received := received c
                                            + counted_at expected_items.*1 i stickers |}).
Proof.
  induction stickers as [|s stickers IH]; intros expected_items unmatched.
  - exists expected_items. unfold left_over, counted_at. simpl.
    split_and!; [by rewrite app_nil_r | done |].
    intros i k [e r] Hi. rewrite Hi. simpl. by rewrite Z.add_0_r.
  - rewrite fmap_cons, for_each_cons, match_sticker_spec, left_over_cons.
    destruct (target expected_items.*1 s) as [i0|] eqn:Ht.
    + simpl bind.
      destruct (IH (alter count_one i0 expected_items) unmatched)
        as (items' & Hrun & Hkeys & Hent).
      rewrite count_one_keys in Hrun, Hkeys, Hent.
      exists items'. rewrite decide_False by done.
      split_and!; [done | done |].
      intros i k c Hi. rewrite counted_at_cons, Ht.
      destruct (decide (i0 = i)) as [->|Hne].
      * rewrite decide_True by done.
        rewrite (Hent i k {| expected := expected c; received := received c + 1 |}).
        -- simpl. do 3 f_equal. lia.
        -- rewrite list_lookup_alter_eq, Hi. done.
      * rewrite decide_False by congruence. rewrite Z.add_0_l.
        apply Hent. by rewrite list_lookup_alter_ne.
    + simpl bind.
      destruct (IH expected_items (unmatched ++ [JObj s]))
        as (items' & Hrun & Hkeys & Hent).
      exists items'. rewrite decide_True by done.
      split_and!; [|done|].
      * rewrite Hrun. rewrite fmap_cons, <- app_assoc. done.
      * intros i k c Hi. rewrite counted_at_cons, Ht.
        rewrite decide_False by done. rewrite Z.add_0_l. by apply Hent.
Qed.
End MatchStickers.

(* ===================================================================== *)
(** * The report and the whole run *)
(* ===================================================================== *)

Section Report.
Import Py Engine Spec.
Local Open Scope outcome_scope.
Implicit Types (expected_items : items) (k : key).

Lemma unmatched_row_obj sticker : unmatched_row (JObj sticker) = Ok (over_row sticker).
Proof. reflexivity. Qed.

Lemma unmatched_rows_spec stickers : forall report_data,
  for_each (fun report_data sticker =>
              r <- unmatched_row sticker;; Ok (report_data ++ [r]))
           report_data (JObj <$> stickers)
  = Ok (report_data ++ (over_row <$> stickers)).
Proof.
  induction stickers as [|s stickers IH]; intros report_data; simpl.
  - by rewrite app_nil_r.
  - rewrite IH. by rewrite <- app_assoc.
Qed.

Lemma build_report_spec expected_items stickers :
  build_report expected_items (JObj <$> stickers)
  = Ok ((key_row <$> expected_items) ++ (over_row <$> stickers)).
Proof. apply unmatched_rows_spec. Qed.

(** A line that [add_line] accepts is an object with an integer quantity. *)
Lemma add_line_inv expected_items line res :
  add_line expected_items line = Ok res ->
  exists l, line = JObj l /\ is_int (quantity l) = true.
Proof.
  destruct line as [| | | | |l]; try done.
  intros Hrun. exists l. split; [done|].
  unfold add_line in Hrun. rewrite line_key_obj in Hrun. simpl bind in Hrun.
  destruct (dict_getitem _ _) as [c|]; [|done]. simpl in Hrun.
  fold (quantity l) in Hrun. by destruct (quantity l) as [| | | | |].
Qed.

Lemma add_lines_inv ls : forall expected_items res,
  for_each add_line expected_items ls = Ok res ->
  exists lines, ls = JObj <$> lines /\
                Forall (fun line => is_int (quantity line) = true) lines.
Proof.
  induction ls as [|x ls IH]; intros expected_items res Hrun.
  - by exists [].
  - rewrite for_each_cons in Hrun.
    destruct (add_line expected_items x) as [acc|] eqn:E; [|done].
    apply add_line_inv in E as (l & -> & Hq).
    apply IH in Hrun as (lines & -> & Hall).
    exists (l :: lines). split; [done | by constructor].
Qed.

Lemma match_sticker_inv st x res :
  match_sticker st x = Ok res -> exists sticker, x = JObj sticker.
Proof. destruct st, x; try done. eauto. Qed.

Lemma match_loop_inv ss : forall st res,
  for_each match_sticker st ss = Ok res -> exists stickers, ss = JObj <$> stickers.
Proof.
  induction ss as [|x ss IH]; intros st res Hrun.
  - by exists [].
  - rewrite for_each_cons in Hrun.
    destruct (match_sticker st x) as [st'|] eqn:E; [|done].
    apply match_sticker_inv in E as (s & ->).
    apply IH in Hrun as (stickers & ->). by exists (s :: stickers).
Qed.

(** The stages of a run that returns a report. *)
Lemma run_report_inv challan_data scanned_stickers report :
  run_reconciliation challan_data scanned_stickers = Ok (Some report) ->
  exists lines index0 index unmatched,
    no_challan challan_data = Ok false /\
    get challan_data "lines" (JList []) = Ok lines /\
    build_expected lines = Ok index0 /\
    match_stickers index0 scanned_stickers = Ok (index, unmatched) /\
    build_report index unmatched = Ok report.
Proof.
  unfold run_reconciliation. intros Hrun.
  destruct (no_challan challan_data) as [[]|]; try done. simpl in Hrun.
  destruct (get challan_data "lines" (JList [])) as [lines|]; [|done].
  simpl in Hrun.
  destruct (build_expected lines) as [index0|] eqn:E1; [|done]. simpl in Hrun.
  destruct (match_stickers index0 scanned_stickers) as [[index unmatched]|] eqn:E2;
    [|done].
  simpl in Hrun.
  destruct (build_report index unmatched) as [r|] eqn:E; [|done].
  simpl in Hrun. injection Hrun as ->.
  exists lines, index0, index, unmatched. by split_and!.
Qed.

Lemma sum_app (l1 l2 : list Z) :
  foldr Z.add 0 (l1 ++ l2) = foldr Z.add 0 l1 + foldr Z.add 0 l2.
Proof. induction l1 as [|z l1 IH]; simpl; lia. Qed.

Lemma column_sum_app {V : Type} (col : row V -> Z) (r1 r2 : list (row V)) :
  column_sum col (r1 ++ r2) = column_sum col r1 + column_sum col r2.
Proof. unfold column_sum. by rewrite fmap_app, sum_app. Qed.

Lemma received_sum_rows expected_items :
  column_sum Received (key_row <$> expected_items) = received_sum expected_items.
Proof.
  unfold column_sum, received_sum.
  induction expected_items as [|[k c] l IH]; csimpl; [done|]. by rewrite IH.
Qed.

Lemma received_sum_count_one i expected_items :
  (i < length expected_items)%nat ->
  received_sum (alter count_one i expected_items) = received_sum expected_items + 1.
Proof.
  unfold received_sum. revert i.
  induction expected_items as [|[k c] l IH]; intros i Hi; csimpl in *; [lia|].
  destruct i as [|i]; csimpl; [lia|]. rewrite IH by lia. lia.
Qed.

Lemma over_rows_sum stickers :
  column_sum Received (over_row <$> stickers) = Z.of_nat (length stickers).
Proof.
  unfold column_sum. induction stickers as [|s l IH]; [done|].
  csimpl. rewrite IH. lia.
Qed.

Lemma target_lt ks sticker i : target ks sticker = Some i -> (i < length ks)%nat.
Proof.
  intros H. apply target_Some in H as (k & Hk & _). by apply lookup_lt_Some in Hk.
Qed.

(** Every sticker adds one unit, to the index or to the unmatched list. *)
Lemma match_loop_conserves stickers : forall expected_items unmatched res,
  for_each match_sticker (expected_items, unmatched) (JObj <$> stickers) = Ok res ->
  received_sum res.1 + Z.of_nat (length res.2)
  = received_sum expected_items + Z.of_nat (length unmatched)
    + Z.of_nat (length stickers).
Proof.
  induction stickers as [|s stickers IH]; intros expected_items unmatched res.
  - simpl. intros [= <-]. simpl. lia.
  - rewrite fmap_cons, for_each_cons, match_sticker_spec.
    destruct (target expected_items.*1 s) as [i|] eqn:Ht; simpl bind; intros Hrun.
    + apply IH in Hrun. rewrite Hrun, received_sum_count_one.
      * simpl length. lia.
      * apply target_lt in Ht. by rewrite length_fmap in Ht.
    + apply IH in Hrun. rewrite Hrun, length_app. simpl length. lia.
Qed.

Lemma received_sum_set k c expected_items :
  received_sum (dict_set k c expected_items)
  = received_sum expected_items + received c
    - received (default zero (dict_lookup k expected_items)).
Proof.
  unfold received_sum.
  induction expected_items as [|[k0 c0] l IH]; csimpl; [lia|].
  destruct (decide (k = k0)) as [->|Hne]; csimpl; [lia|]. rewrite IH. lia.
Qed.

Lemma add_lines_received ls : forall expected_items res,
  for_each add_line expected_items ls = Ok res ->
  received_sum res = received_sum expected_items.
Proof.
  induction ls as [|x ls IH]; intros expected_items res Hrun.
  - by injection Hrun as <-.
  - rewrite for_each_cons in Hrun.
    destruct (add_line expected_items x) as [acc|] eqn:E; [|done].
    destruct (add_line_inv _ _ _ E) as (l & -> & Hq).
    rewrite (add_line_ok _ _ Hq) in E. injection E as <-.
    apply IH in Hrun. rewrite Hrun. unfold bump.
    rewrite received_sum_set. simpl. lia.
Qed.
End Report.

(* ===================================================================== *)
(** * Claims about the engine *)
(* ===================================================================== *)

Section EngineClaims.
Import Py Engine Spec.
Local Open Scope outcome_scope.

Lemma for_each_app {A S : Type} (body : S -> A -> outcome S) xs ys : forall s,
  for_each body s (xs ++ ys) = (s' <- for_each body s xs;; for_each body s' ys).
Proof.
  induction xs as [|x xs IH]; intros s; [done|].
  rewrite <- app_comm_cons, !for_each_cons.
  destruct (body s x) as [s'|]; simpl; [apply IH | done].
Qed.

Lemma filter_all {A : Type} (P : A -> Prop) `{forall x, Decision (P x)} (l : list A) :
  (forall x, P x) -> filter P l = l.
Proof.
  intros HP. induction l as [|x l IH]; [done|].
  rewrite filter_cons_True by done. by rewrite IH.
Qed.

Lemma elem_of_lookup_NoDup {K V : Type} `{EqDecision K} (k : K) (v : V) d :
  NoDup d.*1 -> (k, v) ∈ d -> dict_lookup k d = Some v.
Proof.
  induction d as [|[k0 v0] d IH]; csimpl; intros Hnd Hin.
  - by apply elem_of_nil in Hin.
  - apply NoDup_cons in Hnd as [Hk0 Hnd].
    apply elem_of_cons in Hin as [[= -> ->]|Hin].
    + by rewrite decide_True.
    + rewrite decide_False; [by apply IH|].
      intros ->. apply Hk0. apply list_elem_of_fmap. by exists (k0, v).
Qed.

(** C1.  For any index and any sequence of sticker records, the matching loop
  returns.  A sticker is counted at position [i] exactly when the key at
  [i] is the first, in the order of the index, whose description starts
  with the sticker's trimmed style (compared as it is, without case
  folding) and whose size is the sticker's trimmed, upper-cased size code;
  it is left over exactly when no key qualifies.  The keys and the expected
  quantities stay as they are; the received counter at [i] grows by the
  number of stickers counted at [i]; the unmatched list is the left-over
  stickers in input order; the sequence is processed from the left, one
  sticker after the other; and altogether every sticker adds exactly one
  unit, either to one counter or to the unmatched list.  A sticker of size
  [" m "] and style ["Men's"] is counted against the key
  [("Men's Shirt", "M")]; with the style ["men's"] it is left over. *)
Theorem C1_sticker_goes_to_first_matching_key :
  (forall (expected_items : items) (stickers : list fields),
   exists items' unmatched,
    match_stickers expected_items (JList (JObj <$> stickers)) = Ok (items', unmatched) /\
    (forall sticker i,
       target expected_items.*1 sticker = Some i <->
       exists k, expected_items.*1 !! i = Some k /\
                 (starts_with (fst k) (strip (str (text_field "style" sticker))) /\
                  snd k = upper (strip (str (text_field "code_size" sticker)))) /\
                 forall j k', expected_items.*1 !! j = Some k' -> (j < i)%nat ->
                              ~ wanted sticker k') /\
    (forall sticker,
       target expected_items.*1 sticker = None <->
       forall k, k ∈ expected_items.*1 -> ~ wanted sticker k) /\
    items'.*1 = expected_items.*1 /\
    (forall i k c, expected_items !! i = Some (k, c) ->
       items' !! i =
         Some (k, {| expected := expected c;
                     received := received c
                                 + counted_at expected_items.*1 i stickers |})) /\
    unmatched = JObj <$> left_over expected_items.*1 stickers /\
    (forall first rest, stickers = first ++ rest ->
       exists mid,
         match_stickers expected_items (JList (JObj <$> first)) = Ok mid /\
         for_each match_sticker mid (JObj <$> rest) = Ok (items', unmatched)) /\
    received_sum items' + Z.of_nat (length unmatched)
    = received_sum expected_items + Z.of_nat (length stickers)) /\
  match_stickers
    [(("Men's Shirt", "M"), {| expected := 2; received := 0 |})]
    (JList [JObj [("style", JStr "Men's"); ("code_size", JStr " m ")]])
  = Ok ([(("Men's Shirt", "M"), {| expected := 2; received := 1 |})], []) /\
  match_stickers
    [(("Men's Shirt", "M"), {| expected := 2; received := 0 |})]
    (JList [JObj [("style", JStr "men's"); ("code_size", JStr "M")]])
  = Ok ([(("Men's Shirt", "M"), {| expected := 2; received := 0 |})],
        [JObj [("style", JStr "men's"); ("code_size", JStr "M")]]).
Proof.
  split; [|split; reflexivity].
  intros expected_items stickers.
  destruct (match_loop_spec stickers expected_items []) as (items' & Hrun & Hkeys & Hent).
  simpl app in Hrun.
  exists items', (JObj <$> left_over expected_items.*1 stickers).
  split_and!; try done.
  - intros sticker i. apply target_Some.
  - intros sticker. apply target_None.
  - intros first rest ->. unfold match_stickers. simpl bind.
    simpl in Hrun. rewrite fmap_app, for_each_app in Hrun.
    destruct (for_each match_sticker (expected_items, []) (JObj <$> first))
      as [mid|]; [|done].
    by exists mid.
  - apply match_loop_conserves in Hrun. simpl in Hrun. lia.
Qed.

(** C2.  For a challan whose lines are records with an integer quantity or
  none, building the index returns; its keys are the distinct keys of the
  lines (trimmed description, trimmed and upper-cased size) in the order
  of their first occurrence, each once; the counter of a key has as
  expected quantity the sum of the quantities of the lines with that key,
  a missing quantity counting as 0, and 0 as received.  Two lines with the
  same description and size and quantities 5 and 3 give one key with
  expected quantity 8. *)
Theorem C2_expected_index_sums_quantities_per_key :
  (forall lines : list fields,
     Forall (fun line => is_int (quantity line) = true) lines ->
     exists expected_items,
       build_expected (JList (JObj <$> lines)) = Ok expected_items /\
       expected_items.*1 = first_seen (key_of <$> lines) /\
       NoDup expected_items.*1 /\
       (forall k, k ∈ expected_items.*1 <-> k ∈ key_of <$> lines) /\
       (forall k c, (k, c) ∈ expected_items ->
          expected c = total k lines /\ received c = 0)) /\
  (forall description size : string,
     build_expected
       (JList [JObj [("material_description", JStr description);
                     ("size", JStr size);
                     ("qty_units_expected", JInt 5)];
               JObj [("material_description", JStr description);
                     ("size", JStr size);
                     ("qty_units_expected", JInt 3)]])
     = Ok [((strip description, upper (strip size)),
            {| expected := 8; received := 0 |})]).
Proof.
  split.
  - intros lines Hall.
    destruct (add_lines_spec lines [] Hall) as (res & Hrun & Hkeys & Hlook).
    simpl in Hkeys. rewrite filter_all in Hkeys
      by (intros; apply not_elem_of_nil).
    exists res. split_and!; [done | done | | |].
    + rewrite Hkeys. apply first_seen_NoDup.
    + intros k. rewrite Hkeys. apply first_seen_elem.
    + intros k c Hin.
      assert (NoDup res.*1) as Hnd by (rewrite Hkeys; apply first_seen_NoDup).
      apply (elem_of_lookup_NoDup _ _ _ Hnd) in Hin.
      rewrite Hlook in Hin. simpl in Hin.
      destruct (decide _); [|done]. by injection Hin as <-.
  - intros description size.
    change (for_each add_line []
              (JObj <$> [[("material_description", JStr description);
                          ("size", JStr size); ("qty_units_expected", JInt 5)];
                         [("material_description", JStr description);
                          ("size", JStr size); ("qty_units_expected", JInt 3)]])
            = Ok [((strip description, upper (strip size)),
                   {| expected := 8; received := 0 |})]).
    rewrite !fmap_cons, !for_each_cons.
    rewrite add_line_ok by done. simpl bind.
    rewrite add_line_ok by done. simpl bind.
    unfold bump, key_of, text_field. simpl. by rewrite !decide_True.
Qed.

Lemma C2_witness :
  exists expected_items,
    build_expected
      (JList (JObj <$> [[("material_description", JStr "Men's Shirt");
                          ("size", JStr "m"); ("qty_units_expected", JInt 2)];
                         [("material_description", JStr " Men's Shirt");
                          ("size", JStr "M ")]]))
    = Ok expected_items /\
    expected_items.*1 = [("Men's Shirt", "M")].
Proof.
  destruct (proj1 C2_expected_index_sums_quantities_per_key
              [[("material_description", JStr "Men's Shirt");
                ("size", JStr "m"); ("qty_units_expected", JInt 2)];
               [("material_description", JStr " Men's Shirt");
                ("size", JStr "M ")]])
    as (expected_items & Hrun & Hkeys & _).
  - repeat constructor.
  - exists expected_items. split; [exact Hrun | exact Hkeys].
Defined.

(** A run that returns a report, stage by stage. *)
Lemma run_report_shape challan_data scanned_stickers report :
  run_reconciliation challan_data scanned_stickers = Ok (Some report) ->
  exists (lines stickers : list fields) lv index0 index,
    no_challan challan_data = Ok false /\
    get challan_data "lines" (JList []) = Ok lv /\
    iter lv = Ok (JObj <$> lines) /\
    Forall (fun line => is_int (quantity line) = true) lines /\
    iter scanned_stickers = Ok (JObj <$> stickers) /\
    build_expected lv = Ok index0 /\
    index0.*1 = first_seen (key_of <$> lines) /\
    match_stickers index0 scanned_stickers
      = Ok (index, JObj <$> left_over index0.*1 stickers) /\
    index.*1 = index0.*1 /\
    (forall i k c, index0 !! i = Some (k, c) ->
       index !! i = Some (k, {| expected := expected c;
                                received := received c
                                            + counted_at index0.*1 i stickers |})) /\
    received_sum index + Z.of_nat (length (left_over index0.*1 stickers))
      = Z.of_nat (length stickers) /\
    report = (key_row <$> index) ++ (over_row <$> left_over index0.*1 stickers).
Proof.
  intros Hrun.
  apply run_report_inv in Hrun
    as (lv & index0 & index & unmatched & Hpre & Hget & Hbuild & Hmatch & Hrep).
  pose proof Hbuild as Hb. unfold build_expected in Hb.
  destruct (iter lv) as [ls|] eqn:Hls; [|done]. simpl in Hb.
  destruct (add_lines_inv _ _ _ Hb) as (lines & -> & Hall).
  pose proof Hmatch as Hm. unfold match_stickers in Hm.
  destruct (iter scanned_stickers) as [ss|] eqn:Hss; [|done]. simpl in Hm.
  destruct (match_loop_inv _ _ _ Hm) as (stickers & ->).
  destruct (match_loop_spec stickers index0 []) as (items' & Hloop & Hkeys & Hent).
  simpl app in Hloop. rewrite Hm in Hloop. injection Hloop as -> ->.
  exists lines, stickers, lv, index0, items'.
  split_and!; try done.
  - destruct (add_lines_spec lines [] Hall) as (res & Hres & Hk & _).
    rewrite Hb in Hres. injection Hres as <-. simpl in Hk.
    by rewrite filter_all in Hk by (intros; apply not_elem_of_nil).
  - apply match_loop_conserves in Hm. simpl in Hm.
    rewrite length_fmap in Hm. apply add_lines_received in Hb.
    rewrite Hb in Hm. unfold received_sum in Hm at 2. simpl in Hm. lia.
  - rewrite build_report_spec in Hrep. by injection Hrep as <-.
Qed.

(** C3.  In a run that returns a report, the index after matching has the
  keys of the challan lines in first-seen order, each once, and the report
  has one row per entry of the index at the same position, hence before the
  rows of the unmatched stickers, which fill the rest of the report.  The
  row of a key shows the key and its two counters, its variance is
  received minus expected, and its status is MATCH, SHORT or OVER as the
  variance is zero, negative or positive. *)
Theorem C3_one_row_per_key_in_index_order :
  forall challan_data scanned_stickers report,
    run_reconciliation challan_data scanned_stickers = Ok (Some report) ->
    exists (lines : list fields) lv index0 index unmatched,
      get challan_data "lines" (JList []) = Ok lv /\
      iter lv = Ok (JObj <$> lines) /\
      build_expected lv = Ok index0 /\
      match_stickers index0 scanned_stickers = Ok (index, unmatched) /\
      index.*1 = first_seen (key_of <$> lines) /\
      NoDup index.*1 /\
      length report = (length index + length unmatched)%nat /\
      forall i k c, index !! i = Some (k, c) ->
        exists r, report !! i = Some r /\
          Challan_Description r = fst k /\
          Size r = JStr (snd k) /\
          Expected r = expected c /\
          Received r = received c /\
          Variance r = Received r - Expected r /\
          (Variance r = 0 -> Status r = MATCH) /\
          (Variance r < 0 -> Status r = SHORT) /\
          (Variance r > 0 -> Status r = OVER).
Proof.
  intros challan_data scanned_stickers report Hrun.
  apply run_report_shape in Hrun
    as (lines & stickers & lv & index0 & index & Hpre & Hget & Hiter & Hall
        & Hss & Hbuild & Hfirst & Hmatch & Hkeys & Hent & Hsum & ->).
  exists lines, lv, index0, index, (JObj <$> left_over index0.*1 stickers).
  split_and!; try done.
  - by rewrite Hkeys.
  - rewrite Hkeys, Hfirst. apply first_seen_NoDup.
  - by rewrite length_app, !length_fmap.
  - intros i k c Hi. exists (key_row (k, c)).
    split.
    + rewrite lookup_app_l.
      * by rewrite list_lookup_fmap, Hi.
      * rewrite length_fmap. by apply lookup_lt_Some in Hi.
    + simpl. unfold status_of. split_and!; try done.
      * intros ->. done.
      * intros Hv. destruct (Z.eqb_spec (received c - expected c) 0); [lia|].
        destruct (Z.ltb_spec (received c - expected c) 0); [done | lia].
      * intros Hv. destruct (Z.eqb_spec (received c - expected c) 0); [lia|].
        destruct (Z.ltb_spec (received c - expected c) 0); [lia | done].
Qed.

Lemma C3_witness :
  run_reconciliation session_challan (JList (JObj <$> session_stickers))
    = Ok (Some session_report) /\
  exists (index : items) (unmatched : list json),
    NoDup index.*1 /\
    length session_report = (length index + length unmatched)%nat /\
    forall i k c, index !! i = Some (k, c) ->
      exists r, session_report !! i = Some r /\
                Challan_Description r = fst k /\
                Variance r = Received r - Expected r.
Proof.
  assert (run_reconciliation session_challan (JList (JObj <$> session_stickers))
          = Ok (Some session_report)) as Hrun by reflexivity.
  split; [exact Hrun|].
  destruct (C3_one_row_per_key_in_index_order
              session_challan (JList (JObj <$> session_stickers)) session_report
              Hrun)
    as (lines & lv & index0 & index & unmatched & _ & _ & _ & _ & _
        & Hnodup & Hlen & Hrows).
  exists index, unmatched. split; [exact Hnodup|]. split; [exact Hlen|].
  intros i k c Hi.
  destruct (Hrows i k c Hi) as (r & Hr & Hd & _ & _ & _ & Hv & _).
  exists r. split; [exact Hr|]. split; [exact Hd | exact Hv].
Defined.

(** C4.  In a run that returns a report, the stickers that no key of the index
  qualifies for are reported after the rows of the index, one row each, in
  scan order: the description is the marker followed by the style of the
  sticker as it is, the size is the sticker's size code as it is, Expected
  is 0, Received is 1, Variance is 1 and Status is OVER.  The counters of
  the index hold the other stickers only: their received quantities add up
  to the number of stickers less the unmatched ones. *)
Theorem C4_unmatched_sticker_rows_follow_in_scan_order :
  forall challan_data (scanned : list json) report,
    run_reconciliation challan_data (JList scanned) = Ok (Some report) ->
    exists (stickers : list fields) lv index0 index,
      scanned = JObj <$> stickers /\
      get challan_data "lines" (JList []) = Ok lv /\
      build_expected lv = Ok index0 /\
      match_stickers index0 (JList scanned)
        = Ok (index, JObj <$> left_over index0.*1 stickers) /\
      (forall sticker,
         sticker ∈ left_over index0.*1 stickers <->
         sticker ∈ stickers /\ forall k, k ∈ index0.*1 -> ~ wanted sticker k) /\
      take (length index) report = key_row <$> index /\
      drop (length index) report =
        (fun sticker =>
           {| Challan_Description :=
                "(UNMATCHED SCAN) " +:+ str (text_field "style" sticker);
              Size := text_field "code_size" sticker;
              Expected := 0;
              Received := 1;
              Variance := 1;
              Status := OVER |}) <$> left_over index0.*1 stickers /\
      received_sum index
      = Z.of_nat (length stickers)
        - Z.of_nat (length (left_over index0.*1 stickers)).
Proof.
  intros challan_data scanned report Hrun.
  apply run_report_shape in Hrun
    as (lines & stickers & lv & index0 & index & Hpre & Hget & Hiter & Hall
        & Hss & Hbuild & Hfirst & Hmatch & Hkeys & Hent & Hsum & ->).
  injection Hss as ->.
  exists stickers, lv, index0, index. split_and!; try done.
  - intros sticker. unfold left_over. rewrite list_elem_of_filter, target_None.
    tauto.
  - rewrite take_app_length'; [done | by rewrite length_fmap].
  - rewrite drop_app_length'; [done | by rewrite length_fmap].
  - lia.
Qed.

Lemma C4_witness :
  run_reconciliation session_challan (JList (JObj <$> session_stickers))
    = Ok (Some session_report) /\
  exists (stickers : list fields) (index0 index : items),
    JObj <$> session_stickers = JObj <$> stickers /\
    drop (length index) session_report =
      (fun sticker =>
         {| Challan_Description :=
              "(UNMATCHED SCAN) " +:+ str (text_field "style" sticker);
            Size := text_field "code_size" sticker;
            Expected := 0;
            Received := 1;
            Variance := 1;
            Status := OVER |}) <$> left_over index0.*1 stickers.
Proof.
  assert (run_reconciliation session_challan (JList (JObj <$> session_stickers))
          = Ok (Some session_report)) as Hrun by reflexivity.
  split; [exact Hrun|].
  destruct (C4_unmatched_sticker_rows_follow_in_scan_order
              session_challan (JObj <$> session_stickers) session_report Hrun)
    as (stickers & lv & index0 & index & Hs & _ & _ & _ & _ & _ & Hdrop & _).
  exists stickers, index0, index. split; [exact Hs | exact Hdrop].
Defined.

(** C9.  In a run that returns a report, the Received column adds up to the
  number of stickers. *)
Theorem C9_received_column_counts_every_sticker_once :
  forall challan_data (scanned : list json) report,
    run_reconciliation challan_data (JList scanned) = Ok (Some report) ->
    column_sum Received report = Z.of_nat (length scanned).
Proof.
  intros challan_data scanned report Hrun.
  apply run_report_shape in Hrun
    as (lines & stickers & lv & index0 & index & Hpre & Hget & Hiter & Hall
        & Hss & Hbuild & Hfirst & Hmatch & Hkeys & Hent & Hsum & ->).
  injection Hss as ->.
  rewrite column_sum_app, received_sum_rows, over_rows_sum, length_fmap. lia.
Qed.

Lemma C9_witness :
  run_reconciliation session_challan (JList (JObj <$> session_stickers))
    = Ok (Some session_report) /\
  column_sum Received session_report
    = Z.of_nat (length (JObj <$> session_stickers)).
Proof.
  assert (run_reconciliation session_challan (JList (JObj <$> session_stickers))
          = Ok (Some session_report)) as Hrun by reflexivity.
  split; [exact Hrun|].
  exact (C9_received_column_counts_every_sticker_once
           session_challan (JObj <$> session_stickers) session_report Hrun).
Defined.

Lemma strip_empty : strip EmptyString = EmptyString.
Proof. reflexivity. Qed.

Lemma starts_with_empty s : starts_with s EmptyString.
Proof. by exists s. Qed.

Lemma alter_insert {A : Type} (f : A -> A) (l : list A) i x :
  l !! i = Some x -> alter f i l = <[i := f x]> l.
Proof.
  revert i. induction l as [|y l IH]; intros [|i] Hi; simpl in *; try done.
  - by injection Hi as ->.
  - f_equal. by apply IH.
Qed.

(** C10.  A sticker without a style, or whose style trims to the empty text,
  qualifies for every key of its size: it is counted at the first key, in
  the order of the index, whose size is the sticker's trimmed, upper-cased
  size code, and it is unmatched exactly when no key has that size. *)
Theorem C10_empty_style_matches_first_key_of_the_size :
  forall (expected_items : items) (unmatched : list json) (sticker : fields),
    dict_lookup "style" sticker = None
    \/ strip (str (text_field "style" sticker)) = EmptyString ->
    let size := upper (strip (str (text_field "code_size" sticker))) in
    (forall k, wanted sticker k <-> snd k = size) /\
    (forall i k c,
       expected_items !! i = Some (k, c) ->
       snd k = size ->
       (forall j k' c', expected_items !! j = Some (k', c') -> (j < i)%nat ->
                        snd k' <> size) ->
       match_sticker (expected_items, unmatched) (JObj sticker)
       = Ok (<[i := (k, {| expected := expected c; received := received c + 1 |})]>
               expected_items, unmatched)) /\
    ((forall k, k ∈ expected_items.*1 -> snd k <> size) <->
     match_sticker (expected_items, unmatched) (JObj sticker)
     = Ok (expected_items, unmatched ++ [JObj sticker])).
Proof.
  intros expected_items unmatched sticker Hstyle size.
  assert (style_of sticker = EmptyString) as Hempty.
  { destruct Hstyle as [Hnone|Hs]; [|done].
    unfold style_of, text_field. by rewrite Hnone. }
  assert (forall k, wanted sticker k <-> snd k = size) as Hw.
  { intros k. unfold wanted. rewrite Hempty. split; [tauto|].
    intros Hk. split; [apply starts_with_empty | done]. }
  split_and!; [done | |].
  - intros i k c Hi Hk Hbefore. rewrite match_sticker_spec.
    assert (target expected_items.*1 sticker = Some i) as ->.
    { apply target_Some. exists k. split_and!.
      - by rewrite list_lookup_fmap, Hi.
      - exact (proj2 (Hw k) Hk).
      - intros j k' Hj Hlt Hwant. rewrite list_lookup_fmap in Hj.
        destruct (expected_items !! j) as [[k0 c0]|] eqn:Ej; [|done].
        simpl in Hj. injection Hj as ->.
        apply (Hbefore j k' c0 Ej Hlt). exact (proj1 (Hw k') Hwant). }
    by rewrite (alter_insert _ _ _ _ Hi).
  - rewrite match_sticker_spec. split.
    + intros Hnone.
      assert (target expected_items.*1 sticker = None) as ->; [|done].
      apply target_None. intros k Hin Hwant. apply (Hnone k Hin).
      exact (proj1 (Hw k) Hwant).
    + destruct (target expected_items.*1 sticker) as [i|] eqn:Ht.
      * intros [= _ Hu]. apply (f_equal length) in Hu.
        rewrite length_app in Hu. simpl in Hu. lia.
      * intros _ k Hin Hk. rewrite target_None in Ht.
        apply (Ht k Hin). exact (proj2 (Hw k) Hk).
Qed.

Lemma C10_witness :
  dict_lookup "style" [("code_size", JStr " s")] = None /\
  match_sticker
    ([(("Men's Shirt", "M"), {| expected := 2; received := 0 |});
      (("Women's Top", "S"), {| expected := 1; received := 0 |})], [])
    (JObj [("code_size", JStr " s")])
  = Ok ([(("Men's Shirt", "M"), {| expected := 2; received := 0 |});
         (("Women's Top", "S"), {| expected := 1; received := 0 + 1 |})], []).
Proof.
  split; [reflexivity|].
  destruct (C10_empty_style_matches_first_key_of_the_size
              [(("Men's Shirt", "M"), {| expected := 2; received := 0 |});
               (("Women's Top", "S"), {| expected := 1; received := 0 |})]
              [] [("code_size", JStr " s")] (or_introl eq_refl))
    as (_ & Hfirst & _).
  apply (Hfirst 1%nat ("Women's Top", "S") {| expected := 1; received := 0 |}).
  - reflexivity.
  - reflexivity.
  - intros j k' c' Hj Hlt. destruct j as [|j]; [|lia].
    injection Hj as <- _. discriminate.
Defined.

Lemma C6_counterexample :
  no_challan
    (JObj [("lines", JList [JObj [("material_description", JStr "Shirt");
                                  ("size", JStr "M");
                                  ("qty_units_expected", JStr "5")]])])
  = Ok false /\
  run_reconciliation
    (JObj [("lines", JList [JObj [("material_description", JStr "Shirt");
                                  ("size", JStr "M");
                                  ("qty_units_expected", JStr "5")]])])
    (JList [])
  = Raise TypeError.
Proof. split; reflexivity. Qed.

(** C6, amended.  A challan record whose [lines] is a list of records with an
  integer quantity or none passes the guard, and reconciling it with any
  list of sticker records returns a report.  A line without a quantity is
  treated as a line with quantity 0, a line without a description or a size
  as one with the empty text, and likewise a sticker without a style or a
  size code.  A quantity that is present and is no number at all (null, a
  text, a list or a record) is not treated as 0: it makes the loop over the
  lines raise [TypeError]. *)
Theorem C6_well_typed_input_always_reconciles :
  forall (challan : fields) (lines stickers : list fields),
    dict_lookup "lines" challan = Some (JList (JObj <$> lines)) ->
    Forall (fun line => is_int (quantity line) = true) lines ->
    no_challan (JObj challan) = Ok false /\
    (exists report,
       run_reconciliation (JObj challan) (JList (JObj <$> stickers))
       = Ok (Some report)) /\
    (forall acc line,
       dict_lookup "qty_units_expected" line = None ->
       add_line acc (JObj line)
       = add_line acc (JObj (("qty_units_expected", JInt 0) :: line))) /\
    (forall line,
       dict_lookup "material_description" line = None ->
       line_key (JObj line)
       = line_key (JObj (("material_description", JStr EmptyString) :: line))) /\
    (forall line,
       dict_lookup "size" line = None ->
       line_key (JObj line) = line_key (JObj (("size", JStr EmptyString) :: line))) /\
    (forall sticker,
       dict_lookup "style" sticker = None ->
       sticker_key (JObj sticker)
       = sticker_key (JObj (("style", JStr EmptyString) :: sticker))) /\
    (forall sticker,
       dict_lookup "code_size" sticker = None ->
       sticker_key (JObj sticker)
       = sticker_key (JObj (("code_size", JStr EmptyString) :: sticker))) /\
    (forall acc line,
       is_no_number (quantity line) = true ->
       add_line acc (JObj line) = Raise TypeError).
Proof.
  intros challan lines stickers Hlines Hall.
  assert (no_challan (JObj challan) = Ok false) as Hpre.
  { unfold no_challan. destruct challan as [|kv challan]; [done|].
    simpl truthy. simpl negb. cbv iota. unfold py_in, dict_mem.
    by rewrite Hlines. }
  split_and!; [done | | | | | | |].
  - destruct (add_lines_spec lines [] Hall) as (index0 & Hbuild & _).
    destruct (match_loop_spec stickers index0 []) as (index & Hmatch & _).
    exists ((key_row <$> index) ++ (over_row <$> left_over index0.*1 stickers)).
    unfold run_reconciliation. rewrite Hpre. simpl bind.
    rewrite Hlines. simpl default.
    unfold build_expected. simpl iter. simpl bind. rewrite Hbuild. simpl bind.
    unfold match_stickers. simpl iter. simpl bind. rewrite Hmatch. simpl bind.
    by rewrite build_report_spec.
  - intros acc line Hnone. unfold add_line. rewrite !line_key_obj. simpl bind.
    assert (key_of (("qty_units_expected", JInt 0) :: line) = key_of line) as ->
      by reflexivity.
    destruct (dict_getitem _ _); [|done]. simpl. by rewrite Hnone.
  - intros line Hnone. rewrite !line_key_obj. unfold key_of, text_field. simpl.
    by rewrite Hnone.
  - intros line Hnone. rewrite !line_key_obj. unfold key_of, text_field. simpl.
    by rewrite Hnone.
  - intros sticker Hnone. rewrite !sticker_key_obj.
    unfold style_of, size_of, text_field. simpl. by rewrite Hnone.
  - intros sticker Hnone. rewrite !sticker_key_obj.
    unfold style_of, size_of, text_field. simpl. by rewrite Hnone.
  - intros acc line Hq. unfold add_line. rewrite line_key_obj. simpl bind.
    unfold dict_mem, dict_getitem.
    destruct (dict_lookup (key_of line) acc) as [c|] eqn:E.
    + rewrite E. simpl. fold (quantity line).
      by destruct (quantity line) as [| | | | |].
    + rewrite dict_lookup_set_eq. simpl. fold (quantity line).
      by destruct (quantity line) as [| | | | |].
Qed.

Lemma C6_witness :
  dict_lookup "lines" [("challan_number", JStr "DC-17");
                       ("lines", JList (JObj <$> [[("size", JStr "M")]]))]
    = Some (JList (JObj <$> [[("size", JStr "M")]])) /\
  Forall (fun line => is_int (quantity line) = true) [[("size", JStr "M")]] /\
  exists report,
    run_reconciliation
      (JObj [("challan_number", JStr "DC-17");
             ("lines", JList (JObj <$> [[("size", JStr "M")]]))])
      (JList (JObj <$> [[("style", JStr "Shirt")]]))
    = Ok (Some report).
Proof.
  assert (Forall (fun line => is_int (quantity line) = true) [[("size", JStr "M")]])
    as Hall by (repeat constructor).
  split; [reflexivity|]. split; [exact Hall|].
  exact (proj1 (proj2 (C6_well_typed_input_always_reconciles
                         [("challan_number", JStr "DC-17");
                          ("lines", JList (JObj <$> [[("size", JStr "M")]]))]
                         [[("size", JStr "M")]] [[("style", JStr "Shirt")]]
                         eq_refl Hall))).
Defined.
End EngineClaims.

(* ===================================================================== *)
(** * The store: what a run leaves untouched *)
(* ===================================================================== *)

Section Frame.
Import Py Engine Store Spec.
Local Open Scope store_scope.

Lemma keeps_weaken {A : Type} n (m : M A) (P Q : A -> Prop) :
  keeps n m P -> (forall a, P a -> Q a) -> keeps n m Q.
Proof.
  intros Hm HPQ h Hn. destruct (Hm h Hn) as (H1 & H2 & H3). eauto.
Qed.

Lemma keeps_ret {A : Type} n (a : A) (Q : A -> Prop) : Q a -> keeps n (ret a) Q.
Proof. intros HQ h Hn. simpl. split_and!; [done | done |]. by intros ? [= <-]. Qed.

Lemma keeps_raise {A : Type} n e (Q : A -> Prop) : keeps n (raise e) Q.
Proof. intros h Hn. simpl. by split_and!. Qed.

Lemma keeps_stuck {A : Type} n (Q : A -> Prop) : keeps n stuck Q.
Proof. intros h Hn. simpl. by split_and!. Qed.

Lemma keeps_bind {A B : Type} n (m : M A) (f : A -> M B) P Q :
  keeps n m P -> (forall a, P a -> keeps n (f a) Q) -> keeps n (bind m f) Q.
Proof.
  intros Hm Hf h Hn. destruct (Hm h Hn) as (H1 & H2 & H3). unfold bind.
  destruct (m h) as [[a| |] h'] eqn:E; simpl in *; try by split_and!.
  destruct (Hf a (H3 a eq_refl) h' ltac:(lia)) as (G1 & G2 & G3).
  split_and!; [congruence | lia | done].
Qed.

Lemma keeps_lift {A : Type} n (o : outcome A) : keeps n (lift o) any.
Proof. destruct o; [by apply keeps_ret | apply keeps_raise]. Qed.

Lemma keeps_alloc n o : keeps n (alloc o) (fun l => (n <= l)%nat).
Proof.
  intros h Hn. unfold alloc. simpl. split_and!.
  - by rewrite take_app_le.
  - rewrite length_app. lia.
  - by intros ? [= <-].
Qed.

Lemma keeps_load n l : keeps n (load l) any.
Proof. intros h Hn. unfold load. by destruct (h !! l); simpl; split_and!. Qed.

Lemma keeps_store n l o : (n <= l)%nat -> keeps n (store l o) any.
Proof.
  intros Hl h Hn. unfold store. simpl. split_and!; [| by rewrite length_insert | done].
  by rewrite take_insert_ge.
Qed.

Lemma keeps_for_each {A : Type} n (body : A -> M unit) xs :
  (forall x, keeps n (body x) any) -> keeps n (Store.for_each body xs) any.
Proof.
  intros Hbody. induction xs as [|x xs IH]; simpl.
  - by apply keeps_ret.
  - eapply keeps_bind; [apply Hbody | done].
Qed.

(** A tactic for straight-line code. *)
Ltac keeps_step :=
  first
    [ apply keeps_ret; done
    | apply keeps_raise
    | apply keeps_stuck
    | apply keeps_lift
    | apply keeps_load
    | apply keeps_store; done
    | eapply keeps_bind; [|intros ? ?] ].

Lemma keeps_load_list n l : keeps n (load_list l) any.
Proof.
  unfold load_list. eapply keeps_bind; [apply keeps_load|].
  intros [] _; repeat keeps_step.
Qed.

Lemma keeps_load_items n l : keeps n (load_items l) any.
Proof.
  unfold load_items. eapply keeps_bind; [apply keeps_load|].
  intros [] _; repeat keeps_step.
Qed.

Lemma keeps_load_rows n l : keeps n (load_rows l) any.
Proof.
  unfold load_rows. eapply keeps_bind; [apply keeps_load|].
  intros [] _; repeat keeps_step.
Qed.

Lemma keeps_truthy n x : keeps n (truthy x) any.
Proof.
  destruct x; simpl; try (by apply keeps_ret).
  eapply keeps_bind; [apply keeps_load|]. intros [] _; repeat keeps_step.
Qed.

Lemma keeps_py_in n s x : keeps n (Store.py_in s x) any.
Proof.
  destruct x; simpl; try (by apply keeps_ret); try apply keeps_raise.
  eapply keeps_bind; [apply keeps_load|]. intros [] _; repeat keeps_step.
Qed.

Lemma keeps_get_method n x : keeps n (get_method x) any.
Proof.
  destruct x; simpl; try apply keeps_raise.
  eapply keeps_bind; [apply keeps_load|]. intros [] _; repeat keeps_step.
Qed.

Lemma keeps_get n x k dflt : keeps n (Store.get x k dflt) any.
Proof.
  unfold Store.get. eapply keeps_bind; [apply keeps_get_method|].
  intros; by apply keeps_ret.
Qed.

Lemma keeps_iter n x : keeps n (Store.iter x) any.
Proof.
  destruct x; simpl; try (by apply keeps_ret); try apply keeps_raise.
  eapply keeps_bind; [apply keeps_load|]. intros [] _; repeat keeps_step.
Qed.

Lemma keeps_add_int n z x : keeps n (Store.add_int z x) any.
Proof.
  destruct x; simpl; try (by apply keeps_ret); try apply keeps_raise.
  eapply keeps_bind; [apply keeps_load|]. intros [] _; repeat keeps_step.
Qed.

Lemma keeps_str n x : keeps n (Store.str x) any.
Proof.
  intros h Hn. unfold Store.str. by destruct (denote h x); simpl; split_and!.
Qed.

Lemma keeps_line_key n line : keeps n (Store.line_key line) any.
Proof.
  unfold Store.line_key.
  eapply keeps_bind; [apply keeps_get|]. intros ? _.
  eapply keeps_bind; [apply keeps_str|]. intros ? _.
  eapply keeps_bind; [apply keeps_get|]. intros ? _.
  eapply keeps_bind; [apply keeps_str|]. intros ? _.
  by apply keeps_ret.
Qed.

Lemma keeps_add_line n expected_items line :
  (n <= expected_items)%nat -> keeps n (Store.add_line expected_items line) any.
Proof.
  intros Hl. unfold Store.add_line.
  eapply keeps_bind; [apply keeps_line_key|]. intros k _.
  eapply keeps_bind; [apply keeps_load_items|]. intros its _.
  eapply keeps_bind with (P := any).
  { destruct (dict_mem k its); [by apply keeps_ret | by apply keeps_store]. }
  intros _ _.
  eapply keeps_bind; [apply keeps_load_items|]. intros its' _.
  eapply keeps_bind; [apply keeps_lift|]. intros c _.
  eapply keeps_bind; [apply keeps_get|]. intros q _.
  eapply keeps_bind; [apply keeps_add_int|]. intros e _.
  by apply keeps_store.
Qed.

Lemma keeps_scan_keys n expected_items style size keys :
  (n <= expected_items)%nat ->
  keeps n (Store.scan_keys expected_items style size keys) any.
Proof.
  intros Hl. induction keys as [|k keys IH]; simpl.
  - by apply keeps_ret.
  - destruct (key_matches style size k); [|done].
    eapply keeps_bind; [apply keeps_load_items|]. intros its _.
    eapply keeps_bind; [apply keeps_lift|]. intros c _.
    eapply keeps_bind; [by apply keeps_store|]. intros _ _.
    by apply keeps_ret.
Qed.

Lemma keeps_match_sticker n expected_items unmatched_stickers sticker :
  (n <= expected_items)%nat -> (n <= unmatched_stickers)%nat ->
  keeps n (Store.match_sticker expected_items unmatched_stickers sticker) any.
Proof.
  intros Hl Hu. unfold Store.match_sticker.
  eapply keeps_bind; [apply keeps_get|]. intros ? _.
  eapply keeps_bind; [apply keeps_str|]. intros ? _.
  eapply keeps_bind; [apply keeps_get|]. intros ? _.
  eapply keeps_bind; [apply keeps_str|]. intros ? _.
  eapply keeps_bind; [apply keeps_load_items|]. intros its _.
  eapply keeps_bind; [by apply keeps_scan_keys|]. intros [] _.
  - by apply keeps_ret.
  - eapply keeps_bind; [apply keeps_load_list|]. intros xs _.
    by apply keeps_store.
Qed.

Lemma keeps_append_row n report_data r :
  (n <= report_data)%nat -> keeps n (append_row report_data r) any.
Proof.
  intros Hl. unfold append_row.
  eapply keeps_bind; [apply keeps_load_rows|]. intros rows _.
  by apply keeps_store.
Qed.

Lemma keeps_unmatched_row n sticker : keeps n (Store.unmatched_row sticker) any.
Proof.
  unfold Store.unmatched_row.
  eapply keeps_bind; [apply keeps_get|]. intros ? _.
  eapply keeps_bind; [apply keeps_str|]. intros ? _.
  eapply keeps_bind; [apply keeps_get|]. intros ? _.
  by apply keeps_ret.
Qed.

Lemma keeps_no_challan n challan_data : keeps n (Store.no_challan challan_data) any.
Proof.
  unfold Store.no_challan.
  eapply keeps_bind; [apply keeps_truthy|]. intros t _.
  destruct (negb t); [by apply keeps_ret|].
  eapply keeps_bind; [apply keeps_py_in|]. intros ? _. by apply keeps_ret.
Qed.

Lemma keeps_build_expected n challan_data :
  keeps n (Store.build_expected challan_data) (fresh n).
Proof.
  unfold Store.build_expected.
  eapply keeps_bind; [apply keeps_alloc|]. intros expected_items Hd.
  eapply keeps_bind; [apply keeps_get_method|]. intros kvs _.
  eapply keeps_bind; [apply keeps_alloc|]. intros dflt _.
  eapply keeps_bind; [apply keeps_iter|]. intros ls _.
  eapply keeps_bind with (P := any).
  { apply keeps_for_each. intros line. by apply keeps_add_line. }
  intros _ _. by apply keeps_ret.
Qed.

Lemma keeps_match_stickers n expected_items scanned_stickers :
  fresh n expected_items ->
  keeps n (Store.match_stickers expected_items scanned_stickers) (fresh n).
Proof.
  intros Hd. unfold Store.match_stickers.
  eapply keeps_bind; [apply keeps_alloc|]. intros unmatched_stickers Hu.
  eapply keeps_bind; [apply keeps_iter|]. intros ss _.
  eapply keeps_bind with (P := any).
  { apply keeps_for_each. intros sticker. by apply keeps_match_sticker. }
  intros _ _. by apply keeps_ret.
Qed.

Lemma keeps_build_report n expected_items unmatched_stickers :
  keeps n (Store.build_report expected_items unmatched_stickers) (fresh n).
Proof.
  unfold Store.build_report.
  eapply keeps_bind; [apply keeps_alloc|]. intros report_data Hr.
  eapply keeps_bind; [apply keeps_load_items|]. intros its _.
  eapply keeps_bind with (P := any).
  { apply keeps_for_each. intros entry. by apply keeps_append_row. }
  intros _ _.
  eapply keeps_bind; [apply keeps_load_list|]. intros us _.
  eapply keeps_bind with (P := any).
  { apply keeps_for_each. intros sticker.
    eapply keeps_bind; [apply keeps_unmatched_row|]. intros r _.
    by apply keeps_append_row. }
  intros _ _. by apply keeps_ret.
Qed.

Lemma keeps_DataFrame n report_data :
  keeps n (DataFrame report_data) (fun v => exists l, v = VRef l /\ fresh n l).
Proof.
  unfold DataFrame.
  eapply keeps_bind; [apply keeps_load_rows|]. intros rows _.
  eapply keeps_bind; [apply keeps_alloc|]. intros frame Hf.
  apply keeps_ret. by exists frame.
Qed.

(** The frame of a run: the objects that were in the store stay as they
    are, and a frame that is returned is a new object. *)
Lemma keeps_run n challan_data scanned_stickers :
  keeps n (Store.run_reconciliation challan_data scanned_stickers)
    (fun r => forall v, r = Some v -> exists l, v = VRef l /\ fresh n l).
Proof.
  unfold Store.run_reconciliation.
  eapply keeps_bind; [apply keeps_no_challan|]. intros stop _.
  destruct stop; [by apply keeps_ret|].
  eapply keeps_bind; [apply keeps_build_expected|]. intros expected_items Hd.
  eapply keeps_bind; [by apply keeps_match_stickers|]. intros unmatched_stickers Hu.
  eapply keeps_bind; [apply keeps_build_report|]. intros report_data Hr.
  eapply keeps_bind; [apply keeps_DataFrame|]. intros frame Hf.
  apply keeps_ret. by intros v [= <-].
Qed.
End Frame.

(* ===================================================================== *)
(** * The store: documents and the operations that read them *)
(* ===================================================================== *)

Section Documents.
Import Py Engine Store Spec.
Local Open Scope store_scope.
Implicit Types (h : heap) (v : val) (j : json).

Lemma denote_fuel_mono n : forall h v j n' h',
  denote_fuel n h v = Some j -> (n <= n')%nat -> h `prefix_of` h' ->
  denote_fuel n' h' v = Some j.
Proof.
  induction n as [|n IH]; intros h v j n' h' Hd Hn Hh.
  - destruct v; simpl in *; try done; by destruct n'.
  - destruct v as [| | | |l]; simpl in *; try (by destruct n').
    destruct n' as [|n']; [lia|]. simpl.
    destruct (h !! l) as [o|] eqn:Hl; [|done].
    rewrite (prefix_lookup_Some _ _ _ _ Hl Hh).
    destruct o as [xs|kvs| | |]; try done.
    + apply fmap_Some in Hd as (js & Hm & ->).
      apply fmap_Some. exists js. split; [|done].
      apply mapM_Some. apply mapM_Some in Hm.
      eapply Forall2_impl; [exact Hm|]. intros x y Hxy.
      apply (IH h x y n' h' Hxy); [lia | done].
    + apply fmap_Some in Hd as (js & Hm & ->).
      apply fmap_Some. exists js. split; [|done].
      apply mapM_Some. apply mapM_Some in Hm.
      eapply Forall2_impl; [exact Hm|]. intros x y Hxy. simpl in *.
      apply fmap_Some in Hxy as (jy & Hy & ->).
      apply fmap_Some. exists jy. split; [|done].
      apply (IH h _ _ n' h' Hy); [lia | done].
Qed.

Lemma holds_mono h h' v j : h `prefix_of` h' -> holds h v j -> holds h' v j.
Proof.
  intros Hh Hv. unfold holds, denote in *.
  apply (denote_fuel_mono _ _ _ _ _ _ Hv); [by apply prefix_length | done].
Qed.

Lemma holds_list_mono h h' (vs : list val) (js : list json) :
  h `prefix_of` h' -> Forall2 (holds h) vs js -> Forall2 (holds h') vs js.
Proof.
  intros Hh Hvs. eapply Forall2_impl; [exact Hvs|].
  intros v j. by apply holds_mono.
Qed.

(** What a reference to a document points to. *)
Lemma holds_ref h l j :
  holds h (VRef l) j ->
  (exists xs js, h !! l = Some (OList xs) /\ j = JList js /\
                 Forall2 (holds h) xs js) \/
  (exists kvs jkvs, h !! l = Some (ODict kvs) /\ j = JObj jkvs /\
                    Forall2 (holds_field h) kvs jkvs).
Proof.
  unfold holds, denote. destruct (length h) as [|n] eqn:Hlen; [done|].
  intros Hd. simpl in Hd.
  destruct (h !! l) as [[xs|kvs| | |]|]; try done.
  - left. apply fmap_Some in Hd as (js & Hm & ->).
    exists xs, js. split_and!; [done..|].
    apply mapM_Some in Hm. eapply Forall2_impl; [exact Hm|].
    intros x y Hxy. simpl in Hxy.
    apply (denote_fuel_mono _ _ _ _ _ _ Hxy); [lia | done].
  - right. apply fmap_Some in Hd as (jkvs & Hm & ->).
    exists kvs, jkvs. split_and!; [done..|].
    apply mapM_Some in Hm. eapply Forall2_impl; [exact Hm|].
    intros [k x] [k' y] Hxy. simpl in Hxy.
    apply fmap_Some in Hxy as (jy & Hy & [= -> ->]).
    split; [done|]. simpl.
    apply (denote_fuel_mono _ _ _ _ _ _ Hy); [lia | done].
Qed.

Lemma holds_scalar h v j :
  holds h v j ->
  match v with
  | VNone => j = JNull
  | VBool b => j = JBool b
  | VInt n => j = JInt n
  | VStr s => j = JStr s
  | VRef _ => True
  end.
Proof.
  unfold holds, denote. destruct v, (length h); simpl; intros; try done; congruence.
Qed.

Lemma holds_str h s : holds h (VStr s) (JStr s).
Proof. unfold holds, denote. by destruct (length h). Qed.

Lemma holds_int h n : holds h (VInt n) (JInt n).
Proof. unfold holds, denote. by destruct (length h). Qed.

Lemma load_eq h l o : h !! l = Some o -> load l h = (Ret o, h).
Proof. unfold load. by intros ->. Qed.

Lemma truthy_sim h v j : holds h v j -> reads (truthy v) h (Ok (Py.truthy j)).
Proof.
  intros Hv. unfold reads. destruct v as [| | | |l].
  1-4: apply holds_scalar in Hv as ->; done.
  apply holds_ref in Hv as [(xs & js & Hl & -> & Hall)|(kvs & jkvs & Hl & -> & Hall)];
    simpl; unfold bind; rewrite (load_eq _ _ _ Hl).
  - by destruct Hall.
  - by destruct Hall.
Qed.

Lemma eq_str_sim h s v j : holds h v j -> Store.eq_str s v = Py.eq_str s j.
Proof.
  intros Hv. destruct v as [| | | |l].
  1-4: apply holds_scalar in Hv as ->; done.
  by apply holds_ref in Hv as [(xs & js & Hl & -> & Hall)|(kvs & jkvs & Hl & -> & Hall)].
Qed.

Lemma lookup_sim h k kvs jkvs :
  Forall2 (holds_field h) kvs jkvs ->
  option_Forall2 (holds h) (dict_lookup k kvs) (dict_lookup k jkvs).
Proof.
  induction 1 as [|[k1 v1] [k2 j2] kvs jkvs [Hk Hv] Hall IH]; simpl.
  - constructor.
  - simpl in Hk. subst k2. destruct (decide (k = k1)); [by constructor | done].
Qed.

Lemma py_in_sim h s v j : holds h v j -> reads (Store.py_in s v) h (Py.py_in s j).
Proof.
  intros Hv. unfold reads. destruct v as [| | | |l].
  1-4: apply holds_scalar in Hv as ->; done.
  apply holds_ref in Hv as [(xs & js & Hl & -> & Hall)|(kvs & jkvs & Hl & -> & Hall)];
    simpl; unfold bind; rewrite (load_eq _ _ _ Hl); simpl; unfold ret; do 2 f_equal.
  - clear Hl. induction Hall as [|x y xs js Hxy Hall IH]; simpl; [done|].
    by rewrite (eq_str_sim _ _ _ _ Hxy), IH.
  - unfold dict_mem. by destruct (lookup_sim h s kvs jkvs Hall).
Qed.

(** The operations that return parts of a document, run in a store that
    extends the one the document is in. *)
Lemma get_method_sim h0 h v j :
  h0 `prefix_of` h -> holds h0 v j ->
  match j with
  | JObj jkvs => exists kvs, get_method v h = (Ret kvs, h) /\
                             Forall2 (holds_field h0) kvs jkvs
  | _ => get_method v h = (Exc AttributeError, h)
  end.
Proof.
  intros Hh Hv. destruct v as [| | | |l].
  1-4: apply holds_scalar in Hv as ->; done.
  apply holds_ref in Hv as [(xs & js & Hl & -> & Hall)|(kvs & jkvs & Hl & -> & Hall)];
    simpl; unfold bind;
    rewrite (load_eq _ _ _ (prefix_lookup_Some _ _ _ _ Hl Hh)); simpl; [done|].
  by exists kvs.
Qed.

Lemma get_sim h0 h v j k dv dj :
  h0 `prefix_of` h -> holds h0 v j -> holds h0 dv dj ->
  match Py.get j k dj with
  | Ok j' => exists v', Store.get v k dv h = (Ret v', h) /\ holds h0 v' j'
  | Raise e => Store.get v k dv h = (Exc e, h)
  end.
Proof.
  intros Hh Hv Hd. pose proof (get_method_sim h0 h v j Hh Hv) as Hm.
  unfold Store.get, bind.
  destruct j as [| | | | |jkvs]; simpl; try by rewrite Hm.
  destruct Hm as (kvs & -> & Hall). simpl.
  exists (default dv (dict_lookup k kvs)). split; [done|].
  by destruct (lookup_sim h0 k kvs jkvs Hall).
Qed.

Lemma iter_sim h0 h v j :
  h0 `prefix_of` h -> holds h0 v j ->
  match Py.iter j with
  | Ok js => exists vs, Store.iter v h = (Ret vs, h) /\ Forall2 (holds h0) vs js
  | Raise e => Store.iter v h = (Exc e, h)
  end.
Proof.
  intros Hh Hv. destruct v as [| | | s|l].
  1-3: apply holds_scalar in Hv as ->; done.
  - apply holds_scalar in Hv as ->. simpl. eexists. split; [done|].
    unfold chars. induction (list_ascii_of_string s); simpl; constructor;
      [apply holds_str | done].
  - apply holds_ref in Hv as [(xs & js & Hl & -> & Hall)|(kvs & jkvs & Hl & -> & Hall)];
      simpl; unfold bind;
      rewrite (load_eq _ _ _ (prefix_lookup_Some _ _ _ _ Hl Hh)); simpl.
    + by exists xs.
    + eexists. split; [done|]. clear Hl.
      induction Hall as [|[k1 v1] [k2 j2] ? ? [Hk _] _ IH]; simpl; constructor;
        [|done].
      simpl in Hk. subst. apply holds_str.
Qed.

Lemma add_int_sim h n v j :
  holds h v j -> reads (Store.add_int n v) h (Py.add_int n j).
Proof.
  intros Hv. unfold reads. destruct v as [| | | |l].
  1-4: apply holds_scalar in Hv as ->; done.
  apply holds_ref in Hv as [(xs & js & Hl & -> & Hall)|(kvs & jkvs & Hl & -> & Hall)];
    simpl; unfold bind; by rewrite (load_eq _ _ _ Hl).
Qed.

Lemma str_sim h v j : holds h v j -> reads (Store.str v) h (Ok (Py.str j)).
Proof. intros Hv. unfold reads, Store.str. by rewrite Hv. Qed.
End Documents.

(* ===================================================================== *)
(** * The store: the run, step by step *)
(* ===================================================================== *)

Section Simulation.
Import Py Engine Store Spec.
Local Open Scope store_scope.
Implicit Types (h pre post : heap) (v : val) (j : json).

Lemma bind_run {A B : Type} (m : M A) (f : A -> M B) h r h' :
  m h = (r, h') ->
  bind m f h = match r with
               | Ret a => f a h'
               | Exc e => (Exc e, h')
               | Stuck => (Stuck, h')
               end.
Proof. unfold bind. intros ->. by destruct r. Qed.

Lemma bind_reads {A B : Type} (m : M A) (f : A -> M B) h o :
  reads m h o ->
  bind m f h = match o with
               | Ok a => f a h
               | Raise e => (Exc e, h)
               end.
Proof. unfold reads. intros Hm. rewrite (bind_run _ _ _ _ _ Hm). by destruct o. Qed.

Lemma load_middle pre o post : load (length pre) (pre ++ o :: post) = (Ret o, pre ++ o :: post).
Proof. apply load_eq, list_lookup_middle. done. Qed.

Lemma store_middle pre o o' post :
  store (length pre) o' (pre ++ o :: post) = (Ret tt, pre ++ o' :: post).
Proof.
  unfold store. f_equal.
  replace (length pre) with (length pre + 0)%nat by lia.
  by rewrite insert_app_r.
Qed.

Lemma load_items_middle pre idx post :
  load_items (length pre) (pre ++ OItems idx :: post)
  = (Ret idx, pre ++ OItems idx :: post).
Proof. unfold load_items. by rewrite (bind_run _ _ _ _ _ (load_middle _ _ _)). Qed.

Lemma load_list_middle pre xs post :
  load_list (length pre) (pre ++ OList xs :: post)
  = (Ret xs, pre ++ OList xs :: post).
Proof. unfold load_list. by rewrite (bind_run _ _ _ _ _ (load_middle _ _ _)). Qed.

Lemma load_rows_middle pre rows post :
  load_rows (length pre) (pre ++ ORows rows :: post)
  = (Ret rows, pre ++ ORows rows :: post).
Proof. unfold load_rows. by rewrite (bind_run _ _ _ _ _ (load_middle _ _ _)). Qed.

Lemma line_key_sim h line jline :
  holds h line jline -> reads (Store.line_key line) h (Engine.line_key jline).
Proof.
  intros Hl. unfold Store.line_key, reads.
  pose proof (get_sim h h line jline "material_description" _ _ (reflexivity h) Hl
                (holds_str h EmptyString)) as Hd.
  pose proof (get_sim h h line jline "size" _ _ (reflexivity h) Hl
                (holds_str h EmptyString)) as Hs.
  destruct jline as [| | | | |o]; simpl in Hd, Hs;
    try (by rewrite (bind_run _ _ _ _ _ Hd)).
  destruct Hd as (vd & Hd & Hvd). destruct Hs as (vs & Hs & Hvs).
  rewrite (bind_run _ _ _ _ _ Hd).
  rewrite (bind_reads _ _ _ _ (str_sim _ _ _ Hvd)).
  rewrite (bind_run _ _ _ _ _ Hs).
  rewrite (bind_reads _ _ _ _ (str_sim _ _ _ Hvs)).
  done.
Qed.

Lemma add_line_sim h0 pre post idx line jline :
  h0 `prefix_of` pre -> holds h0 line jline ->
  exists idx'',
    Store.add_line (length pre) line (pre ++ OItems idx :: post)
    = (unit_of (Engine.add_line idx jline), pre ++ OItems idx'' :: post) /\
    forall idx', Engine.add_line idx jline = Ok idx' -> idx'' = idx'.
Proof.
  intros Hpre Hl.
  assert (forall idx1, holds (pre ++ OItems idx1 :: post) line jline) as Hl'.
  { intros idx1. eapply holds_mono; [|exact Hl]. by apply prefix_app_r. }
  unfold Store.add_line, Engine.add_line.
  rewrite (bind_reads _ _ _ _ (line_key_sim _ _ _ (Hl' idx))).
  destruct (Engine.line_key jline) as [k|e] eqn:Hk; simpl Py.bind; [|by exists idx].
  rewrite (bind_run _ _ _ _ _ (load_items_middle _ _ _)).
  set (idx1 := if dict_mem k idx then idx
               else dict_set k {| expected := 0; received := 0 |} idx).
  assert ((if dict_mem k idx then ret tt
           else store (length pre)
                  (OItems (dict_set k {| expected := 0; received := 0 |} idx)))
            (pre ++ OItems idx :: post)
          = (Ret tt, pre ++ OItems idx1 :: post)) as Hstep.
  { unfold idx1. destruct (dict_mem k idx); [done | apply store_middle]. }
  rewrite (bind_run _ _ _ _ _ Hstep).
  rewrite (bind_run _ _ _ _ _ (load_items_middle _ _ _)).
  destruct (dict_getitem k idx1) as [c|e] eqn:Hc; simpl Py.bind.
  2:{ exists idx1. split; [|done]. by unfold bind. }
  unfold lift at 1. unfold bind at 1. unfold ret at 1.
  pose proof (get_sim _ _ line jline "qty_units_expected" _ _
                (reflexivity _) (Hl' idx1) (holds_int _ 0)) as Hq.
  destruct (Py.get jline "qty_units_expected" (JInt 0)) as [jq|e] eqn:Hjq;
    simpl Py.bind.
  2:{ exists idx1. split; [|done]. by rewrite (bind_run _ _ _ _ _ Hq). }
  destruct Hq as (q & Hq & Hvq).
  rewrite (bind_run _ _ _ _ _ Hq).
  rewrite (bind_reads _ _ _ _ (add_int_sim _ (expected c) _ _ Hvq)).
  destruct (Py.add_int (expected c) jq) as [e|e]; simpl Py.bind.
  - eexists. split; [apply store_middle|]. by intros ? [= <-].
  - by exists idx1.
Qed.

Lemma add_lines_sim h0 pre post lines jlines :
  h0 `prefix_of` pre -> Forall2 (holds h0) lines jlines ->
  forall idx, exists idx'',
    Store.for_each (Store.add_line (length pre)) lines (pre ++ OItems idx :: post)
    = (unit_of (Py.for_each Engine.add_line idx jlines),
       pre ++ OItems idx'' :: post) /\
    forall idx', Py.for_each Engine.add_line idx jlines = Ok idx' -> idx'' = idx'.
Proof.
  intros Hpre Hall. induction Hall as [|line jline lines jlines Hl Hall IH];
    intros idx.
  - exists idx. split; [done|]. by intros ? [= <-].
  - destruct (add_line_sim h0 pre post idx line jline Hpre Hl) as (idx1 & Hrun & Hok).
    simpl Store.for_each. rewrite for_each_cons, (bind_run _ _ _ _ _ Hrun).
    destruct (Engine.add_line idx jline) as [idx'|e] eqn:Ha; simpl.
    + rewrite (Hok idx' eq_refl). apply IH.
    + by exists idx1.
Qed.

Lemma scan_keys_sim pre post style size keys : forall idx,
  Store.scan_keys (length pre) style size keys (pre ++ OItems idx :: post)
  = match Engine.scan_keys style size keys idx with
    | Ok (idx', found) => (Ret found, pre ++ OItems idx' :: post)
    | Raise e => (Exc e, pre ++ OItems idx :: post)
    end.
Proof.
  induction keys as [|k keys IH]; intros idx; simpl; [done|].
  destruct (key_matches style size k); [|apply IH].
  rewrite (bind_run _ _ _ _ _ (load_items_middle _ _ _)).
  destruct (dict_getitem k idx) as [c|e]; simpl; [|done].
  unfold bind at 1. simpl.
  by rewrite (bind_run _ _ _ _ _ (store_middle _ _ _ _)).
Qed.

Lemma middle_assoc pre (o : obj) mid tail :
  pre ++ o :: mid ++ tail = (pre ++ o :: mid) ++ tail.
Proof. by rewrite <- app_assoc. Qed.

Lemma middle_length pre (o : obj) mid :
  length (pre ++ o :: mid) = (length pre + S (length mid))%nat.
Proof. by rewrite length_app. Qed.

Lemma load_list_second pre o mid xs post :
  load_list (length pre + S (length mid)) (pre ++ o :: mid ++ OList xs :: post)
  = (Ret xs, pre ++ o :: mid ++ OList xs :: post).
Proof.
  rewrite <- (middle_length pre o mid), middle_assoc. apply load_list_middle.
Qed.

Lemma store_second pre o mid o1 o2 post :
  store (length pre + S (length mid)) o2 (pre ++ o :: mid ++ o1 :: post)
  = (Ret tt, pre ++ o :: mid ++ o2 :: post).
Proof.
  rewrite <- (middle_length pre o mid), !middle_assoc. apply store_middle.
Qed.

Lemma sticker_key_sim h sticker jsticker :
  holds h sticker jsticker ->
  reads (st <- Store.get sticker "style" (VStr EmptyString);;
         st <- Store.str st;;
         sz <- Store.get sticker "code_size" (VStr EmptyString);;
         sz <- Store.str sz;;
         ret (strip st, upper (strip sz)))
        h (Engine.sticker_key jsticker).
Proof.
  intros Hl. unfold reads.
  pose proof (get_sim h h sticker jsticker "style" _ _ (reflexivity h) Hl
                (holds_str h EmptyString)) as Hd.
  pose proof (get_sim h h sticker jsticker "code_size" _ _ (reflexivity h) Hl
                (holds_str h EmptyString)) as Hs.
  destruct jsticker as [| | | | |o]; simpl in Hd, Hs;
    try (by rewrite (bind_run _ _ _ _ _ Hd)).
  destruct Hd as (vd & Hd & Hvd). destruct Hs as (vs & Hs & Hvs).
  rewrite (bind_run _ _ _ _ _ Hd).
  rewrite (bind_reads _ _ _ _ (str_sim _ _ _ Hvd)).
  rewrite (bind_run _ _ _ _ _ Hs).
  rewrite (bind_reads _ _ _ _ (str_sim _ _ _ Hvs)).
  done.
Qed.

Lemma match_sticker_sim h0 pre mid post idx us jus sticker jsticker :
  h0 `prefix_of` pre -> holds h0 sticker jsticker -> Forall2 (holds h0) us jus ->
  match Engine.match_sticker (idx, jus) jsticker with
  | Ok (idx', jus') =>
      exists us',
        Store.match_sticker (length pre) (length pre + S (length mid)) sticker
          (pre ++ OItems idx :: mid ++ OList us :: post)
        = (Ret tt, pre ++ OItems idx' :: mid ++ OList us' :: post) /\
        Forall2 (holds h0) us' jus'
  | Raise e =>
      Store.match_sticker (length pre) (length pre + S (length mid)) sticker
        (pre ++ OItems idx :: mid ++ OList us :: post)
      = (Exc e, pre ++ OItems idx :: mid ++ OList us :: post)
  end.
Proof.
  intros Hpre Hs Hus.
  assert (holds (pre ++ OItems idx :: mid ++ OList us :: post) sticker jsticker)
    as Hs'.
  { eapply holds_mono; [|exact Hs]. by apply prefix_app_r. }
  pose proof (sticker_key_sim _ _ _ Hs') as Hkey. unfold reads in Hkey.
  unfold Store.match_sticker, Engine.match_sticker.
  destruct (Engine.sticker_key jsticker) as [[style size]|e] eqn:Ek; simpl Py.bind.
  2:{ unfold bind in *.
      destruct (Store.get sticker "style" (VStr EmptyString) _) as [[v| |] h1];
        simpl in *; try (by simplify_eq).
      destruct (Store.str v h1) as [[s1| |] h2]; simpl in *; try (by simplify_eq).
      destruct (Store.get sticker "code_size" (VStr EmptyString) h2)
        as [[v2| |] h3]; simpl in *; try (by simplify_eq).
      destruct (Store.str v2 h3) as [[s2| |] h4]; simpl in *; try (by simplify_eq). }
  unfold bind in Hkey |- *.
  destruct (Store.get sticker "style" (VStr EmptyString) _) as [[v| |] h1];
    simpl in *; try (by simplify_eq).
  destruct (Store.str v h1) as [[s1| |] h2]; simpl in *; try (by simplify_eq).
  destruct (Store.get sticker "code_size" (VStr EmptyString) h2)
    as [[v2| |] h3]; simpl in *; try (by simplify_eq).
  destruct (Store.str v2 h3) as [[s2| |] h4]; simpl in *; try (by simplify_eq).
  unfold ret in Hkey. injection Hkey as -> -> ->.
  rewrite load_items_middle, scan_keys_sim.
  destruct (Engine.scan_keys _ _ _ idx) as [[idx' found]|e]; simpl; [|done].
  destruct found; simpl.
  - by exists us.
  - rewrite load_list_second. exists (us ++ [sticker]).
    split; [by rewrite store_second|].
    apply Forall2_app; [done | by constructor].
Qed.

Lemma match_loop_sim h0 pre mid post stickers jstickers :
  h0 `prefix_of` pre -> Forall2 (holds h0) stickers jstickers ->
  forall idx us jus, Forall2 (holds h0) us jus ->
  exists idx'' us'',
    Store.for_each
      (Store.match_sticker (length pre) (length pre + S (length mid))) stickers
      (pre ++ OItems idx :: mid ++ OList us :: post)
    = (unit_of (Py.for_each Engine.match_sticker (idx, jus) jstickers),
       pre ++ OItems idx'' :: mid ++ OList us'' :: post) /\
    forall idx' jus',
      Py.for_each Engine.match_sticker (idx, jus) jstickers = Ok (idx', jus') ->
      idx'' = idx' /\ Forall2 (holds h0) us'' jus'.
Proof.
  intros Hpre Hall.
  induction Hall as [|sticker jsticker stickers jstickers Hs Hall IH];
    intros idx us jus Hus.
  - exists idx, us. split; [done|]. by intros ? ? [= <- <-].
  - pose proof (match_sticker_sim h0 pre mid post idx us jus sticker jsticker
                  Hpre Hs Hus) as Hstep.
    simpl Store.for_each. rewrite for_each_cons.
    destruct (Engine.match_sticker (idx, jus) jsticker) as [[idx1 jus1]|e].
    + destruct Hstep as (us1 & Hrun & Hus1).
      rewrite (bind_run _ _ _ _ _ Hrun). simpl. by apply IH.
    + rewrite (bind_run _ _ _ _ _ Hstep). simpl. by exists idx, us.
Qed.

Lemma key_row_holds h entry : row_holds h (Store.key_row entry) (Engine.key_row entry).
Proof. destruct entry as [k c]. unfold row_holds. simpl. split_and!; try done. apply holds_str. Qed.

Lemma key_rows_sim pre post its : forall rows,
  Store.for_each (fun entry => append_row (length pre) (Store.key_row entry)) its
    (pre ++ ORows rows :: post)
  = (Ret tt, pre ++ ORows (rows ++ (Store.key_row <$> its)) :: post).
Proof.
  induction its as [|entry its IH]; intros rows; simpl Store.for_each.
  - by rewrite app_nil_r.
  - unfold append_row at 1.
    unfold bind at 1. unfold bind at 1. rewrite load_rows_middle, store_middle.
    rewrite IH, fmap_cons. by rewrite <- app_assoc.
Qed.

Lemma unmatched_row_sim h0 h sticker jsticker :
  h0 `prefix_of` h -> holds h0 sticker jsticker ->
  match Engine.unmatched_row jsticker with
  | Ok jr => exists r, Store.unmatched_row sticker h = (Ret r, h) /\ row_holds h0 r jr
  | Raise e => Store.unmatched_row sticker h = (Exc e, h)
  end.
Proof.
  intros Hh Hs. unfold Store.unmatched_row, Engine.unmatched_row.
  pose proof (get_sim h0 h sticker jsticker "style" _ _ Hh Hs
                (holds_str h0 EmptyString)) as Hd.
  pose proof (get_sim h0 h sticker jsticker "code_size" _ _ Hh Hs
                (holds_str h0 EmptyString)) as Hz.
  destruct jsticker as [| | | | |o]; simpl in Hd, Hz;
    try (by rewrite (bind_run _ _ _ _ _ Hd)).
  destruct Hd as (vd & Hd & Hvd). destruct Hz as (vz & Hz & Hvz).
  rewrite (bind_run _ _ _ _ _ Hd).
  rewrite (bind_reads _ _ _ _ (str_sim _ _ _ (holds_mono _ _ _ _ Hh Hvd))).
  rewrite (bind_run _ _ _ _ _ Hz). simpl.
  eexists. split; [done|]. unfold row_holds. simpl. by split_and!.
Qed.

Lemma unmatched_rows_sim h0 pre post us jus :
  h0 `prefix_of` pre -> Forall2 (holds h0) us jus ->
  forall rows jrows, Forall2 (row_holds h0) rows jrows ->
  exists rows'',
    Store.for_each
      (fun sticker => r <- Store.unmatched_row sticker;; append_row (length pre) r) us
      (pre ++ ORows rows :: post)
    = (unit_of (Py.for_each
                  (fun report_data sticker =>
                     Py.bind (Engine.unmatched_row sticker)
                             (fun r => Ok (report_data ++ [r])))
                  jrows jus),
       pre ++ ORows rows'' :: post) /\
    forall jrows',
      Py.for_each
        (fun report_data sticker =>
           Py.bind (Engine.unmatched_row sticker) (fun r => Ok (report_data ++ [r])))
        jrows jus = Ok jrows' ->
      Forall2 (row_holds h0) rows'' jrows'.
Proof.
  intros Hpre Hall. induction Hall as [|sticker jsticker us jus Hs Hall IH];
    intros rows jrows Hrows.
  - exists rows. split; [done|]. by intros ? [= <-].
  - assert (h0 `prefix_of` pre ++ ORows rows :: post) as Hh by by apply prefix_app_r.
    pose proof (unmatched_row_sim h0 _ sticker jsticker Hh Hs) as Hstep.
    simpl Store.for_each. rewrite for_each_cons.
    destruct (Engine.unmatched_row jsticker) as [jr|e]; simpl Py.bind.
    + destruct Hstep as (r & Hrun & Hr).
      unfold bind at 1. unfold bind at 1. rewrite Hrun.
      unfold append_row. unfold bind at 1. rewrite load_rows_middle, store_middle.
      apply IH. apply Forall2_app; [done | by constructor].
    + unfold bind at 1. unfold bind at 1. rewrite Hstep. by exists rows.
Qed.

Lemma no_challan_sim h c jc :
  holds h c jc -> reads (Store.no_challan c) h (Engine.no_challan jc).
Proof.
  intros Hc. unfold Store.no_challan, Engine.no_challan, reads.
  rewrite (bind_reads _ _ _ _ (truthy_sim _ _ _ Hc)).
  destruct (Py.truthy jc); simpl; [|done].
  rewrite (bind_reads _ _ _ _ (py_in_sim _ "lines" _ _ Hc)).
  by destruct (Py.py_in "lines" jc).
Qed.

Lemma alloc_eq h o : alloc o h = (Ret (length h), h ++ [o]).
Proof. reflexivity. Qed.

Lemma snoc_middle pre (o x : obj) post :
  (pre ++ o :: post) ++ [x] = pre ++ o :: (post ++ [x]).
Proof. by rewrite <- app_assoc. Qed.

Lemma no_challan_lines jkvs :
  Engine.no_challan (JObj jkvs) = Ok false -> is_Some (dict_lookup "lines" jkvs).
Proof.
  unfold Engine.no_challan. destruct (Py.truthy (JObj jkvs)); [|done]. simpl.
  unfold dict_mem. destruct (dict_lookup "lines" jkvs); [eauto | done].
Qed.

Lemma build_expected_sim h c jc :
  holds h c jc -> Engine.no_challan jc = Ok false ->
  exists tail,
    Store.build_expected c h
    = (loc_of (length h)
         (Py.bind (Py.get jc "lines" (JList [])) Engine.build_expected),
       h ++ tail) /\
    forall idx',
      Py.bind (Py.get jc "lines" (JList [])) Engine.build_expected = Ok idx' ->
      tail = [OItems idx'; OList []].
Proof.
  intros Hc Hpre. unfold Store.build_expected.
  rewrite (bind_run _ _ _ _ _ (alloc_eq _ _)).
  assert (h `prefix_of` h ++ [OItems []]) as Hp1 by by apply prefix_app_r.
  pose proof (get_method_sim h _ c jc Hp1 Hc) as Hm.
  destruct jc as [| | | | |jkvs];
    try (rewrite (bind_run _ _ _ _ _ Hm); simpl; by exists [OItems []]).
  destruct Hm as (kvs & Hm & Hkvs). rewrite (bind_run _ _ _ _ _ Hm).
  rewrite (bind_run _ _ _ _ _ (alloc_eq _ _)), snoc_middle. simpl app.
  destruct (no_challan_lines _ Hpre) as [jl Hjl].
  pose proof (lookup_sim h "lines" kvs jkvs Hkvs) as Hlook. rewrite Hjl in Hlook.
  inversion Hlook as [vl jl' Hvl Hv Hj|]; subst. simpl default.
  simpl Py.get. rewrite Hjl. simpl default. simpl Py.bind.
  unfold Engine.build_expected.
  assert (h `prefix_of` h ++ [OItems []; OList []]) as Hp2 by by apply prefix_app_r.
  pose proof (iter_sim h _ vl jl Hp2 Hvl) as Hit.
  destruct (Py.iter jl) as [jls|e]; simpl Py.bind.
  2:{ rewrite (bind_run _ _ _ _ _ Hit). simpl. by eexists. }
  destruct Hit as (ls & Hit & Hls). rewrite (bind_run _ _ _ _ _ Hit).
  destruct (add_lines_sim h h [OList []] ls jls (reflexivity h) Hls [])
    as (idx'' & Hrun & Hok).
  rewrite (bind_run _ _ _ _ _ Hrun).
  destruct (Py.for_each Engine.add_line [] jls) as [idx'|e]; simpl.
  - eexists. split; [done|]. intros ? [= <-]. by rewrite (Hok idx' eq_refl).
  - by eexists.
Qed.

Lemma match_stickers_sim h idx s js :
  holds h s js ->
  exists tail,
    Store.match_stickers (length h) s (h ++ [OItems idx; OList []])
    = (loc_of (length h + 2)%nat (Engine.match_stickers idx js), h ++ tail) /\
    forall idx' jus',
      Engine.match_stickers idx js = Ok (idx', jus') ->
      exists us', tail = [OItems idx'; OList []; OList us'] /\
                  Forall2 (holds h) us' jus'.
Proof.
  intros Hs. unfold Store.match_stickers, Engine.match_stickers.
  rewrite (bind_run _ _ _ _ _ (alloc_eq _ _)), snoc_middle. simpl app.
  assert (h `prefix_of` h ++ [OItems idx; OList []; OList []]) as Hp
    by by apply prefix_app_r.
  pose proof (iter_sim h _ s js Hp Hs) as Hit.
  destruct (Py.iter js) as [jss|e]; simpl Py.bind.
  2:{ rewrite (bind_run _ _ _ _ _ Hit). simpl. by eexists. }
  destruct Hit as (ss & Hit & Hss). rewrite (bind_run _ _ _ _ _ Hit).
  destruct (match_loop_sim h h [OList []] [] ss jss (reflexivity h) Hss idx [] [])
    as (idx'' & us'' & Hrun & Hok); [constructor|].
  simpl in Hrun. rewrite length_app. simpl length.
  replace (length h + 1 + 1)%nat with (length h + 2)%nat by lia.
  rewrite (bind_run _ _ _ _ _ Hrun).
  destruct (Py.for_each Engine.match_sticker (idx, []) jss) as [[idx' jus']|e];
    simpl.
  - eexists. split; [done|]. intros ? ? [= <- <-].
    destruct (Hok idx' jus' eq_refl) as [-> Hus]. by exists us''.
  - by eexists.
Qed.

Lemma build_report_sim h idx us jus :
  Forall2 (holds h) us jus ->
  exists tail,
    Store.build_report (length h) (length h + 2) (h ++ [OItems idx; OList []; OList us])
    = (loc_of (length h + 3)%nat (Engine.build_report idx jus), h ++ tail) /\
    forall jrows,
      Engine.build_report idx jus = Ok jrows ->
      exists rows, tail = [OItems idx; OList []; OList us; ORows rows] /\
                   Forall2 (row_holds h) rows jrows.
Proof.
  intros Hus. unfold Store.build_report, Engine.build_report.
  rewrite (bind_run _ _ _ _ _ (alloc_eq _ _)).
  rewrite (snoc_middle h (OItems idx)). simpl app.
  rewrite (bind_run _ _ _ _ _ (load_items_middle _ _ _)).
  pose proof (key_rows_sim (h ++ [OItems idx; OList []; OList us]) [] idx []) as Hk.
  rewrite <- !app_assoc in Hk. simpl app in Hk.
  rewrite (bind_run _ _ _ _ _ Hk).
  pose proof (load_list_second h (OItems idx) [OList []] us
                [ORows (Store.key_row <$> idx)]) as Hl.
  simpl in Hl.
  rewrite (bind_run _ _ _ _ _ Hl).
  destruct (unmatched_rows_sim h (h ++ [OItems idx; OList []; OList us]) [] us jus
              (prefix_app_r _ _ _ (reflexivity h)) Hus
              (Store.key_row <$> idx) (Engine.key_row <$> idx))
    as (rows'' & Hrun & Hok).
  { apply Forall2_fmap, Forall_Forall2_diag, Forall_forall.
    intros entry _. apply key_row_holds. }
  rewrite <- !app_assoc in Hrun. simpl app in Hrun.
  rewrite (bind_run _ _ _ _ _ Hrun).
  rewrite length_app. simpl length.
  destruct (Py.for_each _ (Engine.key_row <$> idx) jus) as [jrows|e] eqn:E; simpl.
  - eexists. split; [done|]. intros ? [= <-]. exists rows''. split; [done|].
    by apply Hok.
  - by eexists.
Qed.

Lemma DataFrame_sim h idx us rows :
  DataFrame (length h + 3) (h ++ [OItems idx; OList []; OList us; ORows rows])
  = (Ret (VRef (length h + 4)),
     h ++ [OItems idx; OList []; OList us; ORows rows; OFrame rows]).
Proof.
  unfold DataFrame.
  pose proof (load_rows_middle (h ++ [OItems idx; OList []; OList us]) rows []) as Hl.
  rewrite length_app, <- !app_assoc in Hl. simpl in Hl.
  rewrite (bind_run _ _ _ _ _ Hl), (bind_run _ _ _ _ _ (alloc_eq _ _)).
  unfold ret. rewrite length_app, <- app_assoc. done.
Qed.

(** The run over the store computes what the engine computes on the
    documents the two session values stand for.  Five objects are
    allocated, in this order: [expected_items], the default list of
    [get], [unmatched_stickers], [report_data] and the frame. *)
Theorem run_sim h c s jc js :
  holds h c jc -> holds h s js ->
  match Engine.run_reconciliation jc js with
  | Ok None => Store.run_reconciliation c s h = (Ret None, h)
  | Ok (Some jrows) =>
      exists idx us rows,
        Store.run_reconciliation c s h
        = (Ret (Some (VRef (length h + 4))),
           h ++ [OItems idx; OList []; OList us; ORows rows; OFrame rows]) /\
        Forall2 (row_holds h) rows jrows
  | Raise e => exists tail, Store.run_reconciliation c s h = (Exc e, h ++ tail)
  end.
Proof.
  intros Hc Hs. unfold Store.run_reconciliation, Engine.run_reconciliation.
  rewrite (bind_reads _ _ _ _ (no_challan_sim _ _ _ Hc)).
  destruct (Engine.no_challan jc) as [[]|e] eqn:Hpre; simpl Py.bind.
  - done.
  - destruct (build_expected_sim h c jc Hc Hpre) as (tail1 & Hb & Hok1).
    rewrite (bind_run _ _ _ _ _ Hb).
    destruct (Py.get jc "lines" (JList [])) as [jl|e]; simpl Py.bind in *;
      [|by exists tail1].
    destruct (Engine.build_expected jl) as [idx0|e]; simpl Py.bind in *;
      [|by exists tail1].
    rewrite (Hok1 idx0 eq_refl). simpl loc_of.
    destruct (match_stickers_sim h idx0 s js Hs) as (tail2 & Hm & Hok2).
    rewrite (bind_run _ _ _ _ _ Hm).
    destruct (Engine.match_stickers idx0 js) as [[idx jus]|e]; simpl Py.bind in *;
      [|by exists tail2].
    destruct (Hok2 idx jus eq_refl) as (us & -> & Hus). simpl loc_of.
    destruct (build_report_sim h idx us jus Hus) as (tail3 & Hr & Hok3).
    rewrite (bind_run _ _ _ _ _ Hr).
    destruct (Engine.build_report idx jus) as [jrows|e]; simpl Py.bind in *;
      [|by exists tail3].
    destruct (Hok3 jrows eq_refl) as (rows & -> & Hrows). simpl loc_of.
    cbv beta iota.
    rewrite (bind_run _ _ _ _ _ (DataFrame_sim _ _ _ _)).
    by exists idx, us, rows.
  - exists []. by rewrite app_nil_r.
Qed.

Lemma row_doc_holds h h' r jr :
  h `prefix_of` h' -> row_holds h r jr -> row_doc h' r = Some jr.
Proof.
  intros Hh (H1 & H2 & H3 & H4 & H5 & H6). unfold row_doc.
  rewrite (holds_mono _ _ _ _ Hh H2). simpl.
  destruct r, jr; simpl in *. by subst.
Qed.

Lemma observe_run h c s jc js :
  holds h c jc -> holds h s js ->
  observe (Store.run_reconciliation c s h) = Some (Engine.run_reconciliation jc js).
Proof.
  intros Hc Hs. pose proof (run_sim h c s jc js Hc Hs) as Hsim.
  destruct (Engine.run_reconciliation jc js) as [[jrows|]|e].
  - destruct Hsim as (idx & us & rows & -> & Hrows). unfold observe.
    rewrite (lookup_app_r h) by lia.
    replace (length h + 4 - length h)%nat with 4%nat by lia. simpl lookup.
    cbv beta iota.
    assert (mapM (row_doc (h ++ [OItems idx; OList []; OList us; ORows rows;
                                 OFrame rows])) rows = Some jrows) as ->; [|done].
    apply mapM_Some. eapply Forall2_impl; [exact Hrows|].
    intros r jr Hr. eapply row_doc_holds; [|exact Hr]. by apply prefix_app_r.
  - by rewrite Hsim.
  - destruct Hsim as (tail & ->). done.
Qed.

Lemma run_extends h c s : h `prefix_of` (Store.run_reconciliation c s h).2.
Proof.
  destruct (keeps_run (length h) c s h (Nat.le_refl _)) as (Htake & Hlen & _).
  rewrite (take_ge h (length h)) in Htake by done.
  rewrite <- Htake at 1. apply prefix_take.
Qed.

Lemma no_challan_reads c h : (Store.no_challan c h).2 = h.
Proof.
  unfold Store.no_challan, bind.
  destruct c as [|[]|n|s|l]; simpl; try done.
  - by destruct (negb (Z.eqb n 0)).
  - by destruct (negb (String.eqb s EmptyString)).
  - unfold bind, load. destruct (h !! l) as [[xs|kvs| | |]|]; simpl; try done.
    + destruct xs; simpl; [done|]. unfold bind, load.
      destruct (h !! l) as [[| | | |]|]; done.
    + destruct kvs; simpl; [done|]. unfold bind, load.
      destruct (h !! l) as [[| | | |]|]; done.
Qed.

(** The function returns [None] only from its guard. *)
Lemma run_None h c s :
  (Store.run_reconciliation c s h).1 = Ret None <->
  (Store.no_challan c h).1 = Ret true.
Proof.
  unfold Store.run_reconciliation, bind.
  destruct (Store.no_challan c h) as [[[]| |] h1]; simpl; try done.
  destruct (Store.build_expected c h1) as [[d| |] h2]; simpl;
    [|split; done..].
  destruct (Store.match_stickers d s h2) as [[u| |] h3]; simpl;
    [|split; done..].
  destruct (Store.build_report d u h3) as [[r| |] h4]; simpl;
    [|split; done..].
  destruct (DataFrame r h4) as [[f| |] h5]; simpl; split; done.
Qed.

Lemma run_None_store h c s :
  (Store.run_reconciliation c s h).1 = Ret None ->
  (Store.run_reconciliation c s h).2 = h.
Proof.
  intros Hrun. pose proof (proj1 (run_None h c s) Hrun) as Hg.
  pose proof (no_challan_reads c h) as Hh.
  unfold Store.run_reconciliation, bind.
  destruct (Store.no_challan c h) as [[[]| |] h1]; simpl in *; done.
Qed.

Lemma no_challan_dict h l kvs :
  h !! l = Some (ODict kvs) ->
  (Store.no_challan (VRef l) h).1
  = Ret (match kvs with [] => true | _ => negb (dict_mem "lines" kvs) end).
Proof.
  intros Hl. unfold Store.no_challan, bind. simpl. unfold bind.
  rewrite (load_eq _ _ _ Hl). simpl.
  destruct kvs; simpl; [done|]. unfold bind. by rewrite (load_eq _ _ _ Hl).
Qed.

Lemma engine_run_None jc js :
  Engine.run_reconciliation jc js = Ok None <-> Engine.no_challan jc = Ok true.
Proof.
  unfold Engine.run_reconciliation.
  destruct (Engine.no_challan jc) as [[]|e]; simpl; try done.
  destruct (Py.get jc "lines" (JList [])) as [lv|e]; simpl; [|done].
  destruct (Engine.build_expected lv) as [idx|e]; simpl; [|done].
  destruct (Engine.match_stickers idx js) as [[idx' un]|e]; simpl; [|done].
  destruct (Engine.build_report idx' un) as [rows|e]; simpl; done.
Qed.

(** C5.  No challan to reconcile is signalled by the [None] that follows the
  warning.  It is returned for the absent challan, and for a challan record
  exactly when the record is empty or has no [lines] field, whatever the
  stickers are; when it is returned the store is as it was, so that no
  index, list or report has been created.  The same holds of the engine on
  documents. *)
Theorem C5_no_challan_exactly_when_absent_empty_or_without_lines :
  (forall h s, Store.run_reconciliation VNone s h = (Ret None, h)) /\
  (forall h l kvs s,
     h !! l = Some (ODict kvs) ->
     ((Store.run_reconciliation (VRef l) s h).1 = Ret None <->
      kvs = [] \/ dict_lookup "lines" kvs = None)) /\
  (forall h c s,
     (Store.run_reconciliation c s h).1 = Ret None ->
     (Store.run_reconciliation c s h).2 = h) /\
  (forall js, Engine.run_reconciliation JNull js = Ok None) /\
  (forall (challan : list (string * json)) js,
     Engine.run_reconciliation (JObj challan) js = Ok None <->
     challan = [] \/ dict_lookup "lines" challan = None).
Proof.
  split_and!.
  - done.
  - intros h l kvs s Hl. rewrite run_None, (no_challan_dict _ _ _ Hl).
    unfold dict_mem. destruct kvs as [|kv kvs]; [by split; [left|]|].
    destruct (dict_lookup "lines" (kv :: kvs)); simpl; naive_solver.
  - apply run_None_store.
  - done.
  - intros challan js. rewrite engine_run_None. unfold Engine.no_challan.
    destruct challan as [|kv kvs]; [by split; [left|]|].
    simpl Py.truthy. simpl negb. cbv iota. unfold Py.py_in, dict_mem.
    destruct (dict_lookup "lines" (kv :: kvs)); simpl; naive_solver.
Qed.

Lemma C5_witness :
  [ODict [("challan_number", VStr "DC-17")]] !! 0%nat
    = Some (ODict [("challan_number", VStr "DC-17")]) /\
  (Store.run_reconciliation (VRef 0) VNone
     [ODict [("challan_number", VStr "DC-17")]]).1 = Ret None /\
  (Store.run_reconciliation (VRef 0) VNone
     [ODict [("challan_number", VStr "DC-17")]]).2
  = [ODict [("challan_number", VStr "DC-17")]].
Proof.
  destruct C5_no_challan_exactly_when_absent_empty_or_without_lines
    as (_ & Hiff & Hstore & _).
  assert ((Store.run_reconciliation (VRef 0) VNone
             [ODict [("challan_number", VStr "DC-17")]]).1 = Ret None) as Hnone.
  { apply (Hiff _ 0%nat [("challan_number", VStr "DC-17")]); [reflexivity|].
    right. reflexivity. }
  split_and!; [reflexivity | exact Hnone | exact (Hstore _ _ _ Hnone)].
Defined.

Lemma holds_ref_container h l j : holds h (VRef l) j -> is_scalar j = false.
Proof.
  intros H. by apply holds_ref in H as [(? & ? & _ & -> & _)|(? & ? & _ & -> & _)].
Qed.

Lemma obj_list_inj (xs ys : list (list (string * json))) :
  JObj <$> xs = JObj <$> ys -> xs = ys.
Proof.
  revert ys. induction xs as [|x xs IH]; intros [|y ys]; csimpl; try done.
  intros [= -> Hrest]. f_equal. by apply IH.
Qed.

Lemma C7_counterexample :
  example_store !! 3%nat
    = Some (ODict [("style", VStr "Kids"); ("code_size", VRef 4)]) /\
  example_store !! 4%nat = Some (OList [VStr "S"]) /\
  (Store.run_reconciliation (VRef 0) (VRef 2) example_store).1
    = Ret (Some (VRef 9)) /\
  (Store.run_reconciliation (VRef 0) (VRef 2) example_store).2 !! 9%nat
    = Some (OFrame [{| Challan_Description := "(UNMATCHED SCAN) Kids";
                       Size := VRef 4;
                       Expected := 0;
                       Received := 1;
                       Variance := 1;
                       Status := OVER |}]).
Proof. split_and!; reflexivity. Qed.

(** C7, amended.  A run leaves every object of the store as it was, whether
  it returns or raises, and a frame it returns is a new object.  When the
  session values are documents and the size code of every sticker is a
  scalar (text, a number, a boolean, null or missing), no cell of the frame
  is a reference: the frame shares nothing with the session.  (The Size
  cell of an unmatched sticker is the value of its size code as it is, so
  for a list or an object it is a reference to that very object.) *)
Theorem C7_inputs_unchanged_and_report_new :
  (forall h c s,
     (forall l o, h !! l = Some o ->
                  (Store.run_reconciliation c s h).2 !! l = Some o) /\
     (forall v, (Store.run_reconciliation c s h).1 = Ret (Some v) ->
                exists l, v = VRef l /\ (length h <= l)%nat)) /\
  (forall h c s jc (stickers : list (list (string * json))),
     holds h c jc ->
     holds h s (JList (JObj <$> stickers)) ->
     Forall (fun sticker => is_scalar (text_field "code_size" sticker) = true)
            stickers ->
     forall l,
       (Store.run_reconciliation c s h).1 = Ret (Some (VRef l)) ->
       exists rows,
         (Store.run_reconciliation c s h).2 !! l = Some (OFrame rows) /\
         Forall (fun r => forall l', Size r <> VRef l') rows).
Proof.
  split.
  - intros h c s. split.
    + intros l o Hl. eapply prefix_lookup_Some; [exact Hl | apply run_extends].
    + intros v Hv.
      destruct (keeps_run (length h) c s h (Nat.le_refl _)) as (_ & _ & Hq).
      by apply (Hq (Some v)).
  - intros h c s jc stickers Hc Hs Hscalar l Hret.
    pose proof (run_sim h c s jc _ Hc Hs) as Hsim.
    destruct (Engine.run_reconciliation jc (JList (JObj <$> stickers)))
      as [[jrows|]|e] eqn:Hrun.
    2:{ rewrite Hsim in Hret. done. }
    2:{ destruct Hsim as (tail & Hsim). rewrite Hsim in Hret. done. }
    destruct Hsim as (idx & us & rows & Hsim & Hrows).
    rewrite Hsim in Hret |- *. simpl in Hret. injection Hret as <-.
    exists rows. split.
    { simpl. rewrite (lookup_app_r h) by lia.
      by replace (length h + 4 - length h)%nat with 4%nat by lia. }
    apply run_report_shape in Hrun
      as (lines & stickers' & lv & index0 & index & _ & _ & _ & _
          & Hss & _ & _ & _ & _ & _ & _ & ->).
    injection Hss as Hss. apply obj_list_inj in Hss as <-.
    assert (Forall (fun jr : row json => is_scalar (Size jr) = true)
              ((Engine.key_row <$> index)
                 ++ (over_row <$> left_over index0.*1 stickers))) as Hj.
    { apply Forall_app. split; apply Forall_fmap, Forall_forall.
      - by intros [k0 c0] _.
      - intros sticker Hin. simpl.
        unfold left_over in Hin. apply list_elem_of_filter in Hin as [_ Hin].
        rewrite Forall_forall in Hscalar. by apply Hscalar. }
    clear Hsim. induction Hrows as [|r jr rows jrows Hr Hrows IH]; [constructor|].
    apply Forall_cons in Hj as [Hjr Hj]. constructor; [|by apply IH].
    intros l' Hl'. destruct Hr as (_ & Hsize & _). rewrite Hl' in Hsize.
    apply holds_ref_container in Hsize. congruence.
Qed.

Lemma C7_witness :
  holds session_store (VRef 0) session_challan /\
  holds session_store (VRef 4) (JList (JObj <$> session_stickers)) /\
  Forall (fun sticker => is_scalar (text_field "code_size" sticker) = true)
         session_stickers /\
  (Store.run_reconciliation (VRef 0) (VRef 4) session_store).1
    = Ret (Some (VRef 11)) /\
  exists rows,
    (Store.run_reconciliation (VRef 0) (VRef 4) session_store).2 !! 11%nat
      = Some (OFrame rows) /\
    Forall (fun r => forall l', Size r <> VRef l') rows.
Proof.
  assert (holds session_store (VRef 0) session_challan) as Hc by reflexivity.
  assert (holds session_store (VRef 4) (JList (JObj <$> session_stickers)))
    as Hs by reflexivity.
  assert (Forall (fun sticker => is_scalar (text_field "code_size" sticker) = true)
                 session_stickers) as Hscalar by (repeat constructor).
  assert ((Store.run_reconciliation (VRef 0) (VRef 4) session_store).1
          = Ret (Some (VRef 11))) as Hrun by reflexivity.
  split; [exact Hc|]. split; [exact Hs|]. split; [exact Hscalar|].
  split; [exact Hrun|].
  exact (proj2 C7_inputs_unchanged_and_report_new
           session_store (VRef 0) (VRef 4) session_challan session_stickers
           Hc Hs Hscalar 11%nat Hrun).
Defined.

(** C8.  When the session values are documents, what a run shows (no
  challan, the content of the frame, or the exception) is what the engine
  computes from the two documents; a second run, made in the store the
  first one left, shows the same.  In a report the rows of the keys come
  first, in the first-seen order of the keys of the challan lines, and the
  rows of the unmatched stickers follow in scan order. *)
Theorem C8_running_twice_gives_the_same_report :
  forall h c s jc js,
    holds h c jc -> holds h s js ->
    observe (Store.run_reconciliation c s h)
      = Some (Engine.run_reconciliation jc js) /\
    observe (Store.run_reconciliation c s (Store.run_reconciliation c s h).2)
      = observe (Store.run_reconciliation c s h) /\
    forall report,
      Engine.run_reconciliation jc js = Ok (Some report) ->
      exists (lines stickers : list (list (string * json))) lv index,
        Py.get jc "lines" (JList []) = Ok lv /\
        Py.iter lv = Ok (JObj <$> lines) /\
        Py.iter js = Ok (JObj <$> stickers) /\
        index.*1 = first_seen (key_of <$> lines) /\
        report = (Engine.key_row <$> index)
                 ++ (over_row <$> left_over index.*1 stickers).
Proof.
  intros h c s jc js Hc Hs.
  pose proof (run_extends h c s) as Hext.
  split_and!.
  - by apply observe_run.
  - rewrite (observe_run h c s jc js Hc Hs).
    apply observe_run; eapply holds_mono; eauto.
  - intros report Hrun.
    apply run_report_shape in Hrun
      as (lines & stickers & lv & index0 & index & _ & Hget & Hiter & _
          & Hss & _ & Hfirst & _ & Hkeys & _ & _ & ->).
    exists lines, stickers, lv, index. rewrite Hkeys. by split_and!.
Qed.

Lemma C8_witness :
  holds session_store (VRef 0) session_challan /\
  holds session_store (VRef 4) (JList (JObj <$> session_stickers)) /\
  observe (Store.run_reconciliation (VRef 0) (VRef 4) session_store)
    = Some (Engine.run_reconciliation session_challan
              (JList (JObj <$> session_stickers))) /\
  observe (Store.run_reconciliation (VRef 0) (VRef 4)
             (Store.run_reconciliation (VRef 0) (VRef 4) session_store).2)
    = observe (Store.run_reconciliation (VRef 0) (VRef 4) session_store).
Proof.
  assert (holds session_store (VRef 0) session_challan) as Hc by reflexivity.
  assert (holds session_store (VRef 4) (JList (JObj <$> session_stickers)))
    as Hs by reflexivity.
  split; [exact Hc|]. split; [exact Hs|].
  destruct (C8_running_twice_gives_the_same_report
              session_store (VRef 0) (VRef 4) session_challan
              (JList (JObj <$> session_stickers)) Hc Hs) as (Hfirst & Hsecond & _).
  split; [exact Hfirst | exact Hsecond].
Defined.
End Simulation.

(* ===================================================================== *)
(** * Further properties of the engine *)
(* ===================================================================== *)

Section EngineRuns.
Import Py Engine Spec Terms.
Local Open Scope outcome_scope.
Implicit Types (expected_items : items) (k : key).

(** ** The exceptions of a run *)

Lemma never_bind {A B : Type} e (m : outcome A) (f : A -> outcome B) :
  never e m -> (forall a, never e (f a)) -> never e (a <- m;; f a).
Proof.
  unfold never. intros Hm Hf. destruct m as [a|e']; simpl; [apply Hf|].
  intros [= ->]. by apply Hm.
Qed.

Lemma never_for_each {A S : Type} e (body : S -> A -> outcome S) xs :
  (forall s x, never e (body s x)) -> forall s, never e (for_each body s xs).
Proof.
  intros Hbody. induction xs as [|x xs IH]; intros s; [done|].
  rewrite for_each_cons. by apply never_bind.
Qed.

Lemma never_get x f dflt : never KeyError (get x f dflt).
Proof. by destruct x. Qed.

Lemma never_iter x : never KeyError (iter x).
Proof. by destruct x. Qed.

Lemma never_add_int n x : never KeyError (add_int n x).
Proof. by destruct x. Qed.

Lemma getitem_after_set k expected_items :
  exists c,
    dict_getitem k (if dict_mem k expected_items then expected_items
                    else dict_set k {| expected := 0; received := 0 |} expected_items)
    = Ok c.
Proof.
  unfold dict_getitem, dict_mem.
  destruct (dict_lookup k expected_items) as [c|] eqn:E.
  - rewrite E. by exists c.
  - rewrite dict_lookup_set_eq. by eexists.
Qed.

Lemma never_add_line expected_items line : never KeyError (add_line expected_items line).
Proof.
  unfold add_line, line_key.
  apply never_bind.
  { apply never_bind; [apply never_get|intros d].
    apply never_bind; [apply never_get|done]. }
  intros key. destruct (getitem_after_set key expected_items) as [c ->]. simpl.
  apply never_bind; [apply never_get|intros q].
  apply never_bind; [apply never_add_int|done].
Qed.

Lemma never_scan_keys style size expected_items : forall keys,
  keys ⊆ expected_items.*1 ->
  never KeyError (scan_keys style size keys expected_items).
Proof.
  induction keys as [|challan_key keys IH]; intros Hsub; [done|].
  simpl. destruct (key_matches style size challan_key).
  - assert (challan_key ∈ expected_items.*1) as Hin by (apply Hsub; left).
    apply dict_lookup_is_Some in Hin as [c Hc].
    unfold dict_getitem. by rewrite Hc.
  - apply IH. intros k Hk. apply Hsub. by right.
Qed.

Lemma never_match_sticker st sticker : never KeyError (match_sticker st sticker).
Proof.
  destruct st as [expected_items unmatched]. unfold match_sticker, sticker_key.
  apply never_bind.
  { apply never_bind; [apply never_get|intros d].
    apply never_bind; [apply never_get|done]. }
  intros [style size]. apply never_bind; [by apply never_scan_keys|].
  intros [items' []]; done.
Qed.

Lemma never_unmatched_row sticker : never KeyError (unmatched_row sticker).
Proof.
  unfold unmatched_row. apply never_bind; [apply never_get|intros d].
  apply never_bind; [apply never_get|done].
Qed.

(** X1: no input makes a run raise [KeyError]: every subscript
    [expected_items[key]] of lines 130 and 144 is applied to a key that is
    in the dictionary. *)
Theorem run_never_raises_KeyError :
  forall challan_data scanned_stickers,
    run_reconciliation challan_data scanned_stickers <> Raise KeyError.
Proof.
  intros challan_data scanned_stickers.
  change (never KeyError (run_reconciliation challan_data scanned_stickers)).
  unfold run_reconciliation.
  apply never_bind.
  { unfold no_challan. destruct (truthy challan_data); [|done]. simpl.
    apply never_bind; [by destruct challan_data | done]. }
  intros [|]; [done|].
  apply never_bind; [apply never_get|intros lines].
  apply never_bind.
  { unfold build_expected. apply never_bind; [apply never_iter|intros ls].
    apply never_for_each. intros; apply never_add_line. }
  intros expected_items. apply never_bind.
  { unfold match_stickers. apply never_bind; [apply never_iter|intros ss].
    apply never_for_each. intros; apply never_match_sticker. }
  intros [items' unmatched]. apply never_bind; [|done].
  unfold build_report. apply never_for_each. intros s x.
  apply never_bind; [apply never_unmatched_row | done].
Qed.

End EngineRuns.

Section EngineTotals.
Import Py Engine Spec Terms.
Local Open Scope outcome_scope.
Implicit Types (expected_items : items) (k : key) (line : fields).

(** ** Column totals *)

Lemma expected_sum_set k c expected_items :
  expected_sum (dict_set k c expected_items)
  = expected_sum expected_items + expected c
    - expected (default zero (dict_lookup k expected_items)).
Proof.
  unfold expected_sum.
  induction expected_items as [|[k' c'] d IH]; csimpl; [lia|].
  destruct (decide (k = k')) as [->|Hne]; csimpl; [lia|].
  rewrite IH. lia.
Qed.

Lemma expected_sum_bump acc line :
  expected_sum (bump acc line) = expected_sum acc + int_of (quantity line).
Proof. unfold bump. rewrite expected_sum_set. simpl. lia. Qed.

Lemma add_lines_expected lines : forall acc res,
  for_each add_line acc (JObj <$> lines) = Ok res ->
  expected_sum res = expected_sum acc + quantity_sum lines.
Proof.
  unfold quantity_sum.
  induction lines as [|line lines IH]; intros acc res Hrun; csimpl in *.
  - injection Hrun as <-. lia.
  - destruct (add_line acc (JObj line)) as [acc'|] eqn:Hline; [|done].
    simpl in Hrun. apply add_line_inv in Hline as Hint.
    destruct Hint as (l & [= <-] & Hint).
    rewrite add_line_ok in Hline by done. injection Hline as <-.
    rewrite (IH _ _ Hrun), expected_sum_bump. lia.
Qed.

Lemma expected_sum_rows expected_items :
  column_sum Expected (key_row <$> expected_items) = expected_sum expected_items.
Proof.
  unfold column_sum, expected_sum.
  induction expected_items as [|[k c] d IH]; csimpl; [done|]. by rewrite IH.
Qed.

Lemma variance_sum_rows expected_items :
  column_sum Variance (key_row <$> expected_items)
  = received_sum expected_items - expected_sum expected_items.
Proof.
  unfold column_sum, received_sum, expected_sum.
  induction expected_items as [|[k c] d IH]; csimpl; [done|]. rewrite IH. lia.
Qed.

Lemma over_rows_expected stickers : column_sum Expected (over_row <$> stickers) = 0.
Proof. unfold column_sum. induction stickers as [|s ss IH]; csimpl; [done|]. lia. Qed.

Lemma over_rows_variance stickers :
  column_sum Variance (over_row <$> stickers) = Z.of_nat (length stickers).
Proof. unfold column_sum. induction stickers as [|s ss IH]; csimpl; [done|]. lia. Qed.

(** The counters of two indexes agree when their entries agree position by
    position. *)
Lemma expected_sum_matched (index0 index : items) (count : nat -> Z) :
  index.*1 = index0.*1 ->
  (forall i k c, index0 !! i = Some (k, c) ->
     index !! i = Some (k, {| expected := expected c;
                              received := received c + count i |})) ->
  expected_sum index = expected_sum index0.
Proof.
  intros Hkeys Hent. unfold expected_sum. f_equal.
  apply list_eq. intros i. rewrite !list_lookup_fmap.
  destruct (index0 !! i) as [[k c]|] eqn:E0.
  - by rewrite (Hent _ _ _ E0).
  - apply lookup_ge_None in E0.
    assert (length index = length index0) as Hlen
      by (rewrite <- (length_fmap fst index), Hkeys; apply length_fmap).
    rewrite (proj2 (lookup_ge_None index i)) by lia. done.
Qed.

(** X2: when the quantities of the challan lines are integers, or missing,
    the Expected column of every report adds up to the quantities of all
    challan lines, and the Variance column to the number of stickers minus
    that total. *)
Theorem expected_column_is_the_total_quantity :
  forall challan_data (lv : json) (lines : list fields) (scanned : list json) report,
    get challan_data "lines" (JList []) = Ok lv ->
    iter lv = Ok (JObj <$> lines) ->
    Forall (fun line => is_int (quantity line) = true) lines ->
    run_reconciliation challan_data (JList scanned) = Ok (Some report) ->
    column_sum Expected report = quantity_sum lines /\
    column_sum Variance report = Z.of_nat (length scanned) - quantity_sum lines.
Proof.
  intros challan_data lv lines scanned report Hlv Hlines _ Hrun.
  apply run_report_shape in Hrun
    as (lines' & stickers & lv' & index0 & index & _ & Hget & Hiter & _ & Hss & Hbuild
        & _ & _ & Hkeys & Hent & Hcons & ->).
  rewrite Hlv in Hget. injection Hget as <-.
  rewrite Hlines in Hiter. injection Hiter as Heq. apply obj_list_inj in Heq as <-.
  split.
  - rewrite column_sum_app, expected_sum_rows, over_rows_expected.
    rewrite (expected_sum_matched index0 index _ Hkeys Hent).
    unfold build_expected in Hbuild. rewrite Hlines in Hbuild. simpl in Hbuild.
    rewrite (add_lines_expected _ _ _ Hbuild). unfold expected_sum. simpl. lia.
  - rewrite column_sum_app, variance_sum_rows, over_rows_variance.
    rewrite (expected_sum_matched index0 index _ Hkeys Hent).
    unfold build_expected in Hbuild. rewrite Hlines in Hbuild. simpl in Hbuild.
    rewrite (add_lines_expected _ _ _ Hbuild). unfold expected_sum at 1. simpl.
    simpl in Hss. injection Hss as ->. rewrite length_fmap. lia.
Qed.

Lemma expected_column_is_the_total_quantity_witness :
  get session_challan "lines" (JList []) = Ok (JList (JObj <$> session_lines)) /\
  iter (JList (JObj <$> session_lines)) = Ok (JObj <$> session_lines) /\
  Forall (fun line => is_int (quantity line) = true) session_lines /\
  run_reconciliation session_challan (JList (JObj <$> session_stickers))
    = Ok (Some session_report) /\
  column_sum Expected session_report = quantity_sum session_lines /\
  column_sum Variance session_report
  = Z.of_nat (length (JObj <$> session_stickers)) - quantity_sum session_lines.
Proof.
  assert (get session_challan "lines" (JList [])
          = Ok (JList (JObj <$> session_lines))) as Hlv by reflexivity.
  assert (iter (JList (JObj <$> session_lines)) = Ok (JObj <$> session_lines))
    as Hlines by reflexivity.
  assert (Forall (fun line => is_int (quantity line) = true) session_lines) as Hall
    by (repeat constructor).
  assert (run_reconciliation session_challan (JList (JObj <$> session_stickers))
          = Ok (Some session_report)) as Hrun by reflexivity.
  split; [exact Hlv|]. split; [exact Hlines|]. split; [exact Hall|].
  split; [exact Hrun|].
  exact (expected_column_is_the_total_quantity
           session_challan _ session_lines (JObj <$> session_stickers) session_report
           Hlv Hlines Hall Hrun).
Defined.

End EngineTotals.

Section EngineOrder.
Import Py Engine Spec Terms.
Local Open Scope outcome_scope.
Implicit Types (expected_items : items) (k : key) (line : fields).

(** ** The order of the stickers and of the challan lines *)

Lemma sum_Permutation (l1 l2 : list Z) :
  l1 ≡ₚ l2 -> foldr Z.add 0 l1 = foldr Z.add 0 l2.
Proof. induction 1; simpl; lia. Qed.

Lemma total_Permutation k (lines lines' : list fields) :
  lines ≡ₚ lines' -> total k lines = total k lines'.
Proof.
  intros Hp. unfold total. apply sum_Permutation.
  apply fmap_Permutation. by apply filter_Permutation.
Qed.

Lemma counted_at_Permutation ks i (stickers stickers' : list fields) :
  stickers ≡ₚ stickers' -> counted_at ks i stickers = counted_at ks i stickers'.
Proof.
  intros Hp. unfold counted_at. f_equal. apply Permutation_length.
  by apply filter_Permutation.
Qed.

Lemma left_over_Permutation ks (stickers stickers' : list fields) :
  stickers ≡ₚ stickers' -> left_over ks stickers ≡ₚ left_over ks stickers'.
Proof. intros Hp. by apply filter_Permutation. Qed.

Lemma records_Permutation (stickers : list fields) (scanned' : list json) :
  JObj <$> stickers ≡ₚ scanned' ->
  exists stickers', scanned' = JObj <$> stickers' /\ stickers ≡ₚ stickers'.
Proof.
  intros Hp. symmetry in Hp.
  apply Permutation_map_inv in Hp as (stickers' & -> & Hp).
  exists stickers'. split; [done|]. by symmetry.
Qed.

(** An index is determined by its entries position by position. *)
Lemma matched_index_unique (index0 index index' : items) (count count' : nat -> Z) :
  index.*1 = index0.*1 -> index'.*1 = index0.*1 ->
  (forall i k c, index0 !! i = Some (k, c) ->
     index !! i = Some (k, {| expected := expected c;
                              received := received c + count i |})) ->
  (forall i k c, index0 !! i = Some (k, c) ->
     index' !! i = Some (k, {| expected := expected c;
                               received := received c + count' i |})) ->
  (forall i, count i = count' i) ->
  index = index'.
Proof.
  intros Hk Hk' Hent Hent' Hcount. apply list_eq. intros i.
  assert (length index = length index0) as Hlen
    by (rewrite <- (length_fmap fst index), Hk; apply length_fmap).
  assert (length index' = length index0) as Hlen'
    by (rewrite <- (length_fmap fst index'), Hk'; apply length_fmap).
  destruct (index0 !! i) as [[k c]|] eqn:E0.
  - by rewrite (Hent _ _ _ E0), (Hent' _ _ _ E0), Hcount.
  - apply lookup_ge_None in E0.
    rewrite (proj2 (lookup_ge_None index i)) by lia.
    by rewrite (proj2 (lookup_ge_None index' i)) by lia.
Qed.

(** X3: scanning the same stickers in another order gives the same row for
    every key of the challan; only the rows of the unmatched stickers, which
    follow them, come in another order. *)
Theorem sticker_order_only_reorders_unmatched_rows :
  forall challan_data (scanned scanned' : list json) report,
    scanned ≡ₚ scanned' ->
    run_reconciliation challan_data (JList scanned) = Ok (Some report) ->
    exists (index : items) (unmatched unmatched' : list fields),
      report = (key_row <$> index) ++ (over_row <$> unmatched) /\
      run_reconciliation challan_data (JList scanned')
      = Ok (Some ((key_row <$> index) ++ (over_row <$> unmatched'))) /\
      unmatched ≡ₚ unmatched'.
Proof.
  intros challan_data scanned scanned' report Hp Hrun.
  apply run_report_shape in Hrun
    as (lines & stickers & lv & index0 & index & Hpre & Hget & Hiter & Hall & Hss
        & Hbuild & Hfirst & Hmatch & Hkeys & Hent & _ & ->).
  simpl in Hss. injection Hss as ->.
  apply records_Permutation in Hp as (stickers' & -> & Hp).
  destruct (match_loop_spec stickers' index0 []) as (index' & Hloop & Hkeys' & Hent').
  simpl app in Hloop.
  assert (index = index') as <-.
  { eapply matched_index_unique; [exact Hkeys|exact Hkeys'|exact Hent|exact Hent'|].
    intros i. by apply counted_at_Permutation. }
  exists index, (left_over index0.*1 stickers), (left_over index0.*1 stickers').
  split_and!; [done| |by apply left_over_Permutation].
  unfold run_reconciliation. rewrite Hpre. simpl. rewrite Hget. simpl.
  rewrite Hbuild. simpl. unfold match_stickers. simpl. rewrite Hloop. simpl.
  by rewrite build_report_spec.
Qed.

Lemma sticker_order_only_reorders_unmatched_rows_witness :
  (JObj <$> session_stickers) ≡ₚ reverse (JObj <$> session_stickers) /\
  run_reconciliation session_challan (JList (JObj <$> session_stickers))
    = Ok (Some session_report) /\
  exists (index : items) (unmatched' : list fields),
    run_reconciliation session_challan (JList (reverse (JObj <$> session_stickers)))
    = Ok (Some ((key_row <$> index) ++ (over_row <$> unmatched'))).
Proof.
  assert ((JObj <$> session_stickers) ≡ₚ reverse (JObj <$> session_stickers)) as Hp
    by (symmetry; apply reverse_Permutation).
  assert (run_reconciliation session_challan (JList (JObj <$> session_stickers))
          = Ok (Some session_report)) as Hrun by reflexivity.
  split; [exact Hp|]. split; [exact Hrun|].
  destruct (sticker_order_only_reorders_unmatched_rows
              session_challan _ _ session_report Hp Hrun)
    as (index & unmatched & unmatched' & _ & Hrun' & _).
  exists index, unmatched'. exact Hrun'.
Defined.

Lemma index_elem (index : items) (lines : list fields) :
  NoDup index.*1 ->
  (forall k, dict_lookup k index =
             if decide (k ∈ key_of <$> lines)
             then Some {| expected := total k lines; received := 0 |} else None) ->
  forall k c, (k, c) ∈ index <->
    k ∈ key_of <$> lines /\ c = {| expected := total k lines; received := 0 |}.
Proof.
  intros Hnd Hlook k c. split.
  - intros Hin. apply (elem_of_lookup_NoDup _ _ _ Hnd) in Hin.
    rewrite Hlook in Hin. destruct (decide (k ∈ key_of <$> lines)); [|done].
    by injection Hin as <-.
  - intros [Hin ->]. apply dict_lookup_Some_elem. rewrite Hlook.
    by rewrite decide_True.
Qed.

Lemma built_index (lines : list fields) index :
  for_each add_line [] (JObj <$> lines) = Ok index ->
  Forall (fun line => is_int (quantity line) = true) lines /\
  NoDup index.*1 /\
  forall k, dict_lookup k index =
            if decide (k ∈ key_of <$> lines)
            then Some {| expected := total k lines; received := 0 |} else None.
Proof.
  intros Hrun.
  destruct (add_lines_inv _ _ _ Hrun) as (lines0 & Heq & Hall).
  apply obj_list_inj in Heq as <-.
  destruct (add_lines_spec lines [] Hall) as (res & Hres & Hk & Hlook).
  rewrite Hrun in Hres. injection Hres as <-. simpl in Hk.
  rewrite filter_all in Hk by (intros; apply not_elem_of_nil).
  split_and!; [done| |].
  - rewrite Hk. apply first_seen_NoDup.
  - intros k. by rewrite Hlook.
Qed.

(** X4: when the quantities of the challan lines are integers, or missing,
    listing the lines in another order gives an index with the same
    entries, that is the same keys, each with the same expected total and
    nothing received, in another order. *)
Theorem line_order_only_reorders_the_index :
  forall (lines lines' : list fields),
    lines ≡ₚ lines' ->
    Forall (fun line => is_int (quantity line) = true) lines ->
    exists index index' : items,
      build_expected (JList (JObj <$> lines)) = Ok index /\
      build_expected (JList (JObj <$> lines')) = Ok index' /\
      index ≡ₚ index'.
Proof.
  intros lines lines' Hp Hall.
  assert (Forall (fun line => is_int (quantity line) = true) lines') as Hall'
    by (by rewrite <- Hp).
  destruct (add_lines_spec lines [] Hall) as (index & Hres & _).
  destruct (add_lines_spec lines' [] Hall') as (index' & Hres' & _).
  exists index, index'. split_and!; [done..|].
  apply built_index in Hres as (_ & Hnd & Hlook).
  apply built_index in Hres' as (_ & Hnd' & Hlook').
  apply NoDup_Permutation.
  - by apply NoDup_fmap_1 in Hnd.
  - by apply NoDup_fmap_1 in Hnd'.
  - intros [k c]. rewrite (index_elem _ _ Hnd Hlook), (index_elem _ _ Hnd' Hlook').
    rewrite (total_Permutation k _ _ Hp).
    assert (key_of <$> lines ≡ₚ key_of <$> lines') as Hkp by (by apply fmap_Permutation).
    by rewrite Hkp.
Qed.

Lemma line_order_only_reorders_the_index_witness :
  session_lines ≡ₚ reverse session_lines /\
  Forall (fun line => is_int (quantity line) = true) session_lines /\
  exists index index' : items,
    build_expected (JList (JObj <$> session_lines)) = Ok index /\
    build_expected (JList (JObj <$> reverse session_lines)) = Ok index' /\
    index ≡ₚ index'.
Proof.
  assert (session_lines ≡ₚ reverse session_lines) as Hp
    by (symmetry; apply reverse_Permutation).
  assert (Forall (fun line => is_int (quantity line) = true) session_lines) as Hall
    by (repeat constructor).
  split; [exact Hp|]. split; [exact Hall|].
  exact (line_order_only_reorders_the_index _ _ Hp Hall).
Defined.

End EngineOrder.

Section EngineEdges.
Import Py Engine Spec Terms.
Local Open Scope outcome_scope.
Implicit Types (expected_items : items) (k : key) (line : fields).

(** ** Empty inputs and items that are not records *)

Lemma guard_passes (challan : fields) lv :
  dict_lookup "lines" challan = Some lv ->
  no_challan (JObj challan) = Ok false /\
  get (JObj challan) "lines" (JList []) = Ok lv.
Proof.
  intros Hl. unfold no_challan, get. simpl. rewrite Hl. split; [|done].
  destruct challan as [|kv rest]; [done|]. simpl.
  unfold dict_mem. by rewrite Hl.
Qed.

(** X5: with no sticker scanned the report has exactly one row per key of
    the challan, each with nothing received and a variance of minus the
    expected quantity, and no other row. *)
Theorem no_stickers_gives_one_row_per_key_with_nothing_received :
  forall challan_data report,
    run_reconciliation challan_data (JList []) = Ok (Some report) ->
    exists lv (index0 : items),
      get challan_data "lines" (JList []) = Ok lv /\
      build_expected lv = Ok index0 /\
      report = key_row <$> index0 /\
      Forall (fun r => Received r = 0 /\ Variance r = - Expected r) report.
Proof.
  intros challan_data report Hrun.
  apply run_report_inv in Hrun
    as (lv & index0 & index & unmatched & _ & Hget & Hbuild & Hmatch & Hrep).
  injection Hmatch as <- <-. injection Hrep as <-.
  exists lv, index0. split_and!; try done.
  unfold build_expected in Hbuild.
  destruct (iter lv) as [ls|]; [|done]. simpl in Hbuild.
  destruct (add_lines_inv _ _ _ Hbuild) as (lines & -> & _).
  apply built_index in Hbuild as (_ & Hnd & Hlook).
  apply Forall_fmap, Forall_forall. intros [k c] Hin.
  apply (index_elem _ _ Hnd Hlook) in Hin as [_ ->]. simpl. split; lia.
Qed.

Lemma no_stickers_gives_one_row_per_key_with_nothing_received_witness :
  run_reconciliation session_challan (JList [])
  = Ok (Some [ {| Challan_Description := "Men's Shirt"; Size := JStr "M";
                  Expected := 2; Received := 0; Variance := -2; Status := SHORT |};
               {| Challan_Description := "Women's Top"; Size := JStr "S";
                  Expected := 1; Received := 0; Variance := -1; Status := SHORT |} ]) /\
  exists index0 : items,
    [ {| Challan_Description := "Men's Shirt"; Size := JStr "M";
         Expected := 2; Received := 0; Variance := -2; Status := SHORT |};
      {| Challan_Description := "Women's Top"; Size := JStr "S";
         Expected := 1; Received := 0; Variance := -1; Status := SHORT |} ]
    = key_row <$> index0.
Proof.
  assert (run_reconciliation session_challan (JList [])
          = Ok (Some [ {| Challan_Description := "Men's Shirt"; Size := JStr "M";
                          Expected := 2; Received := 0; Variance := -2;
                          Status := SHORT |};
                       {| Challan_Description := "Women's Top"; Size := JStr "S";
                          Expected := 1; Received := 0; Variance := -1;
                          Status := SHORT |} ])) as Hrun by reflexivity.
  split; [exact Hrun|].
  destruct (no_stickers_gives_one_row_per_key_with_nothing_received _ _ Hrun)
    as (lv & index0 & _ & _ & Hrep & _).
  exists index0. exact Hrep.
Defined.

Lemma left_over_nil (stickers : list fields) : left_over [] stickers = stickers.
Proof. unfold left_over. by apply filter_all. Qed.

(** X6: a challan whose [lines] is the empty list is reconciled, and the
    report is one unmatched row per sticker, in scan order. *)
Theorem empty_lines_report_every_sticker_as_unmatched :
  forall (challan : fields) (stickers : list fields),
    dict_lookup "lines" challan = Some (JList []) ->
    run_reconciliation (JObj challan) (JList (JObj <$> stickers))
    = Ok (Some (over_row <$> stickers)).
Proof.
  intros challan stickers Hl.
  destruct (guard_passes _ _ Hl) as [Hpre Hget].
  unfold run_reconciliation. rewrite Hpre. cbn [bind]. rewrite Hget. simpl.
  destruct (match_loop_spec stickers [] []) as (items' & Hloop & Hkeys & _).
  unfold match_stickers. simpl. simpl in Hloop. rewrite Hloop. simpl.
  destruct items' as [|? ?]; [|done]. rewrite left_over_nil.
  by rewrite build_report_spec.
Qed.

Lemma empty_lines_report_every_sticker_as_unmatched_witness :
  dict_lookup "lines" [("challan_number", JStr "DC-17"); ("lines", JList [])]
  = Some (JList []) /\
  run_reconciliation (JObj [("challan_number", JStr "DC-17"); ("lines", JList [])])
    (JList (JObj <$> session_stickers))
  = Ok (Some (over_row <$> session_stickers)).
Proof.
  assert (dict_lookup "lines" [("challan_number", JStr "DC-17"); ("lines", JList [])]
          = Some (JList [])) as Hl by reflexivity.
  split; [exact Hl|].
  exact (empty_lines_report_every_sticker_as_unmatched _ session_stickers Hl).
Defined.

Lemma match_sticker_no_record st x :
  is_record x = false -> match_sticker st x = Raise AttributeError.
Proof. destruct st. by destruct x. Qed.

Lemma add_line_no_record acc x :
  is_record x = false -> add_line acc x = Raise AttributeError.
Proof. by destruct x. Qed.

Lemma run_stops_at_no_record (challan : fields) (lines before : list fields)
    (x : json) (after : list json) :
  dict_lookup "lines" challan = Some (JList (JObj <$> lines)) ->
  Forall (fun line => is_int (quantity line) = true) lines ->
  is_record x = false ->
  run_reconciliation (JObj challan) (JList ((JObj <$> before) ++ x :: after))
  = Raise AttributeError.
Proof.
  intros Hl Hall Hx.
  destruct (guard_passes _ _ Hl) as [Hpre Hget].
  unfold run_reconciliation. rewrite Hpre. cbn [bind]. rewrite Hget. cbn [bind].
  destruct (add_lines_spec lines [] Hall) as (index0 & Hres & _).
  unfold build_expected. cbn [iter bind]. rewrite Hres. cbn [bind].
  unfold match_stickers. cbn [iter bind]. rewrite for_each_app.
  destruct (match_loop_spec before index0 []) as (items' & -> & _).
  cbn [bind]. rewrite for_each_cons. by rewrite match_sticker_no_record.
Qed.

Lemma run_of_records (challan : fields) (lines stickers : list fields) :
  dict_lookup "lines" challan = Some (JList (JObj <$> lines)) ->
  Forall (fun line => is_int (quantity line) = true) lines ->
  exists report,
    run_reconciliation (JObj challan) (JList (JObj <$> stickers)) = Ok (Some report).
Proof.
  intros Hl Hall.
  destruct (guard_passes _ _ Hl) as [Hpre Hget].
  unfold run_reconciliation. rewrite Hpre. cbn [bind]. rewrite Hget. cbn [bind].
  destruct (add_lines_spec lines [] Hall) as (index0 & Hres & _).
  unfold build_expected. cbn [iter bind]. rewrite Hres. cbn [bind].
  unfold match_stickers. cbn [iter bind].
  destruct (match_loop_spec stickers index0 []) as (items' & -> & _).
  cbn [bind app]. rewrite build_report_spec. by eexists.
Qed.

Lemma all_records (scanned : list json) :
  forallb is_record scanned = true -> exists stickers, scanned = JObj <$> stickers.
Proof.
  induction scanned as [|x xs IH]; [by exists []|].
  cbn [forallb]. intros [Hx Hxs]%andb_true_iff.
  destruct (IH Hxs) as [stickers ->]. destruct x; try done.
  by exists (kvs :: stickers).
Qed.

Lemma first_no_record (scanned : list json) :
  forallb is_record scanned = false ->
  exists (before : list fields) x after,
    scanned = (JObj <$> before) ++ x :: after /\ is_record x = false.
Proof.
  induction scanned as [|x xs IH]; [done|].
  cbn [forallb]. destruct (is_record x) eqn:Hx.
  - intros Hxs. destruct (IH Hxs) as (before & y & after & -> & Hy).
    destruct x; try done. by exists (kvs :: before), y, after.
  - intros _. by exists [], x, xs.
Qed.

(** X7: with a well-formed challan the run returns a report exactly when
    every scanned item is a record; as soon as one is a list, a text, a
    number, true, false or null, it raises [AttributeError]. *)
Theorem run_returns_a_report_exactly_for_record_stickers :
  forall (challan : fields) (lines : list fields) (scanned : list json),
    dict_lookup "lines" challan = Some (JList (JObj <$> lines)) ->
    Forall (fun line => is_int (quantity line) = true) lines ->
    if forallb is_record scanned
    then exists report,
           run_reconciliation (JObj challan) (JList scanned) = Ok (Some report)
    else run_reconciliation (JObj challan) (JList scanned) = Raise AttributeError.
Proof.
  intros challan lines scanned Hl Hall.
  destruct (forallb is_record scanned) eqn:E.
  - apply all_records in E as [stickers ->]. by apply (run_of_records _ lines).
  - apply first_no_record in E as (before & x & after & -> & Hx).
    by apply (run_stops_at_no_record _ lines).
Qed.

Lemma run_returns_a_report_exactly_for_record_stickers_witness :
  dict_lookup "lines" [("lines", JList (JObj <$> session_lines))]
  = Some (JList (JObj <$> session_lines)) /\
  Forall (fun line => is_int (quantity line) = true) session_lines /\
  run_reconciliation (JObj [("lines", JList (JObj <$> session_lines))])
    (JList ((JObj <$> session_stickers) ++ [JNull]))
  = Raise AttributeError.
Proof.
  assert (dict_lookup "lines" [("lines", JList (JObj <$> session_lines))]
          = Some (JList (JObj <$> session_lines))) as Hl by reflexivity.
  assert (Forall (fun line => is_int (quantity line) = true) session_lines) as Hall
    by (repeat constructor).
  split; [exact Hl|]. split; [exact Hall|].
  exact (run_returns_a_report_exactly_for_record_stickers
           _ session_lines ((JObj <$> session_stickers) ++ [JNull]) Hl Hall).
Defined.

(** X8: when some item of [lines] is not a record and the lines before it
    are well formed, the run raises [AttributeError], whatever was
    scanned. *)
Theorem line_that_is_no_record_raises_AttributeError :
  forall (challan : fields) (before : list fields) (x : json) (after : list json)
         (scanned_stickers : json),
    dict_lookup "lines" challan = Some (JList ((JObj <$> before) ++ x :: after)) ->
    Forall (fun line => is_int (quantity line) = true) before ->
    is_record x = false ->
    run_reconciliation (JObj challan) scanned_stickers = Raise AttributeError.
Proof.
  intros challan before x after scanned_stickers Hl Hall Hx.
  destruct (guard_passes _ _ Hl) as [Hpre Hget].
  unfold run_reconciliation. rewrite Hpre. cbn [bind]. rewrite Hget. cbn [bind].
  unfold build_expected. cbn [iter bind]. rewrite for_each_app.
  destruct (add_lines_spec before [] Hall) as (index0 & -> & _).
  cbn [bind]. rewrite for_each_cons. by rewrite add_line_no_record.
Qed.

Lemma line_that_is_no_record_raises_AttributeError_witness :
  dict_lookup "lines" [("lines", JList ((JObj <$> session_lines) ++ [JStr "total"]))]
  = Some (JList ((JObj <$> session_lines) ++ [JStr "total"])) /\
  Forall (fun line => is_int (quantity line) = true) session_lines /\
  is_record (JStr "total") = false /\
  run_reconciliation
    (JObj [("lines", JList ((JObj <$> session_lines) ++ [JStr "total"]))])
    (JList (JObj <$> session_stickers))
  = Raise AttributeError.
Proof.
  assert (dict_lookup "lines"
            [("lines", JList ((JObj <$> session_lines) ++ [JStr "total"]))]
          = Some (JList ((JObj <$> session_lines) ++ [JStr "total"]))) as Hl
    by reflexivity.
  assert (Forall (fun line => is_int (quantity line) = true) session_lines) as Hall
    by (repeat constructor).
  assert (is_record (JStr "total") = false) as Hx by reflexivity.
  split; [exact Hl|]. split; [exact Hall|]. split; [exact Hx|].
  exact (line_that_is_no_record_raises_AttributeError
           _ session_lines (JStr "total") [] _ Hl Hall Hx).
Defined.

(** X9: a challan that is not a record never gives a report: the run
    returns [None] when the value is empty or does not hold ["lines"], and
    raises [TypeError] (a number, true) or [AttributeError] (a list or a
    text that holds ["lines"]) otherwise. *)
Theorem challan_that_is_no_record_never_gives_a_report :
  forall challan_data scanned_stickers,
    is_record challan_data = false ->
    run_reconciliation challan_data scanned_stickers
    = (if negb (truthy challan_data) then Ok None
       else match py_in "lines" challan_data with
            | Ok true => Raise AttributeError
            | Ok false => Ok None
            | Raise e => Raise TypeError
            end) /\
    forall report,
      run_reconciliation challan_data scanned_stickers <> Ok (Some report).
Proof.
  intros challan_data scanned_stickers Hrecord.
  assert (run_reconciliation challan_data scanned_stickers
          = (if negb (truthy challan_data) then Ok None
             else match py_in "lines" challan_data with
                  | Ok true => Raise AttributeError
                  | Ok false => Ok None
                  | Raise e => Raise TypeError
                  end)) as Hrun.
  { unfold run_reconciliation, no_challan.
    destruct (negb (truthy challan_data)); [done|].
    destruct challan_data as [|b|n|t|xs|kvs]; try done; cbn [py_in bind].
    - by destruct (contains "lines" t).
    - by destruct (existsb (eq_str "lines") xs). }
  split; [done|]. intros report. rewrite Hrun.
  destruct (negb (truthy challan_data)); [done|].
  by destruct (py_in "lines" challan_data) as [[]|].
Qed.

Lemma challan_that_is_no_record_never_gives_a_report_witness :
  is_record (JList [JStr "lines"]) = false /\
  run_reconciliation (JList [JStr "lines"]) (JList (JObj <$> session_stickers))
  = Raise AttributeError.
Proof.
  assert (is_record (JList [JStr "lines"]) = false) as Hrecord by reflexivity.
  split; [exact Hrecord|].
  exact (proj1 (challan_that_is_no_record_never_gives_a_report
                  (JList [JStr "lines"]) (JList (JObj <$> session_stickers)) Hrecord)).
Defined.

End EngineEdges.

(* ===================================================================== *)
(** * The text handed to [json.loads] *)
(* ===================================================================== *)

Section RawText.
Import Py Engine Spec App Terms.
Implicit Types (s t old new : string) (c : ascii).

(** ** Text *)

Lemma append_cons c s t : String c s +:+ t = String c (s +:+ t).
Proof. reflexivity. Qed.

Lemma append_nil_l s : EmptyString +:+ s = s.
Proof. reflexivity. Qed.

Lemma append_assoc s t u : (s +:+ t) +:+ u = s +:+ (t +:+ u).
Proof. induction s as [|c s IH]; [done|]. by rewrite !append_cons, IH. Qed.

Lemma append_nil_r s : s +:+ EmptyString = s.
Proof. induction s as [|c s IH]; [done|]. by rewrite append_cons, IH. Qed.

Lemma prefix_append p s : String.prefix p (p +:+ s) = true.
Proof. apply prefix_starts_with. by exists s. Qed.

Lemma contains_spec sub s :
  contains sub s = true <-> exists a b, s = a +:+ sub +:+ b.
Proof.
  induction s as [|c s IH].
  - cbn [contains]. rewrite orb_false_r, prefix_starts_with. split.
    + intros [rest ->]. by exists EmptyString, rest.
    + intros (a & b & Heq). destruct a; [by exists b|done].
  - cbn [contains]. rewrite orb_true_iff, prefix_starts_with, IH. split.
    + intros [[rest ->]|(a & b & ->)]; [by exists EmptyString, rest|].
      by exists (String c a), b.
    + intros (a & b & Heq). destruct a as [|c' a].
      * left. by exists b.
      * right. injection Heq as <- ->. by exists a, b.
Qed.

Lemma contains_append sub a s b :
  contains sub s = true -> contains sub (a +:+ s +:+ b) = true.
Proof.
  rewrite !contains_spec. intros (x & y & ->).
  exists (a +:+ x), (y +:+ b). by rewrite !append_assoc.
Qed.

Lemma lstrip_suffix s : exists ws, s = ws +:+ lstrip s.
Proof.
  induction s as [|c s [ws IH]]; [by exists EmptyString|].
  simpl. destruct (is_space c).
  - exists (String c ws). by rewrite append_cons, <- IH.
  - by exists EmptyString.
Qed.

Lemma rstrip_prefix s : exists ws, s = rstrip s +:+ ws.
Proof.
  induction s as [|c s [ws IH]]; [by exists EmptyString|].
  simpl. destruct (rstrip s) as [|d r] eqn:E.
  - destruct (is_space c).
    + by exists (String c s).
    + exists s. done.
  - exists ws. by rewrite append_cons, <- IH.
Qed.

Lemma strip_middle s : exists a b, s = a +:+ strip s +:+ b.
Proof.
  unfold strip. destruct (lstrip_suffix s) as [a Ha].
  destruct (rstrip_prefix (lstrip s)) as [b Hb].
  exists a, b. by rewrite <- Hb.
Qed.

Lemma contains_strip sub s : contains sub s = false -> contains sub (strip s) = false.
Proof.
  intros Hs. destruct (contains sub (strip s)) eqn:E; [|done].
  destruct (strip_middle s) as (a & b & Heq).
  apply (contains_append _ a _ b) in E. rewrite <- Heq in E. congruence.
Qed.

(** ** [str.replace] *)

Lemma replace_from_skip old new p s :
  replace_from old new (String.length p) (p +:+ s) = replace_from old new 0 s.
Proof.
  induction p as [|c p IH]; [done|]. rewrite append_cons. simpl. apply IH.
Qed.

Lemma replace_from_found old new c s :
  replace_from (String c old) new 0 (String c old +:+ s)
  = new +:+ replace_from (String c old) new 0 s.
Proof.
  change (String c old +:+ s) with (String c (old +:+ s)).
  cbn [replace_from].
  change (String c (old +:+ s)) with (String c old +:+ s) at 1.
  rewrite prefix_append. f_equal.
  change (String.length (String c old) - 1)%nat with (S (String.length old) - 1)%nat.
  replace (S (String.length old) - 1)%nat with (String.length old) by lia.
  apply replace_from_skip.
Qed.

Lemma replace_from_other old new c s :
  String.prefix old (String c s) = false ->
  replace_from old new 0 (String c s) = String c (replace_from old new 0 s).
Proof. intros Hp. cbn [replace_from]. by rewrite Hp. Qed.

Lemma length_append s t :
  String.length (s +:+ t) = (String.length s + String.length t)%nat.
Proof. induction s as [|c s IH]; [done|]. rewrite append_cons. simpl. by rewrite IH. Qed.

Lemma prefix_cons a p c s :
  String.prefix (String a p) (String c s)
  = if Ascii.ascii_dec a c then String.prefix p s else false.
Proof. reflexivity. Qed.

Lemma prefix_shorter p q s :
  String.prefix p s = false -> String.prefix (p +:+ q) s = false.
Proof.
  intros Hp. destruct (String.prefix (p +:+ q) s) eqn:E; [|done].
  apply prefix_starts_with in E as [rest ->].
  rewrite append_assoc, prefix_append in Hp. done.
Qed.

(** ** Removing the fences *)

Lemma fence_found s :
  replace_from "```" EmptyString 0 ("```" +:+ s) = replace_from "```" EmptyString 0 s.
Proof. apply (replace_from_found "``" EmptyString "`"%char s). Qed.

Lemma one_tick_kept s :
  String.prefix "`" s = false ->
  String.prefix "`" (replace_from "```" EmptyString 0 s) = false.
Proof.
  destruct s as [|c s]; [done|]. intros H1.
  rewrite replace_from_other by apply (prefix_shorter "`" "``" _ H1).
  rewrite prefix_cons in *. destruct (ascii_dec "`" c); [|done].
  by destruct s.
Qed.

Lemma two_ticks_kept s :
  String.prefix "``" s = false ->
  String.prefix "``" (replace_from "```" EmptyString 0 s) = false.
Proof.
  destruct s as [|c s]; [done|]. intros H2.
  rewrite replace_from_other by apply (prefix_shorter "``" "`" _ H2).
  rewrite prefix_cons in *. destruct (ascii_dec _ c); [|done].
  by apply one_tick_kept.
Qed.

Lemma no_fence_at_head c s :
  String.prefix "```" (String c s) = false ->
  String.prefix "```" (String c (replace_from "```" EmptyString 0 s)) = false.
Proof.
  rewrite !prefix_cons. destruct (ascii_dec _ c); [|done]. apply two_ticks_kept.
Qed.

Lemma no_fence_left n : forall s,
  (String.length s <= n)%nat ->
  contains "```" (replace_from "```" EmptyString 0 s) = false.
Proof.
  induction n as [|n IH]; intros s Hlen.
  - destruct s; [reflexivity | simpl in Hlen; lia].
  - destruct (String.prefix "```" s) eqn:E.
    + apply prefix_starts_with in E as [rest ->]. rewrite fence_found. apply IH.
      rewrite length_append in Hlen. simpl in Hlen. lia.
    + destruct s as [|c s]; [reflexivity|].
      rewrite replace_from_other by done. cbn [contains].
      rewrite (no_fence_at_head c s E). simpl orb. apply IH. simpl in Hlen. lia.
Qed.

(** X10: whatever the model answers, the text handed to [json.loads] holds
    no fence of three backticks. *)
Theorem raw_text_holds_no_fence :
  forall text, contains "```" (raw_text_of text) = false.
Proof.
  intros text. unfold raw_text_of. apply contains_strip.
  set (once := replace (strip text) "```json" EmptyString).
  change (replace once "```" EmptyString) with (replace_from "```" EmptyString 0 once).
  by apply (no_fence_left (String.length once)).
Qed.

(** ** Text without backticks *)

Lemma mem_char_append c s t : mem_char c (s +:+ t) = mem_char c s || mem_char c t.
Proof.
  induction s as [|d s IH]; [done|]. rewrite append_cons. cbn [mem_char].
  by rewrite IH, orb_assoc.
Qed.

Lemma mem_char_strip c s : mem_char c s = false -> mem_char c (strip s) = false.
Proof.
  destruct (strip_middle s) as (a & b & Heq). rewrite Heq at 1.
  rewrite !mem_char_append, !orb_false_iff. tauto.
Qed.

Lemma plain_kept old new s :
  mem_char "`" s = false -> replace_from (String "`" old) new 0 s = s.
Proof.
  induction s as [|c s IH]; [done|]. cbn [mem_char]. intros [Hc Hs]%orb_false_iff.
  rewrite replace_from_other, IH; try done.
  rewrite prefix_cons. destruct (ascii_dec _ c) as [<-|]; done.
Qed.

Lemma plain_before_fence_kept s :
  mem_char "`" s = false ->
  replace_from "```json" EmptyString 0 (s +:+ "```") = s +:+ "```".
Proof.
  induction s as [|c s IH]; [reflexivity|]. cbn [mem_char]. intros [Hc Hs]%orb_false_iff.
  rewrite append_cons, replace_from_other, IH; try done.
  rewrite prefix_cons. destruct (ascii_dec _ c) as [<-|]; done.
Qed.

Lemma closing_fence_removed s :
  mem_char "`" s = false ->
  replace_from "```" EmptyString 0 (s +:+ "```") = s.
Proof.
  induction s as [|c s IH]; [reflexivity|]. cbn [mem_char]. intros [Hc Hs]%orb_false_iff.
  rewrite append_cons, replace_from_other, IH; try done.
  rewrite prefix_cons. destruct (ascii_dec _ c) as [<-|]; done.
Qed.

(** ** [str.strip] *)

Lemma lstrip_head s :
  match lstrip s with
  | EmptyString => True
  | String c _ => is_space c = false
  end.
Proof.
  induction s as [|c s IH]; [done|]. simpl. by destruct (is_space c) eqn:E.
Qed.

Lemma rstrip_head c s :
  is_space c = false -> exists r, rstrip (String c s) = String c r.
Proof.
  intros Hc. simpl. destruct (rstrip s) as [|d r]; rewrite ?Hc; by eexists.
Qed.

Lemma rstrip_idem s : rstrip (rstrip s) = rstrip s.
Proof.
  induction s as [|c s IH]; [done|]. simpl.
  destruct (rstrip s) as [|d r] eqn:E.
  - destruct (is_space c) eqn:Hc; [done|]. simpl. by rewrite Hc.
  - cbn [rstrip]. cbn [rstrip] in IH. by rewrite IH.
Qed.

Lemma strip_idem s : strip (strip s) = strip s.
Proof.
  unfold strip. pose proof (lstrip_head s) as Hh.
  destruct (lstrip s) as [|c t] eqn:E; [done|].
  destruct (rstrip_head c t Hh) as [r Hr]. rewrite Hr.
  cbn [lstrip]. rewrite Hh, <- Hr. apply rstrip_idem.
Qed.

Lemma rstrip_cons_fixed c s :
  rstrip s = s -> s <> EmptyString -> rstrip (String c s) = String c s.
Proof. intros Hs Hne. cbn [rstrip]. rewrite Hs. by destruct s. Qed.

Lemma rstrip_append_fixed s t :
  rstrip t = t -> t <> EmptyString -> rstrip (s +:+ t) = s +:+ t.
Proof.
  intros Ht Hne. induction s as [|c s IH]; [done|].
  rewrite append_cons. apply rstrip_cons_fixed; [done|]. by destruct s, t.
Qed.

Lemma fenced_is_stripped s : strip ("```json" +:+ s +:+ "```") = "```json" +:+ s +:+ "```".
Proof.
  unfold strip.
  change (lstrip ("```json" +:+ s +:+ "```")) with ("```json" +:+ s +:+ "```").
  rewrite <- append_assoc. by apply rstrip_append_fixed.
Qed.

(** X11: a reply without backticks is read as it is, trimmed; the same
    reply between the fences of a JSON code block is read as the same text,
    so that both give the same result. *)
Theorem fenced_reply_is_read_as_its_body :
  forall body : string,
    mem_char backtick body = false ->
    raw_text_of body = strip body /\
    raw_text_of ("```json" +:+ body +:+ "```") = strip body /\
    forall generate_content generate_content' loads image_file document_type,
      generate_content (request_of image_file document_type)
      = Response (Some ("```json" +:+ body +:+ "```")) ->
      generate_content' (request_of image_file document_type)
      = Response (Some body) ->
      process_image_with_ai generate_content loads image_file document_type
      = process_image_with_ai generate_content' loads image_file document_type.
Proof.
  unfold backtick. intros body Hplain.
  assert (raw_text_of body = strip body) as Hbare.
  { unfold raw_text_of, replace.
    rewrite (plain_kept "``json") by by apply mem_char_strip.
    rewrite (plain_kept "``") by by apply mem_char_strip.
    apply strip_idem. }
  assert (raw_text_of ("```json" +:+ body +:+ "```") = strip body) as Hfenced.
  { unfold raw_text_of, replace. rewrite fenced_is_stripped.
    rewrite (replace_from_found "``json" EmptyString "`"%char (body +:+ "```")).
    rewrite append_nil_l, plain_before_fence_kept by done.
    by rewrite closing_fence_removed. }
  split_and!; [done..|].
  intros generate_content generate_content' loads image_file document_type Hg Hg'.
  unfold process_image_with_ai. by rewrite Hg, Hg', Hbare, Hfenced.
Qed.

Lemma fenced_reply_is_read_as_its_body_witness :
  mem_char backtick "{}" = false /\
  raw_text_of ("```json" +:+ "{}" +:+ "```") = strip "{}".
Proof.
  assert (mem_char backtick "{}" = false) as Hplain by reflexivity.
  split; [exact Hplain|].
  exact (proj1 (proj2 (fenced_reply_is_read_as_its_body "{}" Hplain))).
Defined.

End RawText.

(* ===================================================================== *)
(** * Extraction and the session *)
(* ===================================================================== *)

Section ExtractionFacts.
Import Py Engine Spec App Terms.
Implicit Types (generate_content : request -> reply) (loads : string -> decoded).
Implicit Types (state : session) (shown : list message) (image_file : uploaded_file).

(** X12: when [process_image_with_ai] returns, either the error is [None]
    and the result is the document [json.loads] made of the cleaned reply,
    or the result is [None] and the error is a text that is not empty: the
    test [if error:] of the callers tells the two cases apart. *)
Theorem extraction_returns_a_document_or_an_error :
  forall generate_content loads image_file document_type result error,
    process_image_with_ai generate_content loads image_file document_type
    = Return (result, error) ->
    (error = None /\
     exists text,
       generate_content (request_of image_file document_type) = Response (Some text) /\
       loads (raw_text_of text) = Decoded result) \/
    (result = JNull /\ is_error error = true /\
     forall text,
       generate_content (request_of image_file document_type) = Response (Some text) ->
       exists e, loads (raw_text_of text) = Undecoded e).
Proof.
  intros generate_content loads image_file document_type result error.
  unfold process_image_with_ai.
  destruct (generate_content (request_of image_file document_type))
    as [[text|]|[|e]]; try done.
  - destruct (loads (raw_text_of text)) as [json_data|[|e]] eqn:E;
      intros [= <- <-].
    + left. split; [done|]. by exists text.
    + right. split_and!; [done..|]. intros ? [= <-]. by eexists.
    + right. split_and!; [done..|]. intros ? [= <-]. by eexists.
  - intros [= <- <-]. right. by split_and!.
  - intros [= <- <-]. right. by split_and!.
Qed.

Lemma extraction_returns_a_document_or_an_error_witness :
  process_image_with_ai (client_saying "```json {} ```") loads_two example_file "STICKER"
  = Return (JObj [], None) /\
  ((@None string = None /\
    exists text,
      client_saying "```json {} ```" (request_of example_file "STICKER")
      = Response (Some text) /\
      loads_two (raw_text_of text) = Decoded (JObj [])) \/
   (JObj [] = JNull /\ is_error None = true /\
    forall text,
      client_saying "```json {} ```" (request_of example_file "STICKER")
      = Response (Some text) ->
      exists e, loads_two (raw_text_of text) = Undecoded e)).
Proof.
  assert (process_image_with_ai (client_saying "```json {} ```") loads_two
            example_file "STICKER" = Return (JObj [], None)) as Hrun by reflexivity.
  split; [exact Hrun|].
  exact (extraction_returns_a_document_or_an_error _ _ _ _ _ _ Hrun).
Defined.

(** X13: the only exception that gets out of [process_image_with_ai] is the
    [UnboundLocalError] of line 106, and it does exactly when the call to
    the model raises a [json.JSONDecodeError]: [raw_text] is then read
    before line 100 has assigned it. *)
Theorem extraction_raises_exactly_when_the_client_fails_to_decode :
  forall generate_content loads image_file document_type,
    process_image_with_ai generate_content loads image_file document_type
    = UnboundLocalError <->
    generate_content (request_of image_file document_type) = Fails JSONDecodeError.
Proof.
  intros generate_content loads image_file document_type.
  unfold process_image_with_ai.
  destruct (generate_content (request_of image_file document_type))
    as [[text|]|[|e]]; try done.
  by destruct (loads (raw_text_of text)) as [json_data|[|e]].
Qed.

(** ** The handlers *)

Lemma sticker_loop_spec generate_content loads sticker_files : forall state shown,
  challan_data (session_of (sticker_loop generate_content loads state shown sticker_files))
  = challan_data state /\
  reconciliation_report
    (session_of (sticker_loop generate_content loads state shown sticker_files))
  = reconciliation_report state /\
  scanned_stickers
    (session_of (sticker_loop generate_content loads state shown sticker_files))
  = scanned_stickers state ++ extracted generate_content loads sticker_files /\
  exists errors,
    shown_of (sticker_loop generate_content loads state shown sticker_files)
    = shown ++ errors /\
    Forall (fun m => is_st_error m = true) errors /\
    forall state' shown',
      sticker_loop generate_content loads state shown sticker_files = Done state' shown' ->
      (length (extracted generate_content loads sticker_files) + length errors
       = length sticker_files)%nat.
Proof.
  induction sticker_files as [|sticker_file rest IH]; intros state shown.
  - cbn [sticker_loop extracted session_of shown_of]. rewrite app_nil_r.
    split_and!; try done. exists []. by rewrite app_nil_r.
  - cbn [sticker_loop extracted].
    destruct (process_image_with_ai generate_content loads sticker_file "STICKER")
      as [[result error]|].
    + destruct (is_error error).
      * destruct (IH state
                    (shown ++ [st_error ("Error processing " +:+ name sticker_file
                                         +:+ ": " +:+ format_error error)]))
          as (Hc & Hr & Hs & errors & Hshown & Herr & Hlen).
        split_and!; try done.
        exists (st_error ("Error processing " +:+ name sticker_file +:+ ": "
                          +:+ format_error error) :: errors).
        split_and!.
        -- by rewrite Hshown, <- app_assoc.
        -- by constructor.
        -- intros state' shown' Hdone. specialize (Hlen _ _ Hdone).
           cbn [length]. lia.
      * destruct (IH {| challan_data := challan_data state;
                        scanned_stickers := scanned_stickers state ++ [result];
                        reconciliation_report := reconciliation_report state |} shown)
          as (Hc & Hr & Hs & errors & Hshown & Herr & Hlen).
        cbn [challan_data scanned_stickers reconciliation_report] in Hc, Hr, Hs.
        split_and!; try done.
        -- by rewrite Hs, <- app_assoc.
        -- exists errors. split_and!; try done.
           intros state' shown' Hdone. specialize (Hlen _ _ Hdone).
           cbn [length]. lia.
    + cbn [session_of shown_of]. rewrite app_nil_r. split_and!; try done.
      exists []. by rewrite app_nil_r.
Qed.

Lemma session_eq state state' :
  challan_data state' = challan_data state ->
  scanned_stickers state' = scanned_stickers state ->
  reconciliation_report state' = reconciliation_report state ->
  state' = state.
Proof. destruct state, state'. simpl. by intros -> -> ->. Qed.

(** X14: the button that processes the stickers appends to the scanned
    stickers the documents of the files extracted without error, in the
    order of the files, and touches nothing else of the session, also when
    it is aborted; when it ends, it has shown one error per failed file and
    then a success message that counts all the files. *)
Theorem sticker_files_add_their_documents_in_order :
  forall generate_content loads state (sticker_files : list uploaded_file),
    truthy (challan_data state) = true ->
    session_of (process_stickers generate_content loads state sticker_files)
    = {| challan_data := challan_data state;
         scanned_stickers :=
           scanned_stickers state ++ extracted generate_content loads sticker_files;
         reconciliation_report := reconciliation_report state |} /\
    forall state' shown,
      process_stickers generate_content loads state sticker_files = Done state' shown ->
      sticker_files <> [] ->
      exists errors,
        shown = errors ++ [st_success ("Successfully processed "
                                       +:+ str_int (Z.of_nat (length sticker_files))
                                       +:+ " stickers!")] /\
        Forall (fun m => is_st_error m = true) errors /\
        (length (extracted generate_content loads sticker_files) + length errors
         = length sticker_files)%nat.
Proof.
  intros generate_content loads state sticker_files Htruthy.
  unfold process_stickers. rewrite Htruthy. cbn [negb].
  destruct sticker_files as [|sticker_file rest].
  { split; [|done]. cbn [session_of extracted]. rewrite app_nil_r. by destruct state. }
  destruct (sticker_loop_spec generate_content loads (sticker_file :: rest) state [])
    as (Hc & Hr & Hs & errors & Hshown & Herr & Hlen).
  destruct (sticker_loop generate_content loads state [] (sticker_file :: rest))
    as [state1 shown1|state1 shown1] eqn:E;
    cbn [session_of shown_of] in *.
  - split; [by apply session_eq|].
    intros state' shown [= <- <-] _. exists errors. split_and!; try done.
    + by rewrite Hshown.
    + by apply (Hlen state1 shown1).
  - split; [by apply session_eq|]. done.
Qed.

Lemma sticker_files_add_their_documents_in_order_witness :
  truthy (challan_data example_session) = true /\
  session_of (process_stickers (client_saying "{}") loads_two example_session
                [example_file; example_file])
  = {| challan_data := challan_data example_session;
       scanned_stickers :=
         scanned_stickers example_session
         ++ extracted (client_saying "{}") loads_two [example_file; example_file];
       reconciliation_report := reconciliation_report example_session |}.
Proof.
  assert (truthy (challan_data example_session) = true) as Htruthy by reflexivity.
  split; [exact Htruthy|].
  exact (proj1 (sticker_files_add_their_documents_in_order
                  (client_saying "{}") loads_two example_session
                  [example_file; example_file] Htruthy)).
Defined.

(** X15: [clear_session] puts the challan and the scanned stickers back to
    their initial values, after which no sticker can be processed and a run
    finds no challan to reconcile; it does not clear the stored report,
    which also survives the next challan and the next stickers. *)
Theorem clear_session_resets_all_but_the_stored_report :
  forall state,
    challan_data (clear_session state).1 = challan_data initial_session /\
    scanned_stickers (clear_session state).1 = scanned_stickers initial_session /\
    reconciliation_report (clear_session state).1 = reconciliation_report state /\
    run_reconciliation (challan_data (clear_session state).1)
      (JList (scanned_stickers (clear_session state).1)) = Ok None /\
    run_pressed (clear_session state).1
    = Ok ((clear_session state).1, [st_warning no_challan_available]) /\
    (forall generate_content loads sticker_files,
       process_stickers generate_content loads (clear_session state).1 sticker_files
       = Done (clear_session state).1 [st_warning process_a_challan_first]) /\
    (forall generate_content loads challan_file sticker_files,
       reconciliation_report
         (session_of
            (process_stickers generate_content loads
               (session_of (process_challan generate_content loads
                              (clear_session state).1 challan_file))
               sticker_files))
       = reconciliation_report state).
Proof.
  intros state. split_and!; try done.
  intros generate_content loads challan_file sticker_files.
  set (cleared := (clear_session state).1).
  assert (reconciliation_report
            (session_of (process_challan generate_content loads cleared challan_file))
          = reconciliation_report state) as Hchallan.
  { unfold process_challan.
    destruct (process_image_with_ai generate_content loads challan_file "CHALLAN")
      as [[result error]|]; [|done].
    by destruct (is_error error). }
  rewrite <- Hchallan.
  set (loaded := session_of (process_challan generate_content loads cleared challan_file)).
  unfold process_stickers. destruct (negb (truthy (challan_data loaded))); [done|].
  destruct sticker_files as [|sticker_file rest]; [done|].
  destruct (sticker_loop_spec generate_content loads (sticker_file :: rest) loaded [])
    as (_ & Hr & _).
  by destruct (sticker_loop generate_content loads loaded [] (sticker_file :: rest)).
Qed.

End ExtractionFacts.

Section SessionFacts.
Import Py Engine Spec App Terms.
Local Open Scope outcome_scope.
Implicit Types (generate_content : request -> reply) (loads : string -> decoded).
Implicit Types (state : session) (shown : list message) (image_file : uploaded_file).

(** X16: the button that processes the challan leaves the scanned stickers
    and the stored report as they are, and the challan is afterwards either
    what it was or the document decoded from the reply of the model, which
    replaces the former challan as a whole. *)
Theorem challan_upload_changes_only_the_challan :
  forall generate_content loads state (challan_file : uploaded_file),
    scanned_stickers (session_of (process_challan generate_content loads state challan_file))
    = scanned_stickers state /\
    reconciliation_report
      (session_of (process_challan generate_content loads state challan_file))
    = reconciliation_report state /\
    (session_of (process_challan generate_content loads state challan_file) = state \/
     exists text,
       generate_content (request_of challan_file "CHALLAN") = Response (Some text) /\
       loads (raw_text_of text)
       = Decoded (challan_data
                    (session_of
                       (process_challan generate_content loads state challan_file))) /\
       process_challan generate_content loads state challan_file
       = Done (session_of (process_challan generate_content loads state challan_file))
              [st_success "Challan processed successfully!"]).
Proof.
  intros generate_content loads state challan_file.
  unfold process_challan, process_image_with_ai.
  destruct (generate_content (request_of challan_file "CHALLAN"))
    as [[text|]|[|e]]; cbn [session_of]; try by split_and!; [..|left].
  destruct (loads (raw_text_of text)) as [json_data|[|e]] eqn:E;
    cbn [is_error session_of]; try by split_and!; [..|left].
  split_and!; [done..|]. right. by exists text.
Qed.

(** X17: a reply that decodes to an empty or null document (an empty
    object or list, null, false, 0 or the empty text) is stored as the
    challan with the success message, although it leaves the session without
    a challan: stickers cannot be processed and a run finds nothing to
    reconcile. *)
Theorem empty_document_is_accepted_as_challan :
  forall generate_content loads state (challan_file : uploaded_file) text json_data,
    generate_content (request_of challan_file "CHALLAN") = Response (Some text) ->
    loads (raw_text_of text) = Decoded json_data ->
    truthy json_data = false ->
    exists state',
      process_challan generate_content loads state challan_file
      = Done state' [st_success "Challan processed successfully!"] /\
      challan_data state' = json_data /\
      (forall sticker_files,
         process_stickers generate_content loads state' sticker_files
         = Done state' [st_warning process_a_challan_first]) /\
      run_reconciliation (challan_data state') (JList (scanned_stickers state'))
      = Ok None.
Proof.
  intros generate_content loads state challan_file text json_data Hreply Hloads Hfalsy.
  unfold process_challan, process_image_with_ai. rewrite Hreply, Hloads.
  cbn [is_error]. eexists. split; [done|]. cbn [challan_data scanned_stickers].
  split_and!; [done| |].
  - intros sticker_files. unfold process_stickers. cbn [challan_data].
    by rewrite Hfalsy.
  - unfold run_reconciliation, no_challan. by rewrite Hfalsy.
Qed.

Lemma empty_document_is_accepted_as_challan_witness :
  client_saying "{}" (request_of example_file "CHALLAN") = Response (Some "{}") /\
  loads_two (raw_text_of "{}") = Decoded (JObj []) /\
  truthy (JObj []) = false /\
  exists state',
    process_challan (client_saying "{}") loads_two example_session example_file
    = Done state' [st_success "Challan processed successfully!"] /\
    challan_data state' = JObj [].
Proof.
  assert (client_saying "{}" (request_of example_file "CHALLAN")
          = Response (Some "{}")) as Hreply by reflexivity.
  assert (loads_two (raw_text_of "{}") = Decoded (JObj [])) as Hloads by reflexivity.
  assert (truthy (JObj []) = false) as Hfalsy by reflexivity.
  split; [exact Hreply|]. split; [exact Hloads|]. split; [exact Hfalsy|].
  destruct (empty_document_is_accepted_as_challan
              (client_saying "{}") loads_two example_session example_file
              "{}" (JObj []) Hreply Hloads Hfalsy)
    as (state' & Hdone & Hchallan & _).
  exists state'. split; [exact Hdone | exact Hchallan].
Defined.

(** X18: a sticker reply that decodes to something else than an object (for
    instance null) is appended to the scanned stickers without any error
    message, and from then on reconciling the session raises
    [AttributeError]. *)
Theorem sticker_that_is_no_record_is_stored_and_stops_the_run :
  forall generate_content loads state (sticker_file : uploaded_file) text json_data
         (challan : fields) (lines before : list fields),
    challan_data state = JObj challan ->
    dict_lookup "lines" challan = Some (JList (JObj <$> lines)) ->
    Forall (fun line => is_int (quantity line) = true) lines ->
    scanned_stickers state = JObj <$> before ->
    generate_content (request_of sticker_file "STICKER") = Response (Some text) ->
    loads (raw_text_of text) = Decoded json_data ->
    is_record json_data = false ->
    exists state',
      process_stickers generate_content loads state [sticker_file]
      = Done state' [st_success "Successfully processed 1 stickers!"] /\
      challan_data state' = challan_data state /\
      scanned_stickers state' = scanned_stickers state ++ [json_data] /\
      run_reconciliation (challan_data state') (JList (scanned_stickers state'))
      = Raise AttributeError.
Proof.
  intros generate_content loads state sticker_file text json_data challan lines before
    Hchallan Hl Hall Hbefore Hreply Hloads Hrecord.
  assert (truthy (challan_data state) = true) as Htruthy.
  { rewrite Hchallan. by destruct challan. }
  unfold process_stickers. rewrite Htruthy. cbn [negb sticker_loop].
  unfold process_image_with_ai. rewrite Hreply, Hloads. cbn [is_error app].
  eexists. split; [reflexivity|]. cbn [challan_data scanned_stickers].
  split_and!; [done..|].
  rewrite Hchallan, Hbefore. by apply (run_stops_at_no_record _ lines).
Qed.

Lemma sticker_that_is_no_record_is_stored_and_stops_the_run_witness :
  challan_data example_session
  = JObj [("challan_number", JStr "DC-17"); ("lines", JList (JObj <$> session_lines))] /\
  dict_lookup "lines"
    [("challan_number", JStr "DC-17"); ("lines", JList (JObj <$> session_lines))]
  = Some (JList (JObj <$> session_lines)) /\
  Forall (fun line => is_int (quantity line) = true) session_lines /\
  scanned_stickers example_session = JObj <$> session_stickers /\
  client_saying "null" (request_of example_file "STICKER") = Response (Some "null") /\
  loads_two (raw_text_of "null") = Decoded JNull /\
  is_record JNull = false /\
  exists state',
    process_stickers (client_saying "null") loads_two example_session [example_file]
    = Done state' [st_success "Successfully processed 1 stickers!"] /\
    run_reconciliation (challan_data state') (JList (scanned_stickers state'))
    = Raise AttributeError.
Proof.
  assert (challan_data example_session
          = JObj [("challan_number", JStr "DC-17");
                  ("lines", JList (JObj <$> session_lines))]) as Hchallan
    by reflexivity.
  assert (dict_lookup "lines"
            [("challan_number", JStr "DC-17");
             ("lines", JList (JObj <$> session_lines))]
          = Some (JList (JObj <$> session_lines))) as Hl by reflexivity.
  assert (Forall (fun line => is_int (quantity line) = true) session_lines) as Hall
    by (repeat constructor).
  assert (scanned_stickers example_session = JObj <$> session_stickers) as Hbefore
    by reflexivity.
  assert (client_saying "null" (request_of example_file "STICKER")
          = Response (Some "null")) as Hreply by reflexivity.
  assert (loads_two (raw_text_of "null") = Decoded JNull) as Hloads by reflexivity.
  assert (is_record JNull = false) as Hrecord by reflexivity.
  split_and!; try assumption.
  destruct (sticker_that_is_no_record_is_stored_and_stops_the_run
              (client_saying "null") loads_two example_session example_file
              "null" JNull _ session_lines session_stickers
              Hchallan Hl Hall Hbefore Hreply Hloads Hrecord)
    as (state' & Hdone & _ & _ & Hrun).
  exists state'. split; [exact Hdone | exact Hrun].
Defined.

(** ** The summary of the dashboard *)









End SessionFacts.
